(** * MoE trading system: aggregation, portfolio simulation, metrics, orchestration

    A shallow embedding of the decision-aggregation and portfolio-simulation
    core of the repository:

    - [core/data_types.py]                 (value objects and their validation)
    - [aggregation/expert_aggregator.py]   (gating weights, decision rule, fallback)
    - [evaluation/portfolio_simulator.py]  (the cash / position ledger)
    - [evaluation/metrics.py]              (trade-level metrics)
    - [evaluation/backtester.py]           (the daily schedule)

    Conventions of the embedding.

    - A Python [float] is modelled twice.  For the numeric identities and
      bounds (sums, averages, returns, weights) it is an exact rational ([Q]);
      [==], [<=], [<] on floats are [Qeq_bool], [Qle_bool] and [Qltb], and a
      value the code tests for NaN ([np.isnan], [pd.isna]) is an [option Q]
      with [None] standing for NaN.  Rounding error is not modelled there, so
      those results hold of the code up to rounding.
    - Where rounding decides a discrete outcome (a share count, the branch an
      order takes, the sign of the cash balance, an exception, the acceptance
      of a probability vector) the same source lines are modelled a second
      time in [Binary64], on IEEE 754 binary64 numbers with the operations in
      the order the code applies them, and the outcome is settled there.
    - A Python [int] is a [Z]; [int(x)] truncates towards zero, and in
      [Binary64] it raises on an infinite or NaN argument.
    - A Python [dict] is an insertion-ordered association list with the
      dictionary operations [dict_get], [dict_set], [dict_del].
    - A raised exception is the result [None] of an [option]-valued function.
    - The position map of the simulator is a mutable object that is shared by
      reference; it lives in a store ([Heap]) and is named by a [ref]. *)

From Stdlib Require Import ZArith QArith Qround Qminmax Qabs.
From Stdlib Require Import List String Bool Lia Lqa Sorted.
From Stdlib Require Floats.
Import ListNotations.
Set Warnings "-inexact-float".
Open Scope Q_scope.

(* ------------------------------------------------------------------------- *)
(** ** Python and numpy primitives *)

Definition Qltb (x y : Q) : bool := negb (Qle_bool y x).

(** [int(x)] on a float: truncation towards zero.  On an exact rational it
    always returns; the [OverflowError] of an infinite argument and the
    [ValueError] of a NaN are those of [Binary64.int]. *)
Definition py_int (x : Q) : Z := Z.quot (Qnum x) (Zpos (Qden x)).

(** [max(a, b)] on floats: the first argument is kept unless the second is
    strictly greater. *)
Definition py_max (a b : Q) : Q := if Qltb a b then b else a.

(** [max(a, b, c)]. *)
Definition py_max3 (a b c : Q) : Q := py_max (py_max a b) c.

(** [sum(xs)]: left-to-right accumulation from [0]. *)
Definition py_sum (xs : list Q) : Q := fold_left Qplus xs 0.

(** [np.isclose(a, b, rtol, atol)]: [|a - b| <= atol + rtol * |b|]; numpy's
    default for [rtol] is [1e-05]. *)
Definition np_isclose (a b rtol atol : Q) : bool :=
  Qle_bool (Qabs (a - b)) (atol + rtol * Qabs b).

Definition np_isclose_default_rtol : Q := 1e-5.

(** [np.mean(xs)] of a non-empty list. *)
Definition np_mean (xs : list Q) : Q := py_sum xs / inject_Z (Z.of_nat (List.length xs)).

(* ------------------------------------------------------------------------- *)
(** ** Dictionaries *)

Definition dict (V : Type) : Type := list (string * V).

Fixpoint dict_get {V} (d : dict V) (k : string) : option V :=
  match d with
  | [] => None
  | (k', v) :: d' => if String.eqb k' k then Some v else dict_get d' k
  end.

(** [k in d] *)
Definition dict_mem {V} (d : dict V) (k : string) : bool :=
  match dict_get d k with Some _ => true | None => false end.

(** [d[k] = v]: an existing key keeps its place, a new key goes last. *)
Fixpoint dict_set {V} (d : dict V) (k : string) (v : V) : dict V :=
  match d with
  | [] => [(k, v)]
  | (k', v') :: d' =>
      if String.eqb k' k then (k', v) :: d' else (k', v') :: dict_set d' k v
  end.

(** [del d[k]] *)
Fixpoint dict_del {V} (d : dict V) (k : string) : dict V :=
  match d with
  | [] => []
  | (k', v') :: d' => if String.eqb k' k then d' else (k', v') :: dict_del d' k
  end.

Definition dict_keys {V} (d : dict V) : list string := map fst d.
Definition dict_values {V} (d : dict V) : list V := map snd d.

(* ------------------------------------------------------------------------- *)
(** ** core/data_types.py *)

Module DecisionProbabilities.
Record t := mk
  { buy_probability : Q;
    hold_probability : Q;
    sell_probability : Q }.

(** [__post_init__]: [true] when no [ValueError] is raised.  The sum is the
    exact one here; the sum as the floats add it up, which decides the check
    on the code, is that of [Binary64.DecisionProbabilities.post_init]. *)
Definition post_init (p : t) : bool :=
  let total := buy_probability p + hold_probability p + sell_probability p in
  np_isclose total 1 np_isclose_default_rtol 1e-6.

(** The constructor call [DecisionProbabilities(b, h, s)]. *)
Definition new (b h s : Q) : option t :=
  let p := mk b h s in
  if post_init p then Some p else None.

Definition to_list (p : t) : list Q :=
  [buy_probability p; hold_probability p; sell_probability p].
End DecisionProbabilities.

Module ExpertConfidence.
Record t := mk
  { confidence_score : Q;
    uncertainty : Q;
    reliability_score : Q }.
End ExpertConfidence.

Module ExpertMetadata.
Record t := mk
  { expert_type : string;
    model_name : string;
    processing_time : Q;
    input_data_quality : Q }.
End ExpertMetadata.

Module ExpertOutput.
Record t := mk
  { probabilities : DecisionProbabilities.t;
    confidence : ExpertConfidence.t;
    metadata : ExpertMetadata.t }.
End ExpertOutput.

Module DecisionType.
Inductive t := BUY | HOLD | SELL.
End DecisionType.

Module TradeAction.
Inductive t := BUY | SELL | HOLD.
End TradeAction.

Module PositionStatus.
Inductive t := OPEN | CLOSED | PARTIAL.
End PositionStatus.

(** [EvaluationPosition] *)
Module Position.
Record t := mk
  { ticker : string;
    quantity : Z;
    avg_price : Q;
    current_price : Q;
    status : PositionStatus.t;
    unrealized_pnl : Q;
    realized_pnl : Q }.

(** [Position(ticker, quantity, avg_price, current_price)] with
    [__post_init__]. *)
Definition new (tk : string) (q : Z) (avg cur : Q) : t :=
  mk tk q avg cur PositionStatus.OPEN ((cur - avg) * inject_Z q) 0.

Definition update_price (p : t) (new_price : Q) : t :=
  mk (ticker p) (quantity p) (avg_price p) new_price (status p)
     ((new_price - avg_price p) * inject_Z (quantity p)) (realized_pnl p).

(** [add_quantity]; [None] is the [ZeroDivisionError] of
    [total_cost / self.quantity]. *)
Definition add_quantity (p : t) (q : Z) (price : Q) : option t :=
  let total_cost := inject_Z (quantity p) * avg_price p + inject_Z q * price in
  let quantity' := (quantity p + q)%Z in
  if (quantity' =? 0)%Z then None
  else
    let p' := mk (ticker p) quantity' (total_cost / inject_Z quantity')
                 (current_price p) (status p) (unrealized_pnl p)
                 (realized_pnl p) in
    Some (update_price p' (current_price p')).

Definition reduce_quantity (p : t) (q : Z) (price : Q) : t :=
  let p' :=
    if (quantity p <=? q)%Z then
      mk (ticker p) 0 (avg_price p) (current_price p) PositionStatus.CLOSED
         (unrealized_pnl p)
         (realized_pnl p + (price - avg_price p) * inject_Z (quantity p))
    else
      mk (ticker p) (quantity p - q) (avg_price p) (current_price p)
         PositionStatus.PARTIAL (unrealized_pnl p)
         (realized_pnl p + (price - avg_price p) * inject_Z q)
  in update_price p' price.
End Position.

(** References to position-map objects, and the store they live in. *)
Definition ref := nat.
Definition Heap := ref -> dict Position.t.

Definition heap_set (h : Heap) (r : ref) (d : dict Position.t) : Heap :=
  fun r' => if Nat.eqb r' r then d else h r'.

(** [sum(pos.quantity * pos.current_price for pos in positions.values())] *)
Definition positions_value (d : dict Position.t) : Q :=
  py_sum (map (fun pos => inject_Z (Position.quantity pos) * Position.current_price pos)
              (dict_values d)).

(** [EvaluationPortfolioState].  The field [positions] holds the reference it
    was given, not a copy of the map. *)
Module PortfolioState.
Record t := mk
  { total_value : Q;
    cash : Q;
    positions : ref;
    date : Z;
    daily_return : Q;
    total_pnl : Q;
    cash_reserve : Q;
    available_capital : Q }.

Definition calculate_total_value (h : Heap) (s : t) : t :=
  let positions_value := positions_value (h (positions s)) in
  mk (cash s + positions_value) (cash s) (positions s) (date s)
     (daily_return s) (total_pnl s) (cash_reserve s) (available_capital s).

Definition calculate_total_pnl (h : Heap) (s : t) : t :=
  let unrealized := py_sum (map Position.unrealized_pnl (dict_values (h (positions s)))) in
  let realized := py_sum (map Position.realized_pnl (dict_values (h (positions s)))) in
  mk (total_value s) (cash s) (positions s) (date s)
     (daily_return s) (unrealized + realized) (cash_reserve s)
     (available_capital s).

(** The dataclass constructor followed by [__post_init__]. *)
Definition new (h : Heap) (total_value cash : Q) (positions : ref) (date : Z)
           (daily_return : Q) : t :=
  calculate_total_pnl h
    (calculate_total_value h (mk total_value cash positions date daily_return 0 0 0)).

Definition set_total_value (s : t) (v : Q) : t :=
  mk v (cash s) (positions s) (date s) (daily_return s) (total_pnl s)
     (cash_reserve s) (available_capital s).

Definition set_reserve (s : t) (reserve available : Q) : t :=
  mk (total_value s) (cash s) (positions s) (date s) (daily_return s)
     (total_pnl s) reserve available.
End PortfolioState.

Definition create_evaluation_portfolio_state
           (h : Heap) (cash : Q) (positions : ref) (date : Z) (daily_return : Q)
  : PortfolioState.t :=
  PortfolioState.new h (cash + positions_value (h positions)) cash positions
                     date daily_return.

(** The texts a trade can carry; the numbers are kept, their decimal
    formatting is not. *)
Inductive Message :=
| SufficientCash
| InsufficientCash (required available : Q)
| PartialExecution (quantity : Z)
| CannotExecuteBuy (m : Message)
| NoPositionToSell (ticker : string)
| PartialSell (quantity : Z)
| FullSell.

Module TradeRecord.
Record t := mk
  { date : Z;
    ticker : string;
    action : TradeAction.t;
    quantity : Z;
    price : Q;
    value : Q;
    transaction_cost : Q;
    slippage : Q;
    total_cost : Q;
    confidence : option Q;
    reasoning : string;
    expert_outputs : dict ExpertOutput.t;
    portfolio_state_before : PortfolioState.t;
    portfolio_state_after : PortfolioState.t;
    success : bool;
    error_message : option Message }.

Definition set_error_message (r : t) (m : Message) : t :=
  mk (date r) (ticker r) (action r) (quantity r) (price r) (value r)
     (transaction_cost r) (slippage r) (total_cost r) (confidence r)
     (reasoning r) (expert_outputs r) (portfolio_state_before r)
     (portfolio_state_after r) (success r) (Some m).
End TradeRecord.

(** [create_trade_record]; the keyword defaults [transaction_cost=0.001] and
    [slippage=0.0005] are the ones every caller in the simulator relies on. *)
Definition create_trade_record
           (date : Z) (ticker : string) (action : TradeAction.t) (quantity : Z)
           (price : Q) (confidence : option Q) (reasoning : string)
           (expert_outputs : dict ExpertOutput.t)
           (before after : PortfolioState.t)
           (success : bool) (error_message : option Message) : TradeRecord.t :=
  let value := inject_Z quantity * price in
  let transaction_cost := 0.001 in
  let slippage := 0.0005 in
  TradeRecord.mk date ticker action quantity price value transaction_cost
                 slippage (value + transaction_cost + slippage) confidence
                 reasoning expert_outputs before after success error_message.

Module PortfolioSimulatorConfig.
Record t := mk
  { initial_capital : Q;
    position_sizing : Q;
    max_positions : Z;
    cash_reserve : Q;
    min_cash_reserve : Q;
    transaction_cost : Q;
    slippage : Q;
    enable_short_selling : bool;
    enable_margin : bool;
    max_position_size : Q }.

(** The dataclass defaults. *)
Definition default : t :=
  mk 100000 0.08 10 0.2 0.1 0.001 0.0005 false false 0.25.
End PortfolioSimulatorConfig.

(* ------------------------------------------------------------------------- *)
(** ** evaluation/portfolio_simulator.py *)

(** [PortfolioSimulator].  [self.positions] is created once by [__init__] and
    from then on only mutated in place, so it is one object of the store
    [heap], at the reference [positions]; every [Position] is reachable only
    through the map that holds it, so that mutating a position in place is
    writing its entry of that map. *)
Module PortfolioSimulator.
Record t := mk
  { config : PortfolioSimulatorConfig.t;
    initial_capital : Q;
    cash : Q;
    positions : ref;
    trade_history : list TradeRecord.t;
    portfolio_history : list PortfolioState.t;
    current_state : PortfolioState.t;
    heap : Heap }.

Definition transaction_cost (s : t) : Q :=
  PortfolioSimulatorConfig.transaction_cost (config s).
Definition slippage (s : t) : Q :=
  PortfolioSimulatorConfig.slippage (config s).

(** [__init__]; [now] is the value of [datetime.now()]. *)
Definition init (config : PortfolioSimulatorConfig.t) (now : Z) : t :=
  let initial_capital := PortfolioSimulatorConfig.initial_capital config in
  let cash := initial_capital in
  let heap : Heap := fun _ => [] in
  let positions : ref := 0%nat in
  let current_state :=
    create_evaluation_portfolio_state heap cash positions now 0 in
  let current_state := PortfolioState.set_total_value current_state initial_capital in
  mk config initial_capital cash positions [] [] current_state heap.

Definition get_portfolio_state (s : t) : PortfolioState.t := current_state s.

(** [calculate_position_size] on exact quotients.  The count the code
    orders is the truncation of the rounded quotients, which is
    [Binary64.PortfolioSimulator.calculate_position_size]. *)
Definition calculate_position_size
           (s : t) (ticker : string) (price : Q) (confidence : option Q) : Z :=
  if Qle_bool price 0 then 0%Z
  else
    let confidence := match confidence with None => 0.5 | Some c => c end in
    let total_value := PortfolioState.total_value (current_state s) in
    let base_size :=
      total_value * PortfolioSimulatorConfig.position_sizing (config s) in
    let confidence_multiplier := 0.5 + confidence * 0.5 in
    let adjusted_size := base_size * confidence_multiplier in
    let shares := py_int (adjusted_size / price) in
    let max_position_value :=
      total_value * PortfolioSimulatorConfig.max_position_size (config s) in
    let max_shares := py_int (max_position_value / price) in
    let shares := Z.min shares max_shares in
    let min_position_value := total_value * 0.01 in
    let min_shares := Z.max 1 (py_int (min_position_value / price)) in
    Z.max shares min_shares.

(** [check_cash_availability] on exact amounts; on the rounded ones it is
    [Binary64.PortfolioSimulator.check_cash_availability]. *)
Definition check_cash_availability (s : t) (required_cash : Q)
  : bool * Q * Message :=
  let required_reserve :=
    PortfolioState.total_value (current_state s)
    * PortfolioSimulatorConfig.min_cash_reserve (config s) in
  let available_cash := cash s - required_reserve in
  if Qle_bool required_cash available_cash
  then (true, available_cash, SufficientCash)
  else (false, available_cash, InsufficientCash required_cash available_cash).

Definition _update_portfolio_state (s : t) (date : Z) : t :=
  let total_value := PortfolioState.total_value (current_state s) in
  let cash_reserve :=
    total_value * PortfolioSimulatorConfig.cash_reserve (config s) in
  let available_capital := cash s - cash_reserve in
  let daily_return :=
    match rev (portfolio_history s) with
    | [] => 0
    | prev :: _ =>
        let prev_value := PortfolioState.total_value prev in
        if Qltb 0 prev_value then (total_value - prev_value) / prev_value
        else 0
    end in
  let current_state :=
    create_evaluation_portfolio_state (heap s) (cash s) (positions s) date
                                      daily_return in
  let current_state :=
    PortfolioState.set_reserve current_state cash_reserve available_capital in
  mk (config s) (initial_capital s) (cash s) (positions s) (trade_history s)
     (portfolio_history s ++ [current_state]) current_state (heap s).

(** The two writes of a trade: the cash balance and the position map. *)
Definition write_ledger (s : t) (cash' : Q) (d : dict Position.t) : t :=
  mk (config s) (initial_capital s) cash' (positions s) (trade_history s)
     (portfolio_history s) (current_state s)
     (heap_set (heap s) (positions s) d).

Definition append_trade (s : t) (r : TradeRecord.t) : t :=
  mk (config s) (initial_capital s) (cash s) (positions s)
     (trade_history s ++ [r]) (portfolio_history s) (current_state s) (heap s).

(** The order that is finally placed by [_execute_buy]: the full order when
    the cash suffices, the partial one otherwise, [None] when not even one
    share can be bought.  The amounts are exact here; which branch the code
    takes on the rounded amounts, and with how many shares, is settled on
    [Binary64.PortfolioSimulator._execute_buy]. *)
Definition buy_order (s : t) (quantity : Z) (price : Q)
  : option (Z * Q * Message) * Message :=
  let trade_value := inject_Z quantity * price in
  let transaction_cost := trade_value * transaction_cost s in
  let slippage := trade_value * slippage s in
  let total_cost := trade_value + transaction_cost + slippage in
  let '(is_available, available_cash, message) :=
    check_cash_availability s total_cost in
  if is_available then (Some (quantity, total_cost, message), message)
  else
    let denominator :=
      price * (1 + PortfolioSimulator.transaction_cost s + PortfolioSimulator.slippage s) in
    let max_quantity :=
      if Qltb 0 denominator then py_int (available_cash / denominator)
      else 0%Z in
    if (0 <? max_quantity)%Z then
      let quantity := max_quantity in
      let trade_value := inject_Z quantity * price in
      let transaction_cost := trade_value * PortfolioSimulator.transaction_cost s in
      let slippage := trade_value * PortfolioSimulator.slippage s in
      let total_cost := trade_value + transaction_cost + slippage in
      (Some (quantity, total_cost, PartialExecution quantity),
       PartialExecution quantity)
    else (None, message).

(** [_execute_buy]; [None] is an exception escaping the call. *)
Definition _execute_buy
           (s : t) (ticker : string) (quantity : Z) (price : Q)
           (confidence : option Q) (reasoning : string)
           (expert_outputs : dict ExpertOutput.t) (date : Z)
           (portfolio_state_before : PortfolioState.t)
  : option (TradeRecord.t * t) :=
  match buy_order s quantity price with
  | (None, message) =>
      Some (create_trade_record date ticker TradeAction.BUY 0 price confidence
              reasoning expert_outputs portfolio_state_before
              (current_state s) false (Some (CannotExecuteBuy message)), s)
  | (Some (quantity, total_cost, message), _) =>
      let cash' := cash s - total_cost in
      let d := heap s (positions s) in
      let written :=
        match dict_get d ticker with
        | Some position =>
            match Position.add_quantity position quantity price with
            | Some position' => Some (dict_set d ticker position')
            | None => None
            end
        | None =>
            Some (dict_set d ticker (Position.new ticker quantity price price))
        end in
      match written with
      | None => None
      | Some d' =>
          let s := write_ledger s cash' d' in
          let s := _update_portfolio_state s date in
          let trade_record :=
            create_trade_record date ticker TradeAction.BUY quantity price
              confidence reasoning expert_outputs portfolio_state_before
              (current_state s) true None in
          let trade_record :=
            match message with
            | PartialExecution _ =>
                TradeRecord.set_error_message trade_record message
            | _ => trade_record
            end in
          Some (trade_record, append_trade s trade_record)
      end
  end.

Definition _execute_sell
           (s : t) (ticker : string) (quantity : Z) (price : Q)
           (confidence : option Q) (reasoning : string)
           (expert_outputs : dict ExpertOutput.t) (date : Z)
           (portfolio_state_before : PortfolioState.t)
  : option (TradeRecord.t * t) :=
  let d := heap s (positions s) in
  match dict_get d ticker with
  | None =>
      Some (create_trade_record date ticker TradeAction.SELL 0 price
              confidence reasoning expert_outputs portfolio_state_before
              (current_state s) false (Some (NoPositionToSell ticker)), s)
  | Some position =>
      let available_quantity := Position.quantity position in
      let '(quantity, message) :=
        if (available_quantity <? quantity)%Z
        then (available_quantity, PartialSell available_quantity)
        else (quantity, FullSell) in
      let trade_value := inject_Z quantity * price in
      let transaction_cost := trade_value * transaction_cost s in
      let slippage := trade_value * slippage s in
      let net_proceeds := trade_value - transaction_cost - slippage in
      let cash' := cash s + net_proceeds in
      let position := Position.reduce_quantity position quantity price in
      let d := dict_set d ticker position in
      let d := if (Position.quantity position =? 0)%Z then dict_del d ticker
               else d in
      let s := write_ledger s cash' d in
      let s := _update_portfolio_state s date in
      let trade_record :=
        create_trade_record date ticker TradeAction.SELL quantity price
          confidence reasoning expert_outputs portfolio_state_before
          (current_state s) true None in
      let trade_record :=
        match message with
        | PartialSell _ => TradeRecord.set_error_message trade_record message
        | _ => trade_record
        end in
      Some (trade_record, append_trade s trade_record)
  end.

Definition execute_trade
           (s : t) (ticker : string) (action : TradeAction.t) (price : Q)
           (confidence : option Q) (reasoning : string)
           (expert_outputs : dict ExpertOutput.t) (date : Z)
  : option (TradeRecord.t * t) :=
  let portfolio_state_before := current_state s in
  match action with
  | TradeAction.HOLD =>
      Some (create_trade_record date ticker action 0 price confidence
              reasoning expert_outputs portfolio_state_before
              (current_state s) true None, s)
  | TradeAction.BUY =>
      let quantity := calculate_position_size s ticker price confidence in
      _execute_buy s ticker quantity price confidence reasoning
                   expert_outputs date portfolio_state_before
  | TradeAction.SELL =>
      let quantity := calculate_position_size s ticker price confidence in
      _execute_sell s ticker quantity price confidence reasoning
                    expert_outputs date portfolio_state_before
  end.

(** One iteration of the loop of [update_prices]; a NaN price is [None]. *)
Definition update_one_price (d : dict Position.t) (u : string * option Q)
  : dict Position.t :=
  match snd u with
  | None => d
  | Some new_price =>
      if Qle_bool new_price 0 then d
      else
        match dict_get d (fst u) with
        | Some position =>
            dict_set d (fst u) (Position.update_price position new_price)
        | None => d
        end
  end.

Definition update_prices (s : t) (price_updates : dict (option Q)) (date : Z)
  : t :=
  let d := fold_left update_one_price price_updates (heap s (positions s)) in
  _update_portfolio_state (write_ledger s (cash s) d) date.
End PortfolioSimulator.

(** *** Sequences of calls on a simulator *)

Inductive Call :=
| ExecuteTrade (ticker : string) (action : TradeAction.t) (price : Q)
               (confidence : option Q) (reasoning : string)
               (expert_outputs : dict ExpertOutput.t) (date : Z)
| UpdatePrices (price_updates : dict (option Q)) (date : Z).

(** One call with the simulator before it, the record it returned (if it
    returns one) and the simulator after it. *)
Record Step := mkStep
  { before : PortfolioSimulator.t;
    call : Call;
    returned : option TradeRecord.t;
    after : PortfolioSimulator.t }.

Definition do_call (s : PortfolioSimulator.t) (c : Call)
  : option (option TradeRecord.t * PortfolioSimulator.t) :=
  match c with
  | ExecuteTrade ticker action price confidence reasoning expert_outputs date =>
      match PortfolioSimulator.execute_trade s ticker action price confidence
                                             reasoning expert_outputs date with
      | Some (record, s') => Some (Some record, s')
      | None => None
      end
  | UpdatePrices price_updates date =>
      Some (None, PortfolioSimulator.update_prices s price_updates date)
  end.

(** The calls run one after the other; [None] when one of them raises. *)
Fixpoint run (s : PortfolioSimulator.t) (calls : list Call) : option (list Step) :=
  match calls with
  | [] => Some []
  | c :: calls' =>
      match do_call s c with
      | None => None
      | Some (r, s') =>
          match run s' calls' with
          | None => None
          | Some steps => Some (mkStep s c r s' :: steps)
          end
      end
  end.

(** The trades of a sequence are made at a positive price. *)
Definition priced (c : Call) : Prop :=
  match c with
  | ExecuteTrade _ _ price _ _ _ _ => 0 < price
  | UpdatePrices _ _ => True
  end.

(** The position map the simulator currently points to. *)
Definition live_positions (s : PortfolioSimulator.t) : dict Position.t :=
  PortfolioSimulator.heap s (PortfolioSimulator.positions s).

(** The cash a BUY may spend: [cash - total_value * min_cash_reserve]. *)
Definition available_cash (s : PortfolioSimulator.t) : Q :=
  PortfolioSimulator.cash s
  - PortfolioState.total_value (PortfolioSimulator.current_state s)
    * PortfolioSimulatorConfig.min_cash_reserve (PortfolioSimulator.config s).

(** The cost of one share: [price * (1 + transaction_cost + slippage)]. *)
Definition unit_cost (s : PortfolioSimulator.t) (price : Q) : Q :=
  price * (1 + PortfolioSimulator.transaction_cost s + PortfolioSimulator.slippage s).

(** The total cost of an order as [_execute_buy] adds it up:
    [trade_value + transaction_cost + slippage]. *)
Definition order_cost (s : PortfolioSimulator.t) (quantity : Z) (price : Q) : Q :=
  let trade_value := inject_Z quantity * price in
  trade_value + trade_value * PortfolioSimulator.transaction_cost s
  + trade_value * PortfolioSimulator.slippage s.

(** The position map of a snapshot as it reads once the simulator is in
    state [s]: the snapshot holds a reference, the map is in the store. *)
Definition snapshot_positions (s : PortfolioSimulator.t) (snapshot : PortfolioState.t)
  : dict Position.t :=
  PortfolioSimulator.heap s (PortfolioState.positions snapshot).

(** All the snapshots of the history hold the reference of the live map. *)
Definition history_aliases_live_map (s : PortfolioSimulator.t) : Prop :=
  Forall (fun snapshot =>
            PortfolioState.positions snapshot = PortfolioSimulator.positions s)
         (PortfolioSimulator.portfolio_history s).

(* ------------------------------------------------------------------------- *)
(** ** aggregation/expert_aggregator.py *)

Module ExpertContribution.
Record t := mk
  { expert_name : string;
    expert_output : ExpertOutput.t;
    weight : Q;
    contribution : DecisionProbabilities.t;
    confidence : Q;
    processing_time : Q }.
End ExpertContribution.

(** [AggregationResult]; the wall-clock field [processing_time] is left out. *)
Module AggregationResult.
Record t := mk
  { final_probabilities : DecisionProbabilities.t;
    expert_contributions : dict ExpertContribution.t;
    aggregation_method : string;
    gating_weights : dict Q;
    overall_confidence : Q;
    decision_type : DecisionType.t;
    reasoning : string }.
End AggregationResult.

(** What one expert did when it was run: it returned an output, returned
    nothing, or raised. *)
Inductive ExpertRun :=
| Returned (output : option ExpertOutput.t)
| Raised.

Module ExpertAggregator.
Section WithExternals.

(** [np.log], and the text produced by [_generate_reasoning] (its float
    formatting is outside the embedding). *)
Variable np_log : Q -> Q.
Variable _generate_reasoning :
  dict ExpertContribution.t -> DecisionType.t -> string.

(** [_run_all_experts], given what the four experts did, in the order they
    are run; an exception ends the run with the outputs collected so far. *)
Fixpoint collect_outputs (runs : list (string * ExpertRun))
         (expert_outputs : dict ExpertOutput.t) : dict ExpertOutput.t :=
  match runs with
  | [] => expert_outputs
  | (name, Returned (Some result)) :: runs' =>
      collect_outputs runs' (dict_set expert_outputs name result)
  | (name, Returned None) :: runs' => collect_outputs runs' expert_outputs
  | (name, Raised) :: _ => expert_outputs
  end.

Definition _run_all_experts (sentiment technical fundamental chart : ExpertRun)
  : dict ExpertOutput.t :=
  collect_outputs [("sentiment"%string, sentiment); ("technical"%string, technical);
                   ("fundamental"%string, fundamental); ("chart"%string, chart)] [].

(** [-sum(p * np.log(p + 1e-10) for p in probabilities if p > 0)] *)
Definition entropy (probabilities : list Q) : Q :=
  - py_sum (map (fun p => p * np_log (p + 1e-10))
                (filter (fun p => Qltb 0 p) probabilities)).

(** The weight an expert gets before normalisation: the body of the loop of
    [_calculate_gating_weights]. *)
Definition raw_weight (output : ExpertOutput.t) : Q :=
  let confidence_weight :=
    ExpertConfidence.confidence_score (ExpertOutput.confidence output) in
  let data_quality_bonus :=
    ExpertMetadata.input_data_quality (ExpertOutput.metadata output) * 0.4 in
  let probabilities :=
    DecisionProbabilities.to_list (ExpertOutput.probabilities output) in
  let entropy := entropy probabilities in
  let certainty_bonus := (1 - entropy / np_log 3) * 0.4 in
  let weight := confidence_weight + data_quality_bonus + certainty_bonus in
  py_max 0.1 weight.

Definition gating_step (acc : dict Q * Q) (item : string * ExpertOutput.t)
  : dict Q * Q :=
  let '(weights, total_weight) := acc in
  let weights := dict_set weights (fst item) (raw_weight (snd item)) in
  (weights, total_weight + raw_weight (snd item)).

Definition _calculate_gating_weights (expert_outputs : dict ExpertOutput.t)
  : dict Q :=
  let '(weights, total_weight) := fold_left gating_step expert_outputs ([], 0) in
  if Qltb 0 total_weight then
    map (fun '(name, weight) => (name, weight / total_weight)) weights
  else
    let num_experts := inject_Z (Z.of_nat (List.length expert_outputs)) in
    map (fun name => (name, 1 / num_experts)) (dict_keys expert_outputs).

Definition weights_get (weights : dict Q) (name : string) : Q :=
  match dict_get weights name with Some w => w | None => 0 end.

Definition aggregate_step (weights : dict Q) (acc : Q * Q * Q)
           (item : string * ExpertOutput.t) : Q * Q * Q :=
  let '(aggregated_buy, aggregated_hold, aggregated_sell) := acc in
  let weight := weights_get weights (fst item) in
  let p := ExpertOutput.probabilities (snd item) in
  (aggregated_buy + DecisionProbabilities.buy_probability p * weight,
   aggregated_hold + DecisionProbabilities.hold_probability p * weight,
   aggregated_sell + DecisionProbabilities.sell_probability p * weight).

(** [None] is the [ValueError] of the [DecisionProbabilities] constructor. *)
Definition _aggregate_probabilities
           (expert_outputs : dict ExpertOutput.t) (weights : dict Q)
  : option DecisionProbabilities.t :=
  let '(aggregated_buy, aggregated_hold, aggregated_sell) :=
    fold_left (aggregate_step weights) expert_outputs (0, 0, 0) in
  let total := aggregated_buy + aggregated_hold + aggregated_sell in
  if Qltb 0 total then
    DecisionProbabilities.new (aggregated_buy / total) (aggregated_hold / total)
                              (aggregated_sell / total)
  else
    DecisionProbabilities.new aggregated_buy aggregated_hold aggregated_sell.

Definition _create_expert_contributions
           (expert_outputs : dict ExpertOutput.t) (weights : dict Q)
  : dict ExpertContribution.t :=
  fold_left
    (fun contributions item =>
       let output := snd item in
       dict_set contributions (fst item)
         (ExpertContribution.mk (fst item) output
            (weights_get weights (fst item))
            (ExpertOutput.probabilities output)
            (ExpertConfidence.confidence_score (ExpertOutput.confidence output))
            (ExpertMetadata.processing_time (ExpertOutput.metadata output))))
    expert_outputs [].

Definition _determine_decision (probabilities : DecisionProbabilities.t)
  : DecisionType.t :=
  let buy_prob := DecisionProbabilities.buy_probability probabilities in
  let hold_prob := DecisionProbabilities.hold_probability probabilities in
  let sell_prob := DecisionProbabilities.sell_probability probabilities in
  let max_prob := py_max3 buy_prob hold_prob sell_prob in
  if Qeq_bool max_prob buy_prob then DecisionType.BUY
  else if Qeq_bool max_prob sell_prob then DecisionType.SELL
  else DecisionType.HOLD.

Definition _calculate_overall_confidence
           (contributions : dict ExpertContribution.t) : Q :=
  match contributions with
  | [] => 0
  | _ =>
      let '(total_confidence, total_weight) :=
        fold_left
          (fun acc contribution =>
             (fst acc + ExpertContribution.confidence contribution
                        * ExpertContribution.weight contribution,
              snd acc + ExpertContribution.weight contribution))
          (dict_values contributions) (0, 0) in
      if Qltb 0 total_weight then total_confidence / total_weight else 0
  end.

Definition _create_fallback_result : option AggregationResult.t :=
  match DecisionProbabilities.new 0 1 0 with
  | None => None
  | Some final_probabilities =>
      Some (AggregationResult.mk final_probabilities [] "fallback" [] 0.1
              DecisionType.HOLD "Aggregation failed - using fallback decision")
  end.

(** The [try] block of [aggregate_experts]; [None] is an exception raised
    inside it. *)
Definition aggregate_body (expert_outputs : dict ExpertOutput.t)
  : option AggregationResult.t :=
  match expert_outputs with
  | [] => _create_fallback_result
  | _ =>
      let gating_weights := _calculate_gating_weights expert_outputs in
      match _aggregate_probabilities expert_outputs gating_weights with
      | None => None
      | Some final_probabilities =>
          let expert_contributions :=
            _create_expert_contributions expert_outputs gating_weights in
          let decision_type := _determine_decision final_probabilities in
          let overall_confidence :=
            _calculate_overall_confidence expert_contributions in
          let reasoning :=
            _generate_reasoning expert_contributions decision_type in
          Some (AggregationResult.mk final_probabilities expert_contributions
                  "dynamic_gating" gating_weights overall_confidence
                  decision_type reasoning)
      end
  end.

(** [aggregate_experts]: the [try] block, and the fallback of its
    [except Exception] handler.  [None] is an exception escaping the call. *)
Definition aggregate_experts (sentiment technical fundamental chart : ExpertRun)
  : option AggregationResult.t :=
  let expert_outputs := _run_all_experts sentiment technical fundamental chart in
  match aggregate_body expert_outputs with
  | Some result => Some result
  | None => _create_fallback_result
  end.

End WithExternals.
End ExpertAggregator.

(* ------------------------------------------------------------------------- *)
(** ** evaluation/metrics.py *)

(** A float that may be the sentinel [float('inf')]. *)
Inductive pyfloat :=
| Fin (q : Q)
| Inf.

Module MetricsCalculator.

Definition is_trade (t : TradeRecord.t) : bool :=
  match TradeRecord.action t with
  | TradeAction.BUY | TradeAction.SELL => true
  | TradeAction.HOLD => false
  end.

Definition is_successful (a : TradeAction.t) (t : TradeRecord.t) : bool :=
  match TradeRecord.action t, a with
  | TradeAction.BUY, TradeAction.BUY => TradeRecord.success t
  | TradeAction.SELL, TradeAction.SELL => TradeRecord.success t
  | _, _ => false
  end.

(** The return of one trade at portfolio level; [None] is the
    [ZeroDivisionError] of a zero value before the trade. *)
Definition trade_return (t : TradeRecord.t) : option Q :=
  let before := PortfolioState.total_value (TradeRecord.portfolio_state_before t) in
  let after := PortfolioState.total_value (TradeRecord.portfolio_state_after t) in
  if Qeq_bool before 0 then None else Some ((after - before) / before).

Fixpoint trade_returns_of (trades : list TradeRecord.t) : option (list Q) :=
  match trades with
  | [] => Some []
  | t :: trades' =>
      match trade_return t, trade_returns_of trades' with
      | Some r, Some rs => Some (r :: rs)
      | _, _ => None
      end
  end.

Definition winning (trade_returns : list Q) : list Q :=
  filter (fun r => Qltb 0 r) trade_returns.
Definition losing (trade_returns : list Q) : list Q :=
  filter (fun r => Qltb r 0) trade_returns.

Definition sum_or_zero (xs : list Q) : Q :=
  match xs with [] => 0 | _ => py_sum xs end.
Definition abs_sum_or_zero (xs : list Q) : Q :=
  match xs with [] => 0 | _ => Qabs (py_sum xs) end.
Definition mean_or_zero (xs : list Q) : Q :=
  match xs with [] => 0 | _ => np_mean xs end.

Definition len (xs : list Q) : Q := inject_Z (Z.of_nat (List.length xs)).

Fixpoint py_max_list (x : Q) (xs : list Q) : Q :=
  match xs with [] => x | y :: ys => py_max_list (py_max x y) ys end.
Definition py_min (a b : Q) : Q := if Qltb b a then b else a.
Fixpoint py_min_list (x : Q) (xs : list Q) : Q :=
  match xs with [] => x | y :: ys => py_min_list (py_min x y) ys end.

(** [_calculate_trading_metrics]:
    [(win_rate, profit_factor, avg_trade_return, best_trade, worst_trade)]. *)
Definition _calculate_trading_metrics (trade_log : list TradeRecord.t)
  : option (Q * pyfloat * Q * Q * Q) :=
  match filter is_trade trade_log with
  | [] => Some (0, Fin 0, 0, 0, 0)
  | trades =>
      match trade_returns_of trades with
      | None => None
      | Some [] => Some (0, Fin 0, 0, 0, 0)
      | Some ((r :: rs) as trade_returns) =>
          let winning_trades := winning trade_returns in
          let losing_trades := losing trade_returns in
          let win_rate := len winning_trades / len trade_returns in
          let avg_trade_return := np_mean trade_returns in
          let best_trade := py_max_list r rs in
          let worst_trade := py_min_list r rs in
          let total_profit := sum_or_zero winning_trades in
          let total_loss := abs_sum_or_zero losing_trades in
          let profit_factor :=
            if Qltb 0 total_loss then Fin (total_profit / total_loss)
            else Inf in
          Some (win_rate, profit_factor, avg_trade_return, best_trade,
                worst_trade)
      end
  end.

(** The list [trade_returns] that [_calculate_ticker_trading_metrics]
    builds from the successful buys and sells of the ticker. *)
Definition ticker_trade_returns (ticker_trades : list TradeRecord.t) : list Q :=
  let buy_trades := filter (is_successful TradeAction.BUY) ticker_trades in
  let sell_trades := filter (is_successful TradeAction.SELL) ticker_trades in
  match buy_trades, sell_trades with
  | _ :: _, _ :: _ =>
      let total_buy_value := py_sum (map TradeRecord.value buy_trades) in
      let total_sell_value := py_sum (map TradeRecord.value sell_trades) in
      if Qltb 0 total_buy_value then
        let avg_return := (total_sell_value - total_buy_value) / total_buy_value in
        repeat avg_return (List.length sell_trades)
      else []
  | _ :: _, [] => repeat (- 0.001) (List.length buy_trades)
  | [], _ => []
  end.

(** [_calculate_ticker_trading_metrics]:
    [(win_rate, avg_win, avg_loss, profit_factor)]. *)
Definition _calculate_ticker_trading_metrics (ticker_trades : list TradeRecord.t)
  : Q * Q * Q * pyfloat :=
  match ticker_trades with
  | [] => (0, 0, 0, Fin 0)
  | _ =>
      match ticker_trade_returns ticker_trades with
      | [] => (0, 0, 0, Fin 0)
      | trade_returns =>
          let winning_trades := winning trade_returns in
          let losing_trades := losing trade_returns in
          let win_rate := len winning_trades / len trade_returns in
          let avg_win := mean_or_zero winning_trades in
          let avg_loss := mean_or_zero losing_trades in
          let total_wins := sum_or_zero winning_trades in
          let total_losses := abs_sum_or_zero losing_trades in
          let profit_factor :=
            if Qltb 0 total_losses then Fin (total_wins / total_losses)
            else Fin 0 in
          (win_rate, avg_win, avg_loss, profit_factor)
      end
  end.

End MetricsCalculator.

(* ------------------------------------------------------------------------- *)
(** ** evaluation/backtester.py *)

Module HighPerformanceBacktester.

(** A loaded price series indexed by date: the rows [(date, close)], a NaN
    close being [None]. *)
Definition frame := list (Z * option Q).

Definition index (data : frame) : list Z := map fst data.

(** [date in data.index] *)
Definition in_index (data : frame) (d : Z) : bool :=
  existsb (Z.eqb d) (index data).

(** [data.loc[date, 'close']] for a date of the index. *)
Fixpoint loc_close (data : frame) (d : Z) : option Q :=
  match data with
  | [] => None
  | (d', close) :: data' => if Z.eqb d' d then close else loc_close data' d
  end.

Section WithLoader.

(** [load_prices_for_ticker]; [None] when the data cannot be loaded. *)
Variable load_prices_for_ticker : string -> option frame.

(** The loading loop; [None] when it ends by [return None]. *)
Fixpoint load_all (tickers : list string) (price_data : dict frame)
  : option (dict frame) :=
  match tickers with
  | [] => Some price_data
  | ticker :: tickers' =>
      match load_prices_for_ticker ticker with
      | Some data => load_all tickers' (dict_set price_data ticker data)
      | None => None
      end
  end.

(** [all_dates.update(ticker_data.index)] for every loaded series. *)
Definition all_dates (price_data : dict frame) : list Z :=
  fold_left (fun all_dates ticker_data => all_dates ++ index ticker_data)
            (dict_values price_data) [].

(** [sorted(list(set))]: increasing, without repetition. *)
Fixpoint insert_sorted (d : Z) (l : list Z) : list Z :=
  match l with
  | [] => [d]
  | x :: l' =>
      if (d <? x)%Z then d :: l
      else if (d =? x)%Z then l
      else x :: insert_sorted d l'
  end.

Definition sorted_set (l : list Z) : list Z :=
  fold_left (fun acc d => insert_sorted d acc) l [].

Definition trading_dates (price_data : dict frame) (start_date end_date : Z)
  : list Z :=
  filter (fun d => (start_date <=? d)%Z && (d <=? end_date)%Z)
         (sorted_set (all_dates price_data)).

(** The calls [_process_ticker_optimized(ticker, current_date,
    current_price)] made for one day, in order. *)
Definition calls_of_day (tickers : list string) (price_data : dict frame)
           (current_date : Z) : list (Z * string * Q) :=
  flat_map
    (fun ticker =>
       match dict_get price_data ticker with
       | Some data =>
           if in_index data current_date then
             match loc_close data current_date with
             | Some current_price =>
                 if Qltb 0 current_price
                 then [(current_date, ticker, current_price)]
                 else []
             | None => []
             end
           else []
       | None => []
       end)
    tickers.

Inductive outcome :=
| LoadFailed                      (* [return None] *)
| NoTradingDay                    (* the [IndexError] of [trading_dates[0]] *)
| Ran (days : list Z) (calls : list (Z * string * Q)).

(** The schedule of [run_backtest]: the days of the loop and the
    ticker-days it processes. *)
Definition run_backtest (tickers : list string) (start_date end_date : Z)
  : outcome :=
  match load_all tickers [] with
  | None => LoadFailed
  | Some price_data =>
      match trading_dates price_data start_date end_date with
      | [] => NoTradingDay
      | days =>
          Ran days (flat_map (calls_of_day tickers price_data) days)
      end
  end.

End WithLoader.
End HighPerformanceBacktester.

(* ------------------------------------------------------------------------- *)
(** ** Binary64: the arithmetic of the code, bit for bit *)

(** A Python [float] is an IEEE binary64 number, and so is a primitive float
    of Rocq: [+], [-], [*], [/] round to nearest-even as the machine does,
    and the comparisons are those of IEEE 754 (false on a NaN).  The
    functions below are the ones of [core/data_types.py] and
    [evaluation/portfolio_simulator.py] whose outcome is an integer, a branch
    or an exception, and therefore depends on how the floats round: the
    share count of an order, the decision whether the cash suffices, the cash
    left after a BUY, the check of the constructor of
    [DecisionProbabilities].  Each is translated from the same source lines
    as its counterpart on exact rationals above, and it is on these that the
    claims about such outcomes are settled. *)
Module Binary64.
Import PrimFloat FloatOps SpecFloat.
Local Open Scope float_scope.

(** [int(x)]: truncation towards zero.  [None] is the [OverflowError] of an
    infinite argument and the [ValueError] of a NaN. *)
Definition int (x : float) : option Z :=
  match Prim2SF x with
  | S754_zero _ => Some 0%Z
  | S754_finite negative m e =>
      let magnitude :=
        match e with
        | Zneg k => Z.shiftr (Zpos m) (Zpos k)
        | _ => Z.shiftl (Zpos m) e
        end in
      Some (if negative then (- magnitude)%Z else magnitude)
  | S754_infinity _ | S754_nan => None
  end.

(** The conversion of an [int] operand of a float operation: the nearest
    float, ties to even.  [None] is the [OverflowError] of an integer too
    large for a float. *)
Definition of_int (n : Z) : option float :=
  let x := SF2Prim (binary_normalize prec emax n 0 false) in
  if is_infinity x then None else Some x.

(** [np.isclose(a, b, rtol, atol)] for a finite [b]:
    [abs(a - b) <= atol + rtol * abs(b)]. *)
Definition np_isclose (a b rtol atol : float) : bool :=
  abs (a - b) <=? atol + rtol * abs b.

(** *** DecisionProbabilities *)

Module DecisionProbabilities.
Record t := mk
  { buy_probability : float;
    hold_probability : float;
    sell_probability : float }.

(** [__post_init__]: [true] when no [ValueError] is raised. *)
Definition post_init (p : t) : bool :=
  let total := buy_probability p + hold_probability p + sell_probability p in
  np_isclose total 1 1e-5 1e-6.

(** The constructor: the dataclass [__init__] followed by [__post_init__]. *)
Definition new (buy hold sell : float) : option t :=
  let p := mk buy hold sell in
  if post_init p then Some p else None.
End DecisionProbabilities.

(** *** PortfolioSimulator *)

Module PortfolioSimulatorConfig.
Record t := mk
  { initial_capital : float;
    position_sizing : float;
    max_positions : Z;
    cash_reserve : float;
    min_cash_reserve : float;
    transaction_cost : float;
    slippage : float;
    enable_short_selling : bool;
    enable_margin : bool;
    max_position_size : float }.

Definition default : t :=
  mk 100000 0.08 10 0.2 0.1 0.001 0.0005 false false 0.25.

(** [PortfolioSimulatorConfig(initial_capital=..., min_cash_reserve=...)],
    the other fields at their defaults. *)
Definition with_capital (initial_capital min_cash_reserve : float) : t :=
  mk initial_capital 0.08 10 0.2 min_cash_reserve 0.001 0.0005 false false
     0.25.
End PortfolioSimulatorConfig.

Module PortfolioSimulator.

(** The attributes of the simulator that sizing and paying for a BUY read
    and write: the configuration, [self.cash] and
    [self.current_state.total_value]. *)
Record t := mk
  { config : PortfolioSimulatorConfig.t;
    cash : float;
    total_value : float }.

(** [__init__]: the cash and the recorded total value are the initial
    capital. *)
Definition init (config : PortfolioSimulatorConfig.t) : t :=
  mk config (PortfolioSimulatorConfig.initial_capital config)
     (PortfolioSimulatorConfig.initial_capital config).

(** [calculate_position_size]; [None] is an exception raised by [int]. *)
Definition calculate_position_size (s : t) (price confidence : float)
  : option Z :=
  if (price <=? 0) || is_nan price then Some 0%Z
  else
    let confidence := if is_nan confidence then 0.5 else confidence in
    let base_size :=
      total_value s * PortfolioSimulatorConfig.position_sizing (config s) in
    let confidence_multiplier := 0.5 + (confidence * 0.5) in
    let adjusted_size := base_size * confidence_multiplier in
    match int (adjusted_size / price) with
    | None => None
    | Some shares =>
        let max_position_value :=
          total_value s * PortfolioSimulatorConfig.max_position_size (config s) in
        match int (max_position_value / price) with
        | None => None
        | Some max_shares =>
            let shares := Z.min shares max_shares in
            let min_position_value := total_value s * 0.01 in
            match int (min_position_value / price) with
            | None => None
            | Some floor_shares =>
                let min_shares := Z.max 1 floor_shares in
                Some (Z.max shares min_shares)
            end
        end
    end.

(** [check_cash_availability]: [(is_available, available_cash)]. *)
Definition check_cash_availability (s : t) (required_cash : float)
  : bool * float :=
  let required_reserve :=
    total_value s * PortfolioSimulatorConfig.min_cash_reserve (config s) in
  let available_cash := cash s - required_reserve in
  (required_cash <=? available_cash, available_cash).

(** [trade_value + transaction_cost + slippage] for [quantity] shares, as
    [_execute_buy] adds it up; [None] when [quantity] does not convert. *)
Definition total_cost (s : t) (quantity : Z) (price : float) : option float :=
  match of_int quantity with
  | None => None
  | Some shares =>
      let trade_value := shares * price in
      let transaction_cost :=
        trade_value * PortfolioSimulatorConfig.transaction_cost (config s) in
      let slippage :=
        trade_value * PortfolioSimulatorConfig.slippage (config s) in
      Some (trade_value + transaction_cost + slippage)
  end.

(** What [_execute_buy] does to the cash. *)
Inductive Bought :=
| Executed (quantity : Z) (cost available_cash cash_after : float)
           (partial : bool)
| Rejected (available_cash : float).

(** [_execute_buy], as far as the quantity bought and the cash go; [None] is
    an exception. *)
Definition _execute_buy (s : t) (quantity : Z) (price : float)
  : option Bought :=
  match total_cost s quantity price with
  | None => None
  | Some cost =>
      let '(is_available, available_cash) := check_cash_availability s cost in
      if is_available then
        Some (Executed quantity cost available_cash (cash s - cost) false)
      else
        let denominator :=
          price * (1 + PortfolioSimulatorConfig.transaction_cost (config s)
                   + PortfolioSimulatorConfig.slippage (config s)) in
        let max_quantity :=
          if (0 <? denominator) && negb (is_nan denominator)
          then int (available_cash / denominator)
          else Some 0%Z in
        match max_quantity with
        | None => None
        | Some max_quantity =>
            if (0 <? max_quantity)%Z then
              match total_cost s max_quantity price with
              | None => None
              | Some cost =>
                  Some (Executed max_quantity cost available_cash
                                 (cash s - cost) true)
              end
            else Some (Rejected available_cash)
        end
  end.

(** [execute_trade(ticker, TradeAction.BUY, price, confidence, ...)]. *)
Definition execute_buy (s : t) (price confidence : float) : option Bought :=
  match calculate_position_size s price confidence with
  | None => None
  | Some quantity => _execute_buy s quantity price
  end.

End PortfolioSimulator.


End Binary64.

(* ------------------------------------------------------------------------- *)
(** ** Formulas as the specification words them *)

(** Following the spec's words: the BUY share count is
    [floor(totalValue * positionSizing * (0.5 + 0.5 * confidence) / price)]
    clamped to [[minShares, maxShares]] with
    [minShares = floor(0.01 * portfolioValue / price)] and
    [maxShares = floor(maxPositionSize * portfolioValue / price)]. *)
Definition clamp (lo hi x : Z) : Z := Z.max lo (Z.min x hi).

Definition spec_position_size
           (total_value position_sizing max_position_size confidence price : Q)
  : Z :=
  clamp (Qfloor (0.01 * total_value / price))
        (Qfloor (max_position_size * total_value / price))
        (Qfloor (total_value * position_sizing * (0.5 + 0.5 * confidence) / price)).

(** Following the spec's words (section 4.1): the entropy of a signal vector
    is [- sum of p * ln(p)] over its positive components. *)
Definition spec_entropy (ln : Q -> Q) (p : DecisionProbabilities.t) : Q :=
  let term (x : Q) := if Qltb 0 x then x * ln x else 0 in
  - (term (DecisionProbabilities.buy_probability p)
     + term (DecisionProbabilities.hold_probability p)
     + term (DecisionProbabilities.sell_probability p)).

(** The same sum with every logarithm taken at [p + 1e-10]. *)
Definition smoothed_entropy (ln : Q -> Q) (p : DecisionProbabilities.t) : Q :=
  let term (x : Q) := if Qltb 0 x then x * ln (x + 1e-10) else 0 in
  - (term (DecisionProbabilities.buy_probability p)
     + term (DecisionProbabilities.hold_probability p)
     + term (DecisionProbabilities.sell_probability p)).

(** Following the spec's words: the gating weight of an expert is
    [confidence + 0.4 * dataQuality + 0.4 * certainty] floored at 0.1, with
    [certainty = 1 - entropy / ln(3)]; the entropy is an argument. *)
Definition spec_gating_weight (ln : Q -> Q) (entropy : Q) (output : ExpertOutput.t)
  : Q :=
  let certainty := 1 - entropy / ln 3 in
  Qmax 0.1 (ExpertConfidence.confidence_score (ExpertOutput.confidence output)
            + 0.4 * ExpertMetadata.input_data_quality (ExpertOutput.metadata output)
            + 0.4 * certainty).

(* ------------------------------------------------------------------------- *)
(** ** Sample data *)

Module Samples.
Open Scope string_scope.

Definition sentiment_output : ExpertOutput.t :=
  ExpertOutput.mk (DecisionProbabilities.mk 0.6 0.3 0.1)
                  (ExpertConfidence.mk 0.8 0.2 0.8)
                  (ExpertMetadata.mk "sentiment" "llama3.1" 0.5 0.9).

Definition technical_output : ExpertOutput.t :=
  ExpertOutput.mk (DecisionProbabilities.mk 0.2 0.6 0.2)
                  (ExpertConfidence.mk 0.6 0.4 0.6)
                  (ExpertMetadata.mk "technical_timeseries" "rules" 0.1 0.95).

Definition two_experts : dict ExpertOutput.t :=
  [("sentiment", sentiment_output); ("technical", technical_output)].

(** An expert that is certain of BUY. *)
Definition certain_output : ExpertOutput.t :=
  ExpertOutput.mk (DecisionProbabilities.mk 1 0 0)
                  (ExpertConfidence.mk 0.5 0.5 0.5)
                  (ExpertMetadata.mk "sentiment" "llama3.1" 0.5 0.5).

(** A stand-in for the logarithm that can be evaluated. *)
Definition log_stub (x : Q) : Q := x - 1.

Definition state (total_value : Q) : PortfolioState.t :=
  PortfolioState.mk total_value total_value 0%nat 0 0 0 0 0.

(** A successful trade of ticker "A" with the given side and value, during
    which the portfolio value went from 1000 to 1010. *)
Definition trade (action : TradeAction.t) (quantity : Z) (price : Q)
  : TradeRecord.t :=
  create_trade_record 1 "A" action quantity price (Some 0.8) "" []
                      (state 1000) (state 1010) true None.

(** A buy of 10 shares at $10 followed by a sell of 10 shares at $11. *)
Definition profitable_round_trip : list TradeRecord.t :=
  [trade TradeAction.BUY 10 10; trade TradeAction.SELL 10 11].

(** Two price series: "A" trades on days 1 and 2, "B" on day 1 only. *)
Definition two_series (ticker : string) : option HighPerformanceBacktester.frame :=
  if String.eqb ticker "A" then Some [(1%Z, Some 10); (2%Z, Some 11)]
  else if String.eqb ticker "B" then Some [(1%Z, Some 20)]
  else None.

(** Three calls on ticker "A": two buys at $50 and a price update to $55. *)
Definition calls : list Call :=
  [ExecuteTrade "A" TradeAction.BUY 50 (Some 0.8) "" [] 1;
   ExecuteTrade "A" TradeAction.BUY 50 (Some 0.8) "" [] 2;
   UpdatePrices [("A"%string, Some 55)] 2].
End Samples.

(* ------------------------------------------------------------------------- *)
(** ** Observations on the simulator *)

(** An entry of the position map as the simulator keeps it: filed under its
    own ticker, at least one share, a positive cost basis and mark price, and
    an unrealized P&L that is [(mark - basis) * quantity]. *)
Definition entry_ok (item : string * Position.t) : Prop :=
  Position.ticker (snd item) = fst item
  /\ (1 <= Position.quantity (snd item))%Z
  /\ 0 < Position.avg_price (snd item)
  /\ 0 < Position.current_price (snd item)
  /\ Position.unrealized_pnl (snd item)
     = (Position.current_price (snd item) - Position.avg_price (snd item))
       * inject_Z (Position.quantity (snd item)).

Definition book_ok (s : PortfolioSimulator.t) : Prop :=
  NoDup (dict_keys (live_positions s)) /\ Forall entry_ok (live_positions s).

(** The simulator a run ends in. *)
Definition final (s : PortfolioSimulator.t) (steps : list Step)
  : PortfolioSimulator.t :=
  last (map after steps) s.

(** The record a step leaves in the trade history, if any. *)
Definition logged (st : Step) : list TradeRecord.t :=
  match returned st with
  | Some record =>
      match TradeRecord.action record with
      | TradeAction.HOLD => []
      | _ => if TradeRecord.success record then [record] else []
      end
  | None => []
  end.

(** The snapshots a step appends to the simulator's own history. *)
Definition snapshots_appended (st : Step) : list PortfolioState.t :=
  match returned st with
  | Some record =>
      match logged st with
      | [] => []
      | _ => [PortfolioSimulator.current_state (after st)]
      end
  | None => [PortfolioSimulator.current_state (after st)]
  end.

(** [cash + sum(quantity * current_price)] over the live positions. *)
Definition ledger_value (s : PortfolioSimulator.t) : Q :=
  PortfolioSimulator.cash s + positions_value (live_positions s).

(** The current state records the ledger: its total value is the value of
    the ledger and its cash is the cash balance. *)
Definition value_recorded (s : PortfolioSimulator.t) : Prop :=
  PortfolioState.total_value (PortfolioSimulator.current_state s) == ledger_value s
  /\ PortfolioState.cash (PortfolioSimulator.current_state s)
     = PortfolioSimulator.cash s.

(** All the snapshots of the history report a zero daily return, and the
    last of them is the current state. *)
Definition returns_zero (s : PortfolioSimulator.t) : Prop :=
  Forall (fun snapshot => PortfolioState.daily_return snapshot == 0)
         (PortfolioSimulator.portfolio_history s)
  /\ match rev (PortfolioSimulator.portfolio_history s) with
     | [] => True
     | last :: _ => last = PortfolioSimulator.current_state s
     end.

(** The market value of one position: [quantity * current_price]. *)
Definition market_value (p : Position.t) : Q :=
  inject_Z (Position.quantity p) * Position.current_price p.

(** What [update_prices] makes of a held position, given the update (if
    any) that the dictionary of new prices has for its ticker. *)
Definition repriced (position : Position.t) (update : option (option Q))
  : Position.t :=
  match update with
  | Some (Some new_price) =>
      if Qle_bool new_price 0 then position
      else Position.update_price position new_price
  | _ => position
  end.

(* ------------------------------------------------------------------------- *)
(** ** Observations on the aggregator *)

(** An expert output whose probabilities passed the constructor's check. *)
Definition valid_output (output : ExpertOutput.t) : Prop :=
  DecisionProbabilities.post_init (ExpertOutput.probabilities output) = true.

(** [buy + hold + sell] *)
Definition probability_mass (p : DecisionProbabilities.t) : Q :=
  DecisionProbabilities.buy_probability p
  + DecisionProbabilities.hold_probability p
  + DecisionProbabilities.sell_probability p.

(** The confidence an expert reports. *)
Definition expert_confidence (output : ExpertOutput.t) : Q :=
  ExpertConfidence.confidence_score (ExpertOutput.confidence output).

(* ------------------------------------------------------------------------- *)
(** ** MetricsCalculator: the methods on the portfolio history *)

(** The histories are those the simulator records: the total values are
    floats that are not NaN, so the [pd.isna] tests of the source are never
    taken.  A division by a zero peak value is the function's failure,
    [None]. *)
Module ReturnMetrics.

Definition len (portfolio_history : list PortfolioState.t) : Z :=
  Z.of_nat (List.length portfolio_history).

(** The loop [for i in range(1, len(portfolio_history))] of
    [_calculate_daily_returns]; [prev_value] is the value at [i - 1]. *)
Fixpoint daily_returns_loop (prev_value : Q) (rest : list PortfolioState.t)
  : list Q :=
  match rest with
  | [] => []
  | state :: rest' =>
      let curr_value := PortfolioState.total_value state in
      (if Qle_bool prev_value 0 then 0
       else (curr_value - prev_value) / prev_value)
        :: daily_returns_loop curr_value rest'
  end.

Definition _calculate_daily_returns (portfolio_history : list PortfolioState.t)
  : list Q :=
  if (len portfolio_history <? 2)%Z then []
  else match portfolio_history with
       | [] => []
       | first :: rest =>
           daily_returns_loop (PortfolioState.total_value first) rest
       end.

Definition _calculate_total_return (portfolio_history : list PortfolioState.t)
  : Q :=
  if (len portfolio_history <? 2)%Z then 0
  else match portfolio_history with
       | [] => 0
       | first :: _ =>
           let initial_value := PortfolioState.total_value first in
           let final_value :=
             PortfolioState.total_value (last portfolio_history first) in
           if Qltb 0 initial_value
           then (final_value - initial_value) / initial_value
           else 0
       end.

Definition _calculate_cumulative_returns
           (portfolio_history : list PortfolioState.t) : list Q :=
  match portfolio_history with
  | [] => []
  | first :: _ =>
      let initial_value := PortfolioState.total_value first in
      map (fun state =>
             if Qltb 0 initial_value
             then (PortfolioState.total_value state - initial_value)
                  / initial_value
             else 0)
          portfolio_history
  end.

(** The loop of [_calculate_max_drawdown] from index [i] on, with the local
    variables of the source as arguments. *)
Fixpoint max_drawdown_loop (states : list PortfolioState.t) (i : Z)
         (peak_value max_drawdown : Q) (drawdown_start max_drawdown_duration : Z)
  : option (Q * Z) :=
  match states with
  | [] => Some (max_drawdown, max_drawdown_duration)
  | state :: rest =>
      let value := PortfolioState.total_value state in
      if Qltb peak_value value then
        max_drawdown_loop rest (i + 1) value max_drawdown i
                          max_drawdown_duration
      else if Qeq_bool peak_value 0 then None
      else
        let drawdown := (peak_value - value) / peak_value in
        if Qltb max_drawdown drawdown then
          max_drawdown_loop rest (i + 1) peak_value drawdown drawdown_start
                            (i - drawdown_start)
        else
          max_drawdown_loop rest (i + 1) peak_value max_drawdown drawdown_start
                            max_drawdown_duration
  end.

Definition _calculate_max_drawdown (portfolio_history : list PortfolioState.t)
  : option (Q * Z) :=
  if (len portfolio_history <? 2)%Z then Some (0, 0%Z)
  else match portfolio_history with
       | [] => Some (0, 0%Z)
       | first :: _ =>
           max_drawdown_loop portfolio_history 0
                             (PortfolioState.total_value first) 0 0 0
       end.

(** The loop of [_calculate_rolling_drawdowns]. *)
Fixpoint rolling_drawdowns_loop (states : list PortfolioState.t)
         (peak_value : Q) : option (list Q) :=
  match states with
  | [] => Some []
  | state :: rest =>
      let value := PortfolioState.total_value state in
      if Qltb peak_value value then
        option_map (cons 0) (rolling_drawdowns_loop rest value)
      else if Qeq_bool peak_value 0 then None
      else
        option_map (cons ((peak_value - value) / peak_value))
                   (rolling_drawdowns_loop rest peak_value)
  end.

Definition _calculate_rolling_drawdowns
           (portfolio_history : list PortfolioState.t) : option (list Q) :=
  match portfolio_history with
  | [] => Some []
  | first :: _ =>
      rolling_drawdowns_loop portfolio_history
                             (PortfolioState.total_value first)
  end.

Definition _calculate_calmar_ratio (annualized_return max_drawdown : Q) : Q :=
  if Qeq_bool max_drawdown 0 then 0 else annualized_return / max_drawdown.

End ReturnMetrics.

(** A history all of whose total values are positive. *)
Definition positive_values (portfolio_history : list PortfolioState.t) : Prop :=
  Forall (fun state => 0 < PortfolioState.total_value state) portfolio_history.

(** The product of the growth factors [1 + r] of a list of returns. *)
Definition compound (returns : list Q) : Q :=
  fold_right (fun r acc => (1 + r) * acc) 1 returns.

(** The values [v :: values] never fall: each is at least its predecessor. *)
Fixpoint never_falls (v : Q) (values : list Q) : Prop :=
  match values with
  | [] => True
  | w :: values' => v <= w /\ never_falls w values'
  end.

Definition nondecreasing (portfolio_history : list PortfolioState.t) : Prop :=
  match map PortfolioState.total_value portfolio_history with
  | [] => True
  | v :: values => never_falls v values
  end.

Module MetricSamples.

Definition snapshot (total_value cash : Q) (date : Z) : PortfolioState.t :=
  PortfolioState.mk total_value cash 0%nat date 0 0 0 0.

(** Three days: a rise from 100 to 110, then a fall to 99. *)
Definition history : list PortfolioState.t :=
  [snapshot 100 100 0; snapshot 110 40 1; snapshot 99 40 2].

(** Three days on which the value never falls. *)
Definition rising : list PortfolioState.t :=
  [snapshot 100 100 0; snapshot 100 40 1; snapshot 120 40 2].

End MetricSamples.

(** Every BUY or SELL record of the log was made at a non-zero portfolio
    value, so that its return is defined. *)
Definition returns_defined (trade_log : list TradeRecord.t) : Prop :=
  Forall (fun t =>
            MetricsCalculator.is_trade t = true ->
            ~ PortfolioState.total_value (TradeRecord.portfolio_state_before t)
              == 0)
         trade_log.

(* ------------------------------------------------------------------------- *)
(** ** core/confidence_calculator.py *)

(** The confidence scores of the expert outputs come from
    [ConfidenceCalculator].  [analysis_factors] is a dictionary; the record
    has one optional field for each key the calculator reads, with the
    numbers the experts store under it.  A value of ['indicators_used'] that
    is not a list is ignored by the source like a missing key. *)
Module AnalysisFactors.
Record t := mk
  { probabilities : option (list Q);
    articles_analyzed : option Q;
    indicators_used : option (list string);
    ratios_analyzed : option Q;
    statements_available : option Q;
    buy_signals : option Q;
    sell_signals : option Q;
    total_signals : option Q }.
End AnalysisFactors.

Module ConfidenceCalculator.

(** [min(1.0, max(0.0, x))] *)
Definition unit_clamp (x : Q) : Q := MetricsCalculator.py_min 1 (py_max 0 x).

(** [analysis_factors.get(key, default)] *)
Definition get {A} (value : option A) (default : A) : A :=
  match value with Some v => v | None => default end.

Definition reason_penalty : dict Q :=
  [("no_data", 0); ("no_fundamental_data", 0); ("no_news_data", 0);
   ("no_text_content", 0); ("no_ratios_available", 0); ("error", 0);
   ("llm_failed", 0.05); ("insufficient_data", 0.02)]%string.

Definition calculate_fallback_confidence (reason : string) (data_quality : Q)
  : Q :=
  let base_confidence := 0.1 in
  let data_boost := data_quality * 0.1 in
  let reason_boost := get (dict_get reason_penalty reason) 0 in
  let confidence := base_confidence + data_boost + reason_boost in
  unit_clamp confidence.

(** One step of a factor block of [_calculate_analysis_depth]; the state is
    [(factor_count, depth_score)]. *)
Definition count_factor (amount : option Q) (cap scale : Q) (acc : Z * Q)
  : Z * Q :=
  match amount with
  | Some n =>
      if Qltb 0 n
      then ((fst acc + 1)%Z, snd acc + MetricsCalculator.py_min cap (n / scale))
      else acc
  | None => acc
  end.

Definition list_len (indicators : option (list string)) : option Q :=
  option_map (fun l => inject_Z (Z.of_nat (List.length l))) indicators.

Definition _calculate_analysis_depth (analysis_factors : AnalysisFactors.t)
  : Q :=
  let acc := (0%Z, 0.3) in
  let acc :=
    count_factor (AnalysisFactors.articles_analyzed analysis_factors) 0.2 20 acc in
  let acc :=
    count_factor (list_len (AnalysisFactors.indicators_used analysis_factors))
                 0.2 10 acc in
  let acc :=
    count_factor (AnalysisFactors.ratios_analyzed analysis_factors) 0.2 20 acc in
  let acc :=
    count_factor (AnalysisFactors.statements_available analysis_factors)
                 0.1 5 acc in
  let depth_score :=
    if (2 <=? fst acc)%Z then snd acc + 0.1 else snd acc in
  unit_clamp depth_score.

Definition _calculate_signal_strength (analysis_factors : AnalysisFactors.t)
  : Q :=
  let strength_score := 0.3 in
  let buy_signals := get (AnalysisFactors.buy_signals analysis_factors) 0 in
  let sell_signals := get (AnalysisFactors.sell_signals analysis_factors) 0 in
  let total_signals := get (AnalysisFactors.total_signals analysis_factors) 0 in
  let strength_score :=
    if Qltb 0 total_signals then
      let signal_ratio := py_max buy_signals sell_signals / total_signals in
      let strength_score := strength_score + signal_ratio * 0.4 in
      if Qle_bool 3 total_signals then strength_score + 0.2
      else strength_score
    else strength_score in
  unit_clamp strength_score.

Section WithLog2.
(** [math.log2], on the rationals. *)
Variable math_log2 : Q -> Q.

(** [None] is the [ZeroDivisionError] of a zero [max_entropy]. *)
Definition _calculate_decision_certainty (probabilities : list Q) : option Q :=
  if negb (Nat.eqb (List.length probabilities) 3) then Some 0.5
  else
    let entropy :=
      fold_left (fun entropy p =>
                   if Qltb 0 p then entropy - p * math_log2 p else entropy)
                probabilities 0 in
    let max_entropy := math_log2 3 in
    if Qeq_bool max_entropy 0 then None
    else
      let certainty := 1 - entropy / max_entropy in
      Some (unit_clamp certainty).

Definition calculate_rule_based_confidence
           (data_quality : Q) (analysis_factors : AnalysisFactors.t)
  : option Q :=
  let base_confidence := data_quality * 0.3 in
  match _calculate_decision_certainty
          (get (AnalysisFactors.probabilities analysis_factors)
               [0.33; 0.34; 0.33]) with
  | None => None
  | Some decision_certainty =>
      let analysis_depth := _calculate_analysis_depth analysis_factors in
      let method_confidence := 0.6 in
      let signal_strength := _calculate_signal_strength analysis_factors in
      let confidence :=
        base_confidence * 0.25 + decision_certainty * 0.25
        + analysis_depth * 0.2 + method_confidence * 0.15
        + signal_strength * 0.15 in
      Some (unit_clamp confidence)
  end.

End WithLog2.
End ConfidenceCalculator.

Module FactorSamples.
(** The factors the fundamental expert passes for three ratios, two
    statements and two buy signals out of three. *)
Definition fundamental : AnalysisFactors.t :=
  AnalysisFactors.mk (Some [0.6; 0.3; 0.1]) None None (Some 3) (Some 2)
                     (Some 2) (Some 0) (Some 3).
End FactorSamples.

(* ------------------------------------------------------------------------- *)
(** ** evaluation/backtester.py: the work of one trading day *)

Module BacktestLoop.

(** The attributes of [HighPerformanceBacktester] that the day loop reads and
    writes. *)
Record t := mk
  { portfolio_simulator : PortfolioSimulator.t;
    portfolio_history : list PortfolioState.t;
    trade_log : list TradeRecord.t;
    total_decisions : Z;
    successful_decisions : Z }.

(** What the module-level [aggregate_experts] did: it raised, or it returned
    a result or [None]. *)
Inductive Aggregation :=
| AggregationRaised
| Aggregated (aggregation_result : option AggregationResult.t).

(** What the world outside the backtester did during one call of
    [_process_ticker_optimized]: the outcome of [aggregate_experts], and
    whether the two calls of the performance logger returned ([true]) or
    raised ([false]). *)
Record Environment := mkEnvironment
  { aggregation : Aggregation;
    log_daily_ticker : bool;
    log_trade : bool }.

(** [PortfolioSimulator.reset]; [copy] names the dictionary that
    [initial_state.positions.copy()] creates. *)
Definition reset (s : PortfolioSimulator.t) (initial_state : PortfolioState.t)
           (copy : ref) : PortfolioSimulator.t :=
  PortfolioSimulator.mk
    (PortfolioSimulator.config s) (PortfolioSimulator.initial_capital s)
    (PortfolioState.cash initial_state) copy [] [initial_state] initial_state
    (heap_set (PortfolioSimulator.heap s) copy
              (PortfolioSimulator.heap s (PortfolioState.positions initial_state))).

(** The backtester as [run_backtest] has it when the day loop starts: the
    simulator of [__init__], reset to an initial state with an empty
    position map (stored under [1]; its copy under [2]) dated on the first
    trading day. *)
Definition start (portfolio_config : PortfolioSimulatorConfig.t)
           (now first_day : Z) : t :=
  let simulator := PortfolioSimulator.init portfolio_config now in
  let initial_capital :=
    PortfolioSimulatorConfig.initial_capital portfolio_config in
  let initial_state :=
    PortfolioState.new (PortfolioSimulator.heap simulator) initial_capital
                       initial_capital 1%nat first_day 0 in
  mk (reset simulator initial_state 2%nat) [initial_state] [] 0 0.

Definition set_simulator (b : t) (simulator : PortfolioSimulator.t) : t :=
  mk simulator (portfolio_history b) (trade_log b) (total_decisions b)
     (successful_decisions b).

(** [{name: contrib.expert_output for name, contrib in
    aggregation_result.expert_contributions.items()}] *)
Definition expert_outputs_of (aggregation_result : AggregationResult.t)
  : dict ExpertOutput.t :=
  map (fun item => (fst item, ExpertContribution.expert_output (snd item)))
      (AggregationResult.expert_contributions aggregation_result).

(** [_process_ticker_optimized].  Every exception is caught by the method,
    which then returns with what was written so far.  [None] stands for an
    exception raised inside [execute_trade], after which the embedding does
    not follow the simulator. *)
Definition _process_ticker_optimized
           (b : t) (ticker : string) (current_date : Z) (current_price : Q)
           (environment : Environment) : option t :=
  match aggregation environment with
  | AggregationRaised => Some b
  | Aggregated None => Some b
  | Aggregated (Some aggregation_result) =>
      let b := mk (portfolio_simulator b) (portfolio_history b) (trade_log b)
                  (total_decisions b + 1) (successful_decisions b) in
      if negb (log_daily_ticker environment) then Some b
      else
        let trade_action :=
          match AggregationResult.decision_type aggregation_result with
          | DecisionType.BUY => TradeAction.BUY
          | DecisionType.SELL => TradeAction.SELL
          | DecisionType.HOLD => TradeAction.HOLD
          end in
        match trade_action with
        | TradeAction.HOLD => Some b
        | _ =>
            match PortfolioSimulator.execute_trade
                    (portfolio_simulator b) ticker trade_action current_price
                    (Some (AggregationResult.overall_confidence
                             aggregation_result))
                    (AggregationResult.reasoning aggregation_result)
                    (expert_outputs_of aggregation_result) current_date with
            | None => None
            | Some (trade_record, simulator) =>
                let b := set_simulator b simulator in
                if TradeRecord.success trade_record then
                  let b := mk (portfolio_simulator b) (portfolio_history b)
                              (trade_log b ++ [trade_record])
                              (total_decisions b) (successful_decisions b) in
                  if log_trade environment then
                    Some (mk (portfolio_simulator b) (portfolio_history b)
                             (trade_log b) (total_decisions b)
                             (successful_decisions b + 1))
                  else Some b
                else Some b
            end
        end
  end.

Section WithData.
(** [self.config.tickers] and the price series loaded by [run_backtest]. *)
Variable tickers : list string.
Variable price_data : dict HighPerformanceBacktester.frame.

(** The dictionary [price_updates] that [_calculate_daily_metrics_optimized]
    builds. *)
Definition price_updates_of (simulator : PortfolioSimulator.t)
           (current_date : Z) : dict (option Q) :=
  fold_left
    (fun price_updates ticker =>
       if dict_mem (PortfolioSimulator.heap
                      simulator (PortfolioSimulator.positions simulator))
                   ticker then
         match dict_get price_data ticker with
         | Some data =>
             if HighPerformanceBacktester.in_index data current_date then
               match HighPerformanceBacktester.loc_close data current_date with
               | Some current_price =>
                   if Qltb 0 current_price
                   then dict_set price_updates ticker (Some current_price)
                   else price_updates
               | None => price_updates
               end
             else price_updates
         | None => price_updates
         end
       else price_updates)
    tickers [].

(** [_calculate_daily_metrics_optimized]; [log_daily_portfolio] tells
    whether the performance logger returned. *)
Definition _calculate_daily_metrics_optimized
           (b : t) (current_date : Z) (log_daily_portfolio : bool) : t :=
  let price_updates := price_updates_of (portfolio_simulator b) current_date in
  let simulator :=
    match price_updates with
    | [] => portfolio_simulator b
    | _ => PortfolioSimulator.update_prices (portfolio_simulator b)
                                            price_updates current_date
    end in
  let portfolio_state := PortfolioSimulator.get_portfolio_state simulator in
  let b := set_simulator b simulator in
  if log_daily_portfolio then
    mk (portfolio_simulator b) (portfolio_history b ++ [portfolio_state])
       (trade_log b) (total_decisions b) (successful_decisions b)
  else b.

(** The body of the day loop of [run_backtest] for one day.  [environment]
    and [log_daily_portfolio] give what the world does for each ticker and
    day. *)
Fixpoint process_tickers (b : t) (calls : list (Z * string * Q))
         (environment : Z -> string -> Environment) : option t :=
  match calls with
  | [] => Some b
  | (current_date, ticker, current_price) :: calls' =>
      match _process_ticker_optimized b ticker current_date current_price
                                      (environment current_date ticker) with
      | Some b' => process_tickers b' calls' environment
      | None => None
      end
  end.

Definition day (environment : Z -> string -> Environment)
           (log_daily_portfolio : Z -> bool) (b : t) (current_date : Z)
  : option t :=
  match process_tickers
          b (HighPerformanceBacktester.calls_of_day tickers price_data
                                                    current_date)
          environment with
  | Some b' =>
      Some (_calculate_daily_metrics_optimized
              b' current_date (log_daily_portfolio current_date))
  | None => None
  end.

(** The day loop over the trading dates. *)
Fixpoint days (environment : Z -> string -> Environment)
         (log_daily_portfolio : Z -> bool) (b : t) (trading_dates : list Z)
  : option t :=
  match trading_dates with
  | [] => Some b
  | current_date :: trading_dates' =>
      match day environment log_daily_portfolio b current_date with
      | Some b' => days environment log_daily_portfolio b' trading_dates'
      | None => None
      end
  end.

End WithData.

(** [successful_decisions / max(total_decisions, 1)] of [run_backtest]. *)
Definition success_rate (b : t) : Q :=
  inject_Z (successful_decisions b)
  / inject_Z (Z.max (total_decisions b) 1).

End BacktestLoop.

(** The simulator after a call that changed it. *)
Definition updated (s s' : PortfolioSimulator.t) : Prop :=
  s' = s
  \/ (exists cash' d date,
         s' = PortfolioSimulator._update_portfolio_state
                (PortfolioSimulator.write_ledger s cash' d) date)
  \/ (exists cash' d date record,
         s' = PortfolioSimulator.append_trade
                (PortfolioSimulator._update_portfolio_state
                   (PortfolioSimulator.write_ledger s cash' d) date) record).

(** What the day loop keeps true of the backtester: the simulator's position
    map is well formed, the trade log is the simulator's trade history and
    holds executed BUY and SELL records only, the snapshots all report a zero
    daily return, and the counters are ordered. *)
Definition executed (record : TradeRecord.t) : Prop :=
  TradeRecord.success record = true
  /\ TradeRecord.action record <> TradeAction.HOLD.

Definition backtester_ok (b : BacktestLoop.t) : Prop :=
  book_ok (BacktestLoop.portfolio_simulator b)
  /\ returns_zero (BacktestLoop.portfolio_simulator b)
  /\ PortfolioSimulator.portfolio_history (BacktestLoop.portfolio_simulator b)
     <> []
  /\ BacktestLoop.trade_log b
     = PortfolioSimulator.trade_history (BacktestLoop.portfolio_simulator b)
  /\ Forall executed (BacktestLoop.trade_log b)
  /\ Forall (fun snapshot => PortfolioState.daily_return snapshot == 0)
            (BacktestLoop.portfolio_history b)
  /\ (0 <= BacktestLoop.successful_decisions b
      <= Z.of_nat (List.length (BacktestLoop.trade_log b)))%Z
  /\ (Z.of_nat (List.length (BacktestLoop.trade_log b))
      <= BacktestLoop.total_decisions b)%Z.

(** The trade logger never raises. *)
Definition trades_logged (environment : Z -> string -> BacktestLoop.Environment)
  : Prop :=
  forall current_date ticker,
    BacktestLoop.log_trade (environment current_date ticker) = true.

Definition all_counted (b : BacktestLoop.t) : Prop :=
  BacktestLoop.successful_decisions b
  = Z.of_nat (List.length (BacktestLoop.trade_log b)).

Module LoopSamples.
Open Scope string_scope.

(** One ticker with a close of 50 on day 1 and of 55 on day 2. *)
Definition price_data : dict HighPerformanceBacktester.frame :=
  [("A", [(1%Z, Some 50); (2%Z, Some 55)])].

Definition buy_result : AggregationResult.t :=
  AggregationResult.mk (DecisionProbabilities.mk 0.6 0.3 0.1) []
                       "dynamic_gating" [] 0.8 DecisionType.BUY "".

(** The experts say BUY every day and the loggers never raise. *)
Definition environment (current_date : Z) (ticker : string)
  : BacktestLoop.Environment :=
  BacktestLoop.mkEnvironment (BacktestLoop.Aggregated (Some buy_result))
                             true true.

End LoopSamples.

(* ========================================================================= *)
(** * Properties *)

(* ------------------------------------------------------------------------- *)
(** ** Comparisons, truncation, sums *)

Lemma Qle_bool_false (x y : Q) : Qle_bool x y = false -> y < x.
Proof.
  intros H. apply Qnot_le_lt. intros Hle.
  apply Qle_bool_iff in Hle. congruence.
Qed.

Lemma Qltb_true (x y : Q) : Qltb x y = true -> x < y.
Proof.
  unfold Qltb. intros H. apply Qle_bool_false.
  destruct (Qle_bool y x); [discriminate | reflexivity].
Qed.

Lemma Qltb_false (x y : Q) : Qltb x y = false -> y <= x.
Proof.
  unfold Qltb. intros H. apply Qle_bool_iff.
  destruct (Qle_bool y x); [reflexivity | discriminate].
Qed.

Lemma Qltb_lt (x y : Q) : x < y -> Qltb x y = true.
Proof.
  intros H. destruct (Qltb x y) eqn:E; [reflexivity|].
  apply Qltb_false in E. lra.
Qed.

Lemma Qltb_ge (x y : Q) : y <= x -> Qltb x y = false.
Proof.
  intros H. destruct (Qltb x y) eqn:E; [|reflexivity].
  apply Qltb_true in E. lra.
Qed.

Lemma Qeq_bool_false (x y : Q) : Qeq_bool x y = false -> ~ x == y.
Proof. intros H Heq. apply Qeq_bool_iff in Heq. congruence. Qed.

(** Turn every boolean comparison of the goal into the order fact it decides. *)
Ltac qcases :=
  repeat match goal with
    | |- context [Qltb ?x ?y] =>
        let E := fresh "E" in
        destruct (Qltb x y) eqn:E;
        [apply Qltb_true in E | apply Qltb_false in E]
    | |- context [Qle_bool ?x ?y] =>
        let E := fresh "E" in
        destruct (Qle_bool x y) eqn:E;
        [apply Qle_bool_iff in E | apply Qle_bool_false in E]
    | |- context [Qeq_bool ?x ?y] =>
        let E := fresh "E" in
        destruct (Qeq_bool x y) eqn:E;
        [apply Qeq_bool_iff in E | apply Qeq_bool_false in E]
    end.

(* ------------------------------------------------------------------------- *)
(** ** DecisionProbabilities: what the constructor checks *)

Lemma post_init_spec (b h s : Q) :
  DecisionProbabilities.post_init (DecisionProbabilities.mk b h s) = true
  <-> Qabs (b + h + s - 1) <= 1.1e-5.
Proof.
  unfold DecisionProbabilities.post_init, np_isclose, np_isclose_default_rtol.
  cbn [DecisionProbabilities.buy_probability
       DecisionProbabilities.hold_probability
       DecisionProbabilities.sell_probability].
  rewrite Qle_bool_iff.
  assert (Ht : 1e-6 + 1e-5 * Qabs 1 == 1.1e-5) by reflexivity.
  rewrite Ht. reflexivity.
Qed.


(** The tolerance on the sum is [atol + rtol * 1.0] with numpy's default
    [rtol], that is 1.1e-5: a sum of 1.00001 is accepted. *)
Lemma DecisionProbabilities_tolerance_example :
  DecisionProbabilities.new 0.5 0.3 0.20001
  = Some (DecisionProbabilities.mk 0.5 0.3 0.20001)
  /\ 1e-6 < Qabs (0.5 + 0.3 + 0.20001 - 1).
Proof. split; reflexivity. Qed.

(* ------------------------------------------------------------------------- *)
(** ** The decision rule *)

(** C3: the decision is the arg-max of (buy, hold, sell), ties going to BUY
    first, then SELL, then HOLD: BUY exactly when buy is a maximum; SELL
    exactly when buy is not a maximum and sell is; HOLD exactly when hold is
    strictly above both. *)
Theorem determine_decision_argmax (p : DecisionProbabilities.t) :
  let buy := DecisionProbabilities.buy_probability p in
  let hold := DecisionProbabilities.hold_probability p in
  let sell := DecisionProbabilities.sell_probability p in
  (ExpertAggregator._determine_decision p = DecisionType.BUY
   <-> hold <= buy /\ sell <= buy)
  /\ (ExpertAggregator._determine_decision p = DecisionType.SELL
      <-> buy < sell /\ hold <= sell)
  /\ (ExpertAggregator._determine_decision p = DecisionType.HOLD
      <-> buy < hold /\ sell < hold).
Proof.
  destruct p as [b h s]. cbv zeta.
  unfold ExpertAggregator._determine_decision, py_max3, py_max.
  cbn [DecisionProbabilities.buy_probability
       DecisionProbabilities.hold_probability
       DecisionProbabilities.sell_probability].
  destruct (Qltb b h) eqn:Ebh;
    [apply Qltb_true in Ebh | apply Qltb_false in Ebh];
    qcases; repeat split; intros; try discriminate; try lra.
Qed.

(** Exact ties: buy wins over sell and hold, sell wins over hold. *)
Example determine_decision_ties :
  ExpertAggregator._determine_decision (DecisionProbabilities.mk 0.4 0.2 0.4)
  = DecisionType.BUY
  /\ ExpertAggregator._determine_decision (DecisionProbabilities.mk 0.4 0.4 0.2)
     = DecisionType.BUY
  /\ ExpertAggregator._determine_decision (DecisionProbabilities.mk 0.2 0.4 0.4)
     = DecisionType.SELL
  /\ ExpertAggregator._determine_decision
       (DecisionProbabilities.mk (1 # 3) (1 # 3) (1 # 3))
     = DecisionType.BUY.
Proof. repeat split. Qed.

(* ------------------------------------------------------------------------- *)
(** ** Position sizing *)

Lemma Qdiv_nonneg (x y : Q) : 0 <= x -> 0 < y -> 0 <= x / y.
Proof.
  intros Hx Hy. apply Qle_shift_div_l; [exact Hy | lra].
Qed.

(** With a positive price the order is at least one share. *)
Lemma calculate_position_size_pos s ticker price confidence :
  0 < price ->
  (1 <= PortfolioSimulator.calculate_position_size s ticker price confidence)%Z.
Proof.
  intros Hp. unfold PortfolioSimulator.calculate_position_size.
  destruct (Qle_bool price 0) eqn:E.
  - apply Qle_bool_iff in E. lra.
  - lia.
Qed.

(** C6 (as stated, refuted): with a portfolio of $100 and a price of $50 the
    spec's clamp gives 0 shares, the code orders 1. *)
Lemma position_size_small_portfolio :
  let cfg := PortfolioSimulatorConfig.mk 100 0.08 10 0.2 0.1 0.001 0.0005
                                         false false 0.25 in
  let s := PortfolioSimulator.init cfg 0 in
  PortfolioSimulator.calculate_position_size s "A" 50 (Some 0.8) = 1%Z
  /\ spec_position_size
       (PortfolioState.total_value (PortfolioSimulator.current_state s))
       0.08 0.25 0.8 50 = 0%Z.
Proof. split; reflexivity. Qed.

(* ------------------------------------------------------------------------- *)
(** ** Sums of floats *)

Lemma fold_left_Qplus_acc (xs : list Q) (a : Q) :
  fold_left Qplus xs a == a + fold_right Qplus 0 xs.
Proof.
  revert a. induction xs as [|x xs IH]; intros a; simpl.
  - lra.
  - rewrite IH. lra.
Qed.

Lemma py_sum_cons (x : Q) (xs : list Q) : py_sum (x :: xs) == x + py_sum xs.
Proof.
  unfold py_sum. simpl. rewrite !fold_left_Qplus_acc. lra.
Qed.

Lemma py_sum_nil : py_sum [] == 0.
Proof. reflexivity. Qed.

Lemma py_sum_nonneg (xs : list Q) :
  Forall (fun x => 0 <= x) xs -> 0 <= py_sum xs.
Proof.
  induction 1 as [|x xs Hx _ IH].
  - discriminate.
  - rewrite py_sum_cons. lra.
Qed.

Lemma py_sum_map_div {A} (f : A -> Q) (t : Q) (l : list A) :
  py_sum (map (fun a => f a / t) l) == py_sum (map f l) / t.
Proof.
  induction l as [|a l IH]; simpl.
  - unfold py_sum. simpl. unfold Qdiv. lra.
  - rewrite !py_sum_cons, IH. unfold Qdiv. lra.
Qed.

(* ------------------------------------------------------------------------- *)
(** ** Dictionaries *)

Lemma dict_get_not_in {V} (d : dict V) (k : string) :
  ~ In k (dict_keys d) -> dict_get d k = None.
Proof.
  induction d as [|[k' v] d IH]; simpl; intros H; [reflexivity|].
  destruct (String.eqb_spec k' k) as [->|Hne].
  - exfalso. apply H. now left.
  - apply IH. intros Hin. apply H. now right.
Qed.

Lemma dict_set_fresh {V} (d : dict V) (k : string) (v : V) :
  ~ In k (dict_keys d) -> dict_set d k v = d ++ [(k, v)].
Proof.
  induction d as [|[k' v'] d IH]; simpl; intros H; [reflexivity|].
  destruct (String.eqb_spec k' k) as [->|Hne].
  - exfalso. apply H. now left.
  - f_equal. apply IH. intros Hin. apply H. now right.
Qed.

Lemma dict_get_in {V} (d : dict V) (k : string) (v : V) :
  NoDup (dict_keys d) -> In (k, v) d -> dict_get d k = Some v.
Proof.
  induction d as [|[k' v'] d IH]; simpl; intros Hnd Hin; [contradiction|].
  inversion Hnd as [|? ? Hk Hnd']; subst.
  destruct Hin as [Heq|Hin].
  - inversion Heq; subst. now rewrite String.eqb_refl.
  - destruct (String.eqb_spec k' k) as [->|Hne].
    + exfalso. apply Hk. apply (in_map fst) in Hin. exact Hin.
    + now apply IH.
Qed.

(* ------------------------------------------------------------------------- *)
(** ** The aggregator: fallback and gating weights *)

Lemma create_fallback_result_value :
  ExpertAggregator._create_fallback_result
  = Some (AggregationResult.mk (DecisionProbabilities.mk 0 1 0) [] "fallback" []
            0.1 DecisionType.HOLD "Aggregation failed - using fallback decision").
Proof. reflexivity. Qed.

(** C2 (as stated, refuted): with no expert output the reasoning of the
    result is not the text "aggregation failed". *)
Lemma fallback_reasoning_is_not_the_spec_text :
  exists r,
    ExpertAggregator.aggregate_experts (fun _ => 0) (fun _ _ => EmptyString)
      (Returned None) (Returned None) (Returned None) (Returned None) = Some r
    /\ AggregationResult.reasoning r <> "aggregation failed"%string.
Proof.
  eexists. split; [reflexivity | discriminate].
Qed.

(** C2 (amended): when no expert produces an output, [aggregate_experts]
    returns (it does not raise) the hard-coded fallback result: final
    probabilities (buy 0, hold 1, sell 0), decision HOLD, overall confidence
    0.1, an empty contribution map, and the reasoning text
    "Aggregation failed - using fallback decision". *)
Theorem aggregate_experts_fallback
        (np_log : Q -> Q)
        (_generate_reasoning : dict ExpertContribution.t -> DecisionType.t -> string)
        (sentiment technical fundamental chart : ExpertRun) :
  ExpertAggregator._run_all_experts sentiment technical fundamental chart = [] ->
  exists r,
    ExpertAggregator.aggregate_experts np_log _generate_reasoning
      sentiment technical fundamental chart = Some r
    /\ AggregationResult.final_probabilities r = DecisionProbabilities.mk 0 1 0
    /\ AggregationResult.decision_type r = DecisionType.HOLD
    /\ AggregationResult.overall_confidence r = 0.1
    /\ AggregationResult.expert_contributions r = []
    /\ AggregationResult.reasoning r
       = "Aggregation failed - using fallback decision"%string.
Proof.
  intros Hnone. unfold ExpertAggregator.aggregate_experts.
  rewrite Hnone. cbn [ExpertAggregator.aggregate_body].
  rewrite create_fallback_result_value.
  eexists. split; [reflexivity|]. repeat split.
Qed.

(** Whatever the experts did, [aggregate_experts] returns a result. *)
Lemma aggregate_experts_returns
      (np_log : Q -> Q)
      (_generate_reasoning : dict ExpertContribution.t -> DecisionType.t -> string)
      (sentiment technical fundamental chart : ExpertRun) :
  ExpertAggregator.aggregate_experts np_log _generate_reasoning
    sentiment technical fundamental chart <> None.
Proof.
  unfold ExpertAggregator.aggregate_experts.
  destruct (ExpertAggregator.aggregate_body _ _ _); [discriminate|].
  rewrite create_fallback_result_value. discriminate.
Qed.

Lemma aggregate_experts_fallback_witness :
  exists r,
    ExpertAggregator.aggregate_experts (fun _ => 0) (fun _ _ => EmptyString)
      (Returned None) Raised (Returned None) (Returned None) = Some r
    /\ AggregationResult.final_probabilities r = DecisionProbabilities.mk 0 1 0
    /\ AggregationResult.decision_type r = DecisionType.HOLD
    /\ AggregationResult.overall_confidence r = 0.1
    /\ AggregationResult.expert_contributions r = []
    /\ AggregationResult.reasoning r
       = "Aggregation failed - using fallback decision"%string.
Proof.
  apply (aggregate_experts_fallback (fun _ => 0) (fun _ _ => EmptyString)
           (Returned None) Raised (Returned None) (Returned None)).
  reflexivity.
Defined.

Lemma py_max_Qmax (a b : Q) : py_max a b == Qmax a b.
Proof.
  unfold py_max. qcases.
  - symmetry. apply Q.max_r. lra.
  - symmetry. apply Q.max_l. exact E.
Qed.

Lemma py_max_lower (a b : Q) : a <= py_max a b.
Proof. unfold py_max. qcases; lra. Qed.

Lemma raw_weight_floor np_log output :
  0.1 <= ExpertAggregator.raw_weight np_log output.
Proof. unfold ExpertAggregator.raw_weight. apply py_max_lower. Qed.

(** The loop of [_calculate_gating_weights] over a dictionary: the weights
    in the order of the experts, and their running total. *)
Lemma gating_fold np_log (outs : dict ExpertOutput.t) :
  forall (weights : dict Q) (total : Q),
    NoDup (dict_keys weights ++ dict_keys outs) ->
    fold_left (ExpertAggregator.gating_step np_log) outs (weights, total)
    = (weights ++ map (fun item => (fst item,
                                    ExpertAggregator.raw_weight np_log (snd item)))
                      outs,
       fold_left Qplus
                 (map (ExpertAggregator.raw_weight np_log) (dict_values outs))
                 total).
Proof.
  induction outs as [|[name output] outs IH]; intros weights total Hnd; simpl.
  - now rewrite app_nil_r.
  - rewrite dict_set_fresh.
    + rewrite IH.
      * now rewrite <- app_assoc.
      * unfold dict_keys in *. rewrite map_app. simpl.
        rewrite <- app_assoc. exact Hnd.
    + intros Hin. apply NoDup_remove_2 in Hnd. apply Hnd.
      apply in_or_app. now left.
Qed.

Lemma raw_total_pos np_log (outs : dict ExpertOutput.t) :
  outs <> [] ->
  0 < py_sum (map (ExpertAggregator.raw_weight np_log) (dict_values outs)).
Proof.
  destruct outs as [|[name output] outs]; [congruence|]. intros _.
  simpl. rewrite py_sum_cons.
  pose proof (raw_weight_floor np_log output) as Hw.
  assert (0 <= py_sum (map (ExpertAggregator.raw_weight np_log) (dict_values outs))).
  { apply py_sum_nonneg. apply Forall_forall. intros x Hx.
    apply in_map_iff in Hx. destruct Hx as [o [<- _]].
    pose proof (raw_weight_floor np_log o). lra. }
  lra.
Qed.

(** The weights returned for a non-empty dictionary of outputs. *)
Lemma calculate_gating_weights_eq np_log (outs : dict ExpertOutput.t) :
  outs <> [] -> NoDup (dict_keys outs) ->
  ExpertAggregator._calculate_gating_weights np_log outs
  = map (fun item =>
           (fst item,
            ExpertAggregator.raw_weight np_log (snd item)
            / py_sum (map (ExpertAggregator.raw_weight np_log) (dict_values outs))))
        outs.
Proof.
  intros Hne Hnd. unfold ExpertAggregator._calculate_gating_weights.
  rewrite gating_fold by exact Hnd.
  fold (py_sum (map (ExpertAggregator.raw_weight np_log) (dict_values outs))).
  rewrite (Qltb_lt _ _ (raw_total_pos np_log outs Hne)).
  simpl. rewrite map_map. apply map_ext. now intros [name output].
Qed.

(** The entropy the code computes over the three probabilities is the
    smoothed sum, written out component by component. *)
Lemma entropy_is_smoothed np_log (p : DecisionProbabilities.t) :
  ExpertAggregator.entropy np_log (DecisionProbabilities.to_list p)
  == smoothed_entropy np_log p.
Proof.
  unfold ExpertAggregator.entropy, smoothed_entropy, DecisionProbabilities.to_list.
  destruct p as [b h s]. cbn [DecisionProbabilities.buy_probability
                              DecisionProbabilities.hold_probability
                              DecisionProbabilities.sell_probability filter].
  destruct (Qltb 0 b), (Qltb 0 h), (Qltb 0 s);
    cbn [map]; rewrite ?py_sum_cons, ?py_sum_nil; ring.
Qed.

Lemma py_sum_map_pointwise {A} (f g : A -> Q) (l : list A) :
  (forall a, f a == g a) -> py_sum (map f l) == py_sum (map g l).
Proof.
  intros H. induction l as [|a l IH]; [reflexivity|].
  cbn [map]. rewrite !py_sum_cons, IH, (H a). reflexivity.
Qed.

Lemma raw_weight_is_spec_weight np_log (output : ExpertOutput.t) :
  ExpertAggregator.raw_weight np_log output
  == spec_gating_weight np_log
       (smoothed_entropy np_log (ExpertOutput.probabilities output)) output.
Proof.
  unfold ExpertAggregator.raw_weight, spec_gating_weight.
  rewrite py_max_Qmax. apply Q.max_compat; [reflexivity|].
  rewrite (entropy_is_smoothed np_log (ExpertOutput.probabilities output)).
  ring.
Qed.

(** C4, as the claim words it, fails: for an expert that is certain of BUY
    (probabilities 1, 0, 0; confidence 0.5; data quality 0.5) the entropy
    [- sum of p * ln(p)] is 0 and the claimed weight is 1.1, while the code
    takes the logarithm at [1 + 1e-10] and gives a larger weight, for every
    logarithm with [ln 1 = 0], [ln 3 > 0] and [ln (1 + 1e-10) > 0]. *)
Lemma gating_weight_uses_smoothed_entropy :
  exists output : ExpertOutput.t,
    output = Samples.certain_output
    /\ forall ln : Q -> Q,
        ln 1 == 0 -> 0 < ln 3 -> 0 < ln (1 + 1e-10) ->
        spec_gating_weight ln (spec_entropy ln (ExpertOutput.probabilities output))
                           output
        == 1.1
        /\ 1.1 < ExpertAggregator.raw_weight ln output.
Proof.
  exists Samples.certain_output. split; [reflexivity|].
  intros ln H1 H3 Hs.
  assert (Hq : 0 < ln (1 + 1e-10) / ln 3) by (apply Qlt_shift_div_l; lra).
  split.
  - unfold spec_gating_weight, spec_entropy, Samples.certain_output.
    cbn [ExpertOutput.probabilities ExpertOutput.confidence ExpertOutput.metadata
         ExpertConfidence.confidence_score ExpertMetadata.input_data_quality
         DecisionProbabilities.buy_probability DecisionProbabilities.hold_probability
         DecisionProbabilities.sell_probability].
    change (Qltb 0 1) with true. change (Qltb 0 0) with false. cbv iota.
    rewrite H1.
    assert (E : 0.5 + 0.4 * 0.5 + 0.4 * (1 - - (1 * 0 + 0 + 0) / ln 3) == 1.1).
    { field. lra. }
    rewrite E. apply Q.max_r. lra.
  - rewrite raw_weight_is_spec_weight.
    unfold spec_gating_weight, smoothed_entropy, Samples.certain_output.
    cbn [ExpertOutput.probabilities ExpertOutput.confidence ExpertOutput.metadata
         ExpertConfidence.confidence_score ExpertMetadata.input_data_quality
         DecisionProbabilities.buy_probability DecisionProbabilities.hold_probability
         DecisionProbabilities.sell_probability].
    change (Qltb 0 1) with true. change (Qltb 0 0) with false. cbv iota.
    set (L := ln (1 + 1e-10)) in *.
    assert (E : 0.5 + 0.4 * 0.5 + 0.4 * (1 - - (1 * L + 0 + 0) / ln 3)
                == 1.1 + 0.4 * (L / ln 3)).
    { field. lra. }
    rewrite E. rewrite Q.max_r; lra.
Qed.

(** C4: for a non-empty dictionary of expert outputs, the weight the loop
    gives each expert before normalisation is
    [max(0.1, confidence + 0.4 * dataQuality + 0.4 * certainty)] with
    [certainty = 1 - entropy / ln 3], where the entropy is
    [- sum of p * ln(p + 1e-10)] over the positive ones of the three
    probabilities; the returned weight of each expert is that weight divided
    by the sum of the weights of all experts, the returned dictionary has the
    keys of the input, and the returned weights are non-negative and sum
    to 1. *)
Theorem gating_weights_normalised (np_log : Q -> Q) (expert_outputs : dict ExpertOutput.t) :
  expert_outputs <> [] ->
  NoDup (dict_keys expert_outputs) ->
  let claimed output :=
    spec_gating_weight np_log
      (smoothed_entropy np_log (ExpertOutput.probabilities output)) output in
  let total := py_sum (map claimed (dict_values expert_outputs)) in
  let weights := ExpertAggregator._calculate_gating_weights np_log expert_outputs in
  (forall name output,
      In (name, output) expert_outputs ->
      ExpertAggregator.raw_weight np_log output == claimed output
      /\ exists w, dict_get weights name = Some w /\ w == claimed output / total)
  /\ dict_keys weights = dict_keys expert_outputs
  /\ Forall (fun w => 0 <= w) (dict_values weights)
  /\ py_sum (dict_values weights) == 1.
Proof.
  intros Hne Hnd. cbv zeta.
  rewrite (calculate_gating_weights_eq np_log expert_outputs Hne Hnd).
  pose proof (raw_total_pos np_log expert_outputs Hne) as Htot.
  set (total := py_sum (map (ExpertAggregator.raw_weight np_log)
                            (dict_values expert_outputs))) in *.
  assert (Hkeys : dict_keys
                    (map (fun item => (fst item,
                                       ExpertAggregator.raw_weight np_log (snd item) / total))
                         expert_outputs)
                  = dict_keys expert_outputs).
  { unfold dict_keys. rewrite map_map. reflexivity. }
  assert (Htotal : py_sum
                     (map (fun output =>
                             spec_gating_weight np_log
                               (smoothed_entropy np_log (ExpertOutput.probabilities output))
                               output)
                          (dict_values expert_outputs))
                   == total).
  { unfold total. apply py_sum_map_pointwise. intros output.
    symmetry. apply raw_weight_is_spec_weight. }
  split; [ | split; [exact Hkeys | split] ].
  - intros name output Hin.
    split; [apply raw_weight_is_spec_weight|].
    exists (ExpertAggregator.raw_weight np_log output / total). split.
    + apply dict_get_in.
      * rewrite Hkeys. exact Hnd.
      * apply in_map_iff. exists (name, output). split; [reflexivity | exact Hin].
    + rewrite Htotal, (raw_weight_is_spec_weight np_log output). reflexivity.
  - unfold dict_values. rewrite map_map. apply Forall_forall. intros w Hw.
    apply in_map_iff in Hw. destruct Hw as [[name output] [<- _]]. simpl.
    apply Qdiv_nonneg; [ | exact Htot].
    pose proof (raw_weight_floor np_log output). lra.
  - unfold dict_values. rewrite map_map. simpl.
    rewrite (py_sum_map_div (fun item => ExpertAggregator.raw_weight np_log (snd item))).
    unfold total, dict_values. rewrite map_map.
    field. fold (dict_values expert_outputs).
    rewrite <- (map_map snd (ExpertAggregator.raw_weight np_log)).
    fold (dict_values expert_outputs). fold total. lra.
Qed.

Lemma gating_weights_normalised_witness :
  (exists w,
      dict_get (ExpertAggregator._calculate_gating_weights Samples.log_stub
                                                           Samples.two_experts)
               "technical"
      = Some w
      /\ w == spec_gating_weight Samples.log_stub
                (smoothed_entropy Samples.log_stub
                   (ExpertOutput.probabilities Samples.technical_output))
                Samples.technical_output
              / py_sum (map (fun output =>
                               spec_gating_weight Samples.log_stub
                                 (smoothed_entropy Samples.log_stub
                                    (ExpertOutput.probabilities output))
                                 output)
                            (dict_values Samples.two_experts)))
  /\ py_sum (dict_values
               (ExpertAggregator._calculate_gating_weights Samples.log_stub
                                                           Samples.two_experts))
     == 1.
Proof.
  assert (Hne : Samples.two_experts <> []) by discriminate.
  assert (Hnd : NoDup (dict_keys Samples.two_experts))
    by (repeat constructor; simpl; intuition discriminate).
  pose proof (gating_weights_normalised Samples.log_stub Samples.two_experts Hne Hnd)
    as [Hw [_ [_ Hsum]]].
  split; [ | exact Hsum].
  apply (proj2 (Hw "technical"%string Samples.technical_output
                  (or_intror (or_introl eq_refl)))).
Defined.

(* ------------------------------------------------------------------------- *)
(** ** Trade-level metrics *)

Lemma sum_or_zero_eq (xs : list Q) :
  MetricsCalculator.sum_or_zero xs = py_sum xs.
Proof. destruct xs; reflexivity. Qed.

Lemma abs_sum_or_zero_eq (xs : list Q) :
  MetricsCalculator.abs_sum_or_zero xs = Qabs (py_sum xs).
Proof. destruct xs; reflexivity. Qed.

(** C10 (the defect): a ticker bought for $100 and sold for $110 has no
    losing trade, and its profit factor is 0.0, not the +infinity sentinel;
    the portfolio-level function returns the sentinel on the same trades. *)
Lemma ticker_profit_factor_without_losses :
  MetricsCalculator.losing
    (MetricsCalculator.ticker_trade_returns Samples.profitable_round_trip) = []
  /\ snd (MetricsCalculator._calculate_ticker_trading_metrics
            Samples.profitable_round_trip) = Fin 0
  /\ snd (MetricsCalculator._calculate_ticker_trading_metrics
            Samples.profitable_round_trip) <> Inf
  /\ option_map (fun m => snd (fst (fst (fst m))))
        (MetricsCalculator._calculate_trading_metrics Samples.profitable_round_trip)
     = Some Inf.
Proof.
  repeat split; try reflexivity. discriminate.
Qed.

(* ------------------------------------------------------------------------- *)
(** ** The daily schedule of the backtester *)

Lemma dict_get_set {V} (d : dict V) (k k' : string) (v : V) :
  dict_get (dict_set d k v) k'
  = if String.eqb k k' then Some v else dict_get d k'.
Proof.
  induction d as [|[k0 v0] d IH]; simpl.
  - reflexivity.
  - destruct (String.eqb_spec k0 k) as [->|Hne]; simpl.
    + destruct (String.eqb_spec k k'); reflexivity.
    + destruct (String.eqb_spec k0 k') as [->|Hne'].
      * destruct (String.eqb_spec k k'); [congruence | reflexivity].
      * exact IH.
Qed.

Lemma NoDup_snoc {A} (l : list A) (a : A) :
  NoDup l -> ~ In a l -> NoDup (l ++ [a]).
Proof.
  induction 1 as [|x l Hx Hnd IH]; simpl; intros Ha.
  - constructor; [intros [] | constructor].
  - constructor.
    + rewrite in_app_iff. intros [H|[H|[]]]; [contradiction|].
      apply Ha. now left.
    + apply IH. intros H. apply Ha. now right.
Qed.

Lemma dict_keys_set {V} (d : dict V) (k : string) (v : V) :
  NoDup (dict_keys d) -> NoDup (dict_keys (dict_set d k v)).
Proof.
  intros Hnd. destruct (in_dec string_dec k (dict_keys d)) as [Hin|Hnin].
  - assert (Hk : dict_keys (dict_set d k v) = dict_keys d).
    { clear Hnd. induction d as [|[k0 v0] d IH]; simpl in *; [contradiction|].
      destruct (String.eqb_spec k0 k) as [->|Hne]; simpl; [reflexivity|].
      f_equal. apply IH. destruct Hin; [congruence | assumption]. }
    now rewrite Hk.
  - rewrite dict_set_fresh by exact Hnin.
    unfold dict_keys in *. rewrite map_app. simpl.
    now apply NoDup_snoc.
Qed.

Lemma dict_get_Some_in {V} (d : dict V) (k : string) (v : V) :
  dict_get d k = Some v -> In (k, v) d.
Proof.
  induction d as [|[k0 v0] d IH]; simpl; [discriminate|].
  destruct (String.eqb_spec k0 k) as [->|Hne].
  - intros H. inversion H. now left.
  - intros H. right. now apply IH.
Qed.

Lemma dict_values_get {V} (d : dict V) (v : V) :
  NoDup (dict_keys d) ->
  (In v (dict_values d) <-> exists k, dict_get d k = Some v).
Proof.
  intros Hnd. unfold dict_values. rewrite in_map_iff. split.
  - intros [[k v'] [Hv Hin]]. simpl in Hv. subst v'.
    exists k. now apply dict_get_in.
  - intros [k Hk]. exists (k, v). split; [reflexivity|].
    now apply dict_get_Some_in.
Qed.

Section Schedule.
Import HighPerformanceBacktester.

Variable load : string -> option frame.

Lemma load_all_spec (tickers : list string) :
  forall price_data price_data',
    NoDup (dict_keys price_data) ->
    load_all load tickers price_data = Some price_data' ->
    NoDup (dict_keys price_data')
    /\ forall ticker data,
        dict_get price_data' ticker = Some data
        <-> (In ticker tickers /\ load ticker = Some data)
            \/ (~ In ticker tickers /\ dict_get price_data ticker = Some data).
Proof.
  induction tickers as [|tk tickers IH]; intros pd pd' Hnd Hload; simpl in Hload.
  - inversion Hload; subst. split; [exact Hnd|].
    intros ticker data. simpl. tauto.
  - destruct (load tk) as [data0|] eqn:Etk; [|discriminate].
    apply IH in Hload; [|now apply dict_keys_set].
    destruct Hload as [Hnd' Hget]. split; [exact Hnd'|].
    intros ticker data. rewrite Hget, dict_get_set. simpl.
    destruct (String.eqb_spec tk ticker) as [->|Hne].
    + split.
      * intros [[Hin Hl]|[Hnin Hd]].
        -- left. split; [now right | exact Hl].
        -- left. split; [now left | congruence].
      * intros [[Hin Hl]|[Hnin _]].
        -- destruct (in_dec string_dec ticker tickers) as [Hi|Hni].
           ++ left. now split.
           ++ right. split; [exact Hni | congruence].
        -- exfalso. apply Hnin. now left.
    + split.
      * intros [[Hin Hl]|[Hnin Hd]].
        -- left. split; [now right | exact Hl].
        -- right. split; [|exact Hd]. intros [Heq|Hin]; [congruence | contradiction].
      * intros [[[Heq|Hin] Hl]|[Hnin Hd]].
        -- congruence.
        -- left. now split.
        -- right. split; [|exact Hd]. intros Hin. apply Hnin. now right.
Qed.

Lemma all_dates_fold (series : list frame) :
  forall acc d,
    In d (fold_left (fun all_dates ticker_data => all_dates ++ index ticker_data)
                    series acc)
    <-> In d acc \/ exists data, In data series /\ In d (index data).
Proof.
  induction series as [|data0 series IH]; intros acc d; simpl.
  - split; [now left | intros [H|[data [[] _]]]; exact H].
  - rewrite IH, in_app_iff. split.
    + intros [[H|H]|[data [Hin Hd]]].
      * now left.
      * right. exists data0. split; [now left | exact H].
      * right. exists data. split; [now right | exact Hd].
    + intros [H|[data [[<-|Hin] Hd]]].
      * left. now left.
      * left. now right.
      * right. exists data. now split.
Qed.

Lemma insert_sorted_In (d x : Z) (l : list Z) :
  In x (insert_sorted d l) <-> x = d \/ In x l.
Proof.
  induction l as [|y l IH]; simpl.
  - intuition.
  - destruct (Z.ltb_spec d y); simpl; [intuition|].
    destruct (Z.eqb_spec d y) as [->|Hne]; simpl; [intuition|].
    rewrite IH. intuition.
Qed.

Lemma sorted_set_fold_In (l : list Z) :
  forall acc x,
    In x (fold_left (fun acc d => insert_sorted d acc) l acc)
    <-> In x acc \/ In x l.
Proof.
  induction l as [|d l IH]; intros acc x; simpl.
  - intuition.
  - rewrite IH, insert_sorted_In. intuition.
Qed.

Lemma sorted_set_In (l : list Z) (x : Z) : In x (sorted_set l) <-> In x l.
Proof.
  unfold sorted_set. rewrite sorted_set_fold_In. simpl. intuition.
Qed.

Lemma insert_sorted_sorted (d : Z) (l : list Z) :
  StronglySorted Z.lt l -> StronglySorted Z.lt (insert_sorted d l).
Proof.
  induction 1 as [|y l Hs IH Hall]; simpl.
  - repeat constructor.
  - destruct (Z.ltb_spec d y).
    + constructor; [now constructor|].
      constructor; [exact H|].
      eapply Forall_impl; [|exact Hall]. simpl. intros; lia.
    + destruct (Z.eqb_spec d y) as [->|Hne]; [now constructor|].
      constructor; [exact IH|].
      apply Forall_forall. intros x Hx. apply insert_sorted_In in Hx.
      destruct Hx as [->|Hx]; [lia|].
      rewrite Forall_forall in Hall. now apply Hall.
Qed.

Lemma sorted_set_sorted (l : list Z) : StronglySorted Z.lt (sorted_set l).
Proof.
  unfold sorted_set.
  assert (H : forall acc, StronglySorted Z.lt acc ->
                          StronglySorted Z.lt
                            (fold_left (fun acc d => insert_sorted d acc) l acc)).
  { induction l as [|d l IH]; intros acc Hacc; simpl; [exact Hacc|].
    apply IH. now apply insert_sorted_sorted. }
  apply H. constructor.
Qed.

Lemma filter_sorted (f : Z -> bool) (l : list Z) :
  StronglySorted Z.lt l -> StronglySorted Z.lt (filter f l).
Proof.
  induction 1 as [|y l Hs IH Hall]; simpl; [constructor|].
  destruct (f y); [|exact IH].
  constructor; [exact IH|].
  apply Forall_forall. intros x Hx. apply filter_In in Hx.
  rewrite Forall_forall in Hall. now apply Hall.
Qed.

Lemma in_index_In (data : frame) (d : Z) :
  in_index data d = true <-> In d (index data).
Proof.
  unfold in_index. rewrite existsb_exists. split.
  - intros [x [Hin Heq]]. apply Z.eqb_eq in Heq. now subst.
  - intros Hin. exists d. split; [exact Hin | apply Z.eqb_refl].
Qed.

Lemma calls_of_day_In tickers price_data day d ticker price :
  In (d, ticker, price) (calls_of_day tickers price_data day)
  <-> d = day /\ In ticker tickers
      /\ exists data, dict_get price_data ticker = Some data
                      /\ In d (index data)
                      /\ loc_close data d = Some price /\ 0 < price.
Proof.
  unfold calls_of_day. rewrite in_flat_map. split.
  - intros [tk [Htk Hin]].
    destruct (dict_get price_data tk) as [data|] eqn:Ed; [|contradiction].
    destruct (in_index data day) eqn:Ei; [|contradiction].
    destruct (loc_close data day) as [p|] eqn:El; [|contradiction].
    destruct (Qltb 0 p) eqn:Ep; [|contradiction].
    destruct Hin as [Heq|[]]. inversion Heq; subst.
    split; [reflexivity|]. split; [exact Htk|].
    exists data. repeat split; try assumption.
    + now apply in_index_In.
    + now apply Qltb_true.
  - intros [-> [Htk [data [Hd [Hi [Hl Hp]]]]]].
    exists ticker. split; [exact Htk|].
    rewrite Hd. apply in_index_In in Hi. rewrite Hi, Hl.
    rewrite (Qltb_lt _ _ Hp). now left.
Qed.

End Schedule.

(** C8 (as stated, refuted): day 2 is missing from the series of "B", yet it
    is a day of the loop and ticker "A" is processed on it. *)
Lemma day_missing_for_one_ticker_is_processed :
  HighPerformanceBacktester.run_backtest Samples.two_series ["A"; "B"]%string 1 2
  = HighPerformanceBacktester.Ran
      [1; 2]%Z
      [(1%Z, "A"%string, 10); (1%Z, "B"%string, 20); (2%Z, "A"%string, 11)]
  /\ (exists data, Samples.two_series "B" = Some data
                   /\ ~ In 2%Z (HighPerformanceBacktester.index data)).
Proof.
  split; [reflexivity|].
  eexists. split; [reflexivity|].
  simpl. intros [H|[]]. discriminate.
Qed.

(** C8 (amended): the daily loop iterates, in increasing order and without
    repetition, exactly over the days within [[startDate, endDate]] that lie
    in the union of the trading days present in the tickers' loaded price
    series; on such a day a ticker is processed exactly when the day is
    present in that ticker's own series with a positive (non-NaN) close, so
    that a day absent from one ticker's series is still processed for the
    tickers that have it. *)
Theorem run_backtest_schedule
        (load : string -> option HighPerformanceBacktester.frame)
        (tickers : list string) (start_date end_date : Z)
        (days : list Z) (calls : list (Z * string * Q)) :
  HighPerformanceBacktester.run_backtest load tickers start_date end_date
  = HighPerformanceBacktester.Ran days calls ->
  StronglySorted Z.lt days
  /\ (forall d,
         In d days
         <-> (start_date <= d <= end_date)%Z
             /\ exists ticker data,
                 In ticker tickers /\ load ticker = Some data
                 /\ In d (HighPerformanceBacktester.index data))
  /\ (forall d ticker price,
         In (d, ticker, price) calls
         <-> (start_date <= d <= end_date)%Z /\ In ticker tickers
             /\ exists data,
                 load ticker = Some data
                 /\ In d (HighPerformanceBacktester.index data)
                 /\ HighPerformanceBacktester.loc_close data d = Some price
                 /\ 0 < price).
Proof.
  unfold HighPerformanceBacktester.run_backtest. intros Hrun.
  destruct (HighPerformanceBacktester.load_all load tickers []) as [pd|] eqn:Eload;
    [|discriminate].
  apply load_all_spec in Eload; [|constructor].
  destruct Eload as [Hnd Hget].
  assert (Hpd : forall ticker data,
             dict_get pd ticker = Some data
             <-> In ticker tickers /\ load ticker = Some data).
  { intros ticker data. rewrite Hget. simpl. split.
    - intros [H|[_ H]]; [exact H | discriminate].
    - intros H. now left. }
  assert (Hdays : forall d,
             In d (HighPerformanceBacktester.trading_dates pd start_date end_date)
             <-> (start_date <= d <= end_date)%Z
                 /\ exists ticker data,
                     In ticker tickers /\ load ticker = Some data
                     /\ In d (HighPerformanceBacktester.index data)).
  { intros d. unfold HighPerformanceBacktester.trading_dates.
    rewrite filter_In, sorted_set_In.
    unfold HighPerformanceBacktester.all_dates. rewrite all_dates_fold.
    rewrite andb_true_iff, Z.leb_le, Z.leb_le. split.
    - intros [[[]|[data [Hin Hd]]] Hrange]. split; [exact Hrange|].
      apply dict_values_get in Hin; [|exact Hnd]. destruct Hin as [ticker Hk].
      apply Hpd in Hk. destruct Hk as [Htk Hl]. now exists ticker, data.
    - intros [Hrange [ticker [data [Htk [Hl Hd]]]]]. split; [|exact Hrange].
      right. exists data. split; [|exact Hd].
      apply dict_values_get; [exact Hnd|]. exists ticker. apply Hpd. now split. }
  assert (Hsorted : StronglySorted Z.lt
                      (HighPerformanceBacktester.trading_dates pd start_date end_date)).
  { unfold HighPerformanceBacktester.trading_dates.
    apply filter_sorted, sorted_set_sorted. }
  destruct (HighPerformanceBacktester.trading_dates pd start_date end_date)
    as [|d0 ds] eqn:Edays; [discriminate|].
  injection Hrun as Hd Hc. rewrite <- Hd, <- Hc. clear Hd Hc.
  split; [exact Hsorted|]. split; [exact Hdays|].
  intros d ticker price.
  change (HighPerformanceBacktester.calls_of_day tickers pd d0
          ++ flat_map (HighPerformanceBacktester.calls_of_day tickers pd) ds)
    with (flat_map (HighPerformanceBacktester.calls_of_day tickers pd) (d0 :: ds)).
  rewrite in_flat_map. split.
  - intros [day [Hday Hin]]. apply calls_of_day_In in Hin.
    destruct Hin as [-> [Htk [data [Hd [Hi [Hl Hp]]]]]].
    apply Hdays in Hday. destruct Hday as [Hrange _].
    apply Hpd in Hd. destruct Hd as [_ Hload].
    split; [exact Hrange|]. split; [exact Htk|]. now exists data.
  - intros [Hrange [Htk [data [Hload [Hi [Hl Hp]]]]]].
    exists d. split.
    + apply Hdays. split; [exact Hrange|]. now exists ticker, data.
    + apply calls_of_day_In. split; [reflexivity|]. split; [exact Htk|].
      exists data. split; [apply Hpd; now split|]. now repeat split.
Qed.

Lemma run_backtest_schedule_witness :
  StronglySorted Z.lt [1; 2]%Z
  /\ (In (2%Z, "A"%string, 11)
         [(1%Z, "A"%string, 10); (1%Z, "B"%string, 20); (2%Z, "A"%string, 11)]
      <-> (1 <= 2 <= 2)%Z /\ In "A"%string ["A"; "B"]%string
          /\ exists data,
              Samples.two_series "A" = Some data
              /\ In 2%Z (HighPerformanceBacktester.index data)
              /\ HighPerformanceBacktester.loc_close data 2 = Some 11
              /\ 0 < 11).
Proof.
  destruct (run_backtest_schedule
              Samples.two_series ["A"; "B"]%string 1 2 [1; 2]%Z
              [(1%Z, "A"%string, 10); (1%Z, "B"%string, 20); (2%Z, "A"%string, 11)]
              eq_refl)
    as [Hsorted [_ Hcalls]].
  split; [exact Hsorted | apply Hcalls].
Defined.

(* ------------------------------------------------------------------------- *)
(** ** The portfolio simulator *)

Lemma Forall_dict_del {V} (P : V -> Prop) (d : dict V) (k : string) :
  Forall P (dict_values d) -> Forall P (dict_values (dict_del d k)).
Proof.
  induction d as [|[k0 v0] d IH]; simpl; intros Hd; [constructor|].
  inversion Hd; subst. destruct (String.eqb k0 k); simpl; [assumption|].
  constructor; auto.
Qed.

Lemma live_positions_write s cash' d :
  live_positions (PortfolioSimulator.write_ledger s cash' d) = d.
Proof.
  unfold live_positions, PortfolioSimulator.write_ledger, heap_set. simpl.
  now rewrite Nat.eqb_refl.
Qed.

(** What [_update_portfolio_state] leaves alone and what it recomputes. *)
Lemma update_portfolio_state_frame s date :
  let s' := PortfolioSimulator._update_portfolio_state s date in
  PortfolioSimulator.config s' = PortfolioSimulator.config s
  /\ PortfolioSimulator.cash s' = PortfolioSimulator.cash s
  /\ PortfolioSimulator.positions s' = PortfolioSimulator.positions s
  /\ PortfolioSimulator.heap s' = PortfolioSimulator.heap s
  /\ PortfolioSimulator.trade_history s' = PortfolioSimulator.trade_history s
  /\ PortfolioState.total_value (PortfolioSimulator.current_state s')
     = PortfolioSimulator.cash s + positions_value (live_positions s)
  /\ PortfolioState.cash (PortfolioSimulator.current_state s')
     = PortfolioSimulator.cash s
  /\ PortfolioState.positions (PortfolioSimulator.current_state s')
     = PortfolioSimulator.positions s
  /\ PortfolioSimulator.portfolio_history s'
     = PortfolioSimulator.portfolio_history s
       ++ [PortfolioSimulator.current_state s'].
Proof. cbv zeta. repeat split. Qed.

Ltac qdecide := vm_compute; first [reflexivity | discriminate | (intro; discriminate)].

(* ------------------------------------------------------------------------- *)
(** ** History snapshots *)

(** Every snapshot that [_update_portfolio_state] appends holds the
    reference of the live position map. *)
Lemma appended_snapshot_is_an_alias s date :
  let s' := PortfolioSimulator._update_portfolio_state s date in
  PortfolioSimulator.portfolio_history s'
  = PortfolioSimulator.portfolio_history s ++ [PortfolioSimulator.current_state s']
  /\ PortfolioState.positions (PortfolioSimulator.current_state s')
     = PortfolioSimulator.positions s'.
Proof. cbv zeta. split; reflexivity. Qed.

(** C9 (the code at the failing input): after a first BUY of "A" the history
    holds one snapshot, in which "A" has 144 shares.  A second BUY of "A"
    leaves that snapshot first in the history, with the cash and total value
    it had, but its position map now shows 287 shares: the snapshot reads the
    live map. *)
Theorem snapshot_aliases_live_positions :
  let buy date := ExecuteTrade "A" TradeAction.BUY 50 (Some 0.8) "" [] date in
  exists r1 s1 r2 s2 snapshot,
    do_call (PortfolioSimulator.init PortfolioSimulatorConfig.default 0) (buy 1%Z)
    = Some (r1, s1)
    /\ do_call s1 (buy 2%Z) = Some (r2, s2)
    /\ PortfolioSimulator.portfolio_history s1 = [snapshot]
    /\ nth_error (PortfolioSimulator.portfolio_history s2) 0 = Some snapshot
    /\ option_map Position.quantity (dict_get (snapshot_positions s1 snapshot) "A")
       = Some 144%Z
    /\ option_map Position.quantity (dict_get (snapshot_positions s2 snapshot) "A")
       = Some 287%Z.
Proof.
  cbv zeta. do 5 eexists.
  split; [vm_compute; reflexivity|].
  split; [vm_compute; reflexivity|].
  split; [reflexivity|].
  split; [reflexivity|].
  split; vm_compute; reflexivity.
Qed.

Lemma history_aliases_after_update s cash' d date r :
  history_aliases_live_map s ->
  history_aliases_live_map
    (PortfolioSimulator.append_trade
       (PortfolioSimulator._update_portfolio_state
          (PortfolioSimulator.write_ledger s cash' d) date) r).
Proof.
  unfold history_aliases_live_map. simpl. intros H.
  apply Forall_app. split; [exact H|]. constructor; [reflexivity | constructor].
Qed.

(** The aliasing is systematic: no call ever replaces a snapshot's map by a
    copy. *)
Lemma history_aliases_preserved s c r s' :
  do_call s c = Some (r, s') ->
  history_aliases_live_map s -> history_aliases_live_map s'.
Proof.
  intros Hdo H.
  destruct c as [ticker action price conf reas eo date | updates date];
    cbn [do_call] in Hdo.
  - destruct action; unfold PortfolioSimulator.execute_trade in Hdo;
      cbv beta iota zeta in Hdo.
    + unfold PortfolioSimulator._execute_buy in Hdo.
      destruct (PortfolioSimulator.buy_order s _ price) as [[[[q' cost] msg]|] m].
      * destruct (dict_get _ ticker) as [position|].
        -- destruct (Position.add_quantity position q' price);
             [|discriminate].
           inversion Hdo; subst. now apply history_aliases_after_update.
        -- inversion Hdo; subst. now apply history_aliases_after_update.
      * inversion Hdo; subst. exact H.
    + unfold PortfolioSimulator._execute_sell in Hdo.
      destruct (dict_get _ ticker) as [position|].
      * destruct (Position.quantity position <? _)%Z;
          inversion Hdo; subst; now apply history_aliases_after_update.
      * inversion Hdo; subst. exact H.
    + inversion Hdo; subst. exact H.
  - inversion Hdo; subst. unfold PortfolioSimulator.update_prices.
    unfold history_aliases_live_map. simpl.
    apply Forall_app. split; [exact H|]. constructor; [reflexivity | constructor].
Qed.

(* ------------------------------------------------------------------------- *)
(** ** The per-ticker profit factor is always zero *)

Lemma filter_repeat {A} (f : A -> bool) (x : A) (n : nat) :
  filter f (repeat x n) = if f x then repeat x n else [].
Proof.
  induction n as [|n IH]; simpl.
  - now destruct (f x).
  - rewrite IH. now destruct (f x).
Qed.

Lemma ticker_trade_returns_constant (ticker_trades : list TradeRecord.t) :
  exists r n, MetricsCalculator.ticker_trade_returns ticker_trades = repeat r n.
Proof.
  unfold MetricsCalculator.ticker_trade_returns.
  destruct (filter (MetricsCalculator.is_successful TradeAction.BUY) ticker_trades)
    as [|b bs].
  - exists 0, 0%nat. reflexivity.
  - destruct (filter (MetricsCalculator.is_successful TradeAction.SELL) ticker_trades)
      as [|x xs].
    + eexists. eexists. reflexivity.
    + destruct (Qltb 0 _).
      * eexists. eexists. reflexivity.
      * exists 0, 0%nat. reflexivity.
Qed.

(** Every return of the per-ticker list is the same number, so the list has
    no winner or no loser, and the profit factor is 0 in all cases. *)
Lemma ticker_profit_factor_is_zero (ticker_trades : list TradeRecord.t) :
  exists profit_factor : Q,
    snd (MetricsCalculator._calculate_ticker_trading_metrics ticker_trades)
    = Fin profit_factor
    /\ profit_factor == 0.
Proof.
  unfold MetricsCalculator._calculate_ticker_trading_metrics.
  destruct ticker_trades as [|t ts] eqn:Ets.
  - exists 0. split; reflexivity.
  - rewrite <- Ets. clear Ets t ts.
    destruct (ticker_trade_returns_constant ticker_trades) as [r [n Hr]].
    rewrite Hr. destruct n as [|n]; [exists 0; split; reflexivity|].
    cbn [repeat]. change (r :: repeat r n) with (repeat r (S n)).
    rewrite sum_or_zero_eq, abs_sum_or_zero_eq.
    unfold MetricsCalculator.winning, MetricsCalculator.losing.
    rewrite !filter_repeat.
    destruct (Qltb 0 r) eqn:Ewin.
    + apply Qltb_true in Ewin. rewrite (Qltb_ge r 0) by lra.
      exists 0. split; reflexivity.
    + cbn [snd]. destruct (Qltb 0 (Qabs (py_sum (if Qltb r 0 then repeat r (S n) else [])))).
      * eexists. split; [reflexivity|]. unfold py_sum at 1. simpl.
        unfold Qdiv. ring.
      * exists 0. split; reflexivity.
Qed.

(* ========================================================================= *)
(** * Further properties of the code *)

(* ------------------------------------------------------------------------- *)
(** ** Dictionaries, entry by entry *)

Lemma Forall_items_set {V} (P : string * V -> Prop) (d : dict V) (k : string) (v : V) :
  Forall P d -> P (k, v) -> Forall P (dict_set d k v).
Proof.
  induction d as [|[k0 v0] d IH]; simpl; intros Hd Hv.
  - now constructor.
  - inversion Hd; subst. destruct (String.eqb_spec k0 k) as [->|Hne].
    + now constructor.
    + constructor; auto.
Qed.

Lemma Forall_items_del {V} (P : string * V -> Prop) (d : dict V) (k : string) :
  Forall P d -> Forall P (dict_del d k).
Proof.
  induction d as [|[k0 v0] d IH]; simpl; intros Hd; [constructor|].
  inversion Hd; subst. destruct (String.eqb k0 k); [assumption|].
  constructor; auto.
Qed.

Lemma Forall_items_del_set {V} (P : string * V -> Prop) (d : dict V) (k : string) (v : V) :
  Forall P d -> Forall P (dict_del (dict_set d k v) k).
Proof.
  induction d as [|[k0 v0] d IH]; simpl; intros Hd.
  - rewrite String.eqb_refl. constructor.
  - inversion Hd; subst. destruct (String.eqb k0 k) eqn:E; simpl; rewrite E.
    + assumption.
    + constructor; auto.
Qed.

Lemma dict_keys_del_incl {V} (d : dict V) (k x : string) :
  In x (dict_keys (dict_del d k)) -> In x (dict_keys d).
Proof.
  induction d as [|[k0 v0] d IH]; simpl; [tauto|].
  destruct (String.eqb k0 k); simpl; [now right|].
  intros [H|H]; [now left | right; now apply IH].
Qed.

Lemma dict_keys_del {V} (d : dict V) (k : string) :
  NoDup (dict_keys d) -> NoDup (dict_keys (dict_del d k)).
Proof.
  induction d as [|[k0 v0] d IH]; simpl; intros Hnd; [constructor|].
  inversion Hnd as [|? ? Hk Hnd']; subst.
  destruct (String.eqb k0 k); simpl; [assumption|].
  constructor; [|now apply IH].
  intros Hin. apply Hk. eapply dict_keys_del_incl. exact Hin.
Qed.

Lemma dict_get_del {V} (d : dict V) (k : string) :
  NoDup (dict_keys d) -> dict_get (dict_del d k) k = None.
Proof.
  induction d as [|[k0 v0] d IH]; simpl; intros Hnd; [reflexivity|].
  inversion Hnd as [|? ? Hk Hnd']; subst.
  destruct (String.eqb_spec k0 k) as [->|Hne].
  - now apply dict_get_not_in.
  - simpl. destruct (String.eqb_spec k0 k); [congruence|]. now apply IH.
Qed.

Lemma dict_get_del_other {V} (d : dict V) (k k' : string) :
  k <> k' -> dict_get (dict_del d k) k' = dict_get d k'.
Proof.
  intros Hne. induction d as [|[k0 v0] d IH]; simpl; [reflexivity|].
  destruct (String.eqb_spec k0 k) as [->|Hne0].
  - destruct (String.eqb_spec k k'); [congruence | reflexivity].
  - simpl. destruct (String.eqb k0 k'); [reflexivity | exact IH].
Qed.

Lemma dict_get_item {V} (P : string * V -> Prop) (d : dict V) (k : string) (v : V) :
  Forall P d -> dict_get d k = Some v -> P (k, v).
Proof.
  intros Hd Hk. apply dict_get_Some_in in Hk.
  rewrite Forall_forall in Hd. now apply Hd.
Qed.

(* ------------------------------------------------------------------------- *)
(** ** The position map stays well formed *)

Lemma inject_Z_pos (z : Z) : (1 <= z)%Z -> 0 < inject_Z z.
Proof.
  intros H. change 0 with (inject_Z 0). rewrite <- Zlt_Qlt. lia.
Qed.

Lemma book_ok_after_write s cash' d date r :
  NoDup (dict_keys d) -> Forall entry_ok d ->
  book_ok (PortfolioSimulator.append_trade
             (PortfolioSimulator._update_portfolio_state
                (PortfolioSimulator.write_ledger s cash' d) date) r).
Proof.
  intros Hnd Hd. unfold book_ok.
  change (live_positions
            (PortfolioSimulator.append_trade
               (PortfolioSimulator._update_portfolio_state
                  (PortfolioSimulator.write_ledger s cash' d) date) r))
    with (live_positions (PortfolioSimulator.write_ledger s cash' d)).
  rewrite live_positions_write. now split.
Qed.

(** A placed order has at least one share when at least one was asked for. *)
Lemma buy_order_quantity_pos s quantity price q' cost msg m :
  (1 <= quantity)%Z ->
  PortfolioSimulator.buy_order s quantity price = (Some (q', cost, msg), m) ->
  (1 <= q')%Z /\ cost = order_cost s q' price.
Proof.
  intros Hq. unfold PortfolioSimulator.buy_order,
              PortfolioSimulator.check_cash_availability.
  fold (order_cost s quantity price). fold (available_cash s).
  fold (unit_cost s price).
  destruct (Qle_bool (order_cost s quantity price) (available_cash s)).
  - intros H. inversion H; subst. split; [exact Hq | reflexivity].
  - set (mq := if Qltb 0 (unit_cost s price)
               then py_int (available_cash s / unit_cost s price) else 0%Z).
    destruct (Z.ltb_spec 0 mq) as [Hmq|Hmq]; [|discriminate].
    intros H. inversion H; subst. split; [lia | reflexivity].
Qed.

Lemma add_quantity_entry_ok ticker position q price :
  entry_ok (ticker, position) -> (1 <= q)%Z -> 0 < price ->
  exists position',
    Position.add_quantity position q price = Some position'
    /\ entry_ok (ticker, position').
Proof.
  intros [Ht [Hq0 [Havg [Hcp Hpnl]]]] Hq Hp. simpl in *.
  unfold Position.add_quantity.
  destruct (Z.eqb_spec (Position.quantity position + q) 0) as [H0|_]; [lia|].
  eexists. split; [reflexivity|].
  repeat split; simpl; try assumption; try lia.
  apply Qlt_shift_div_l; [apply inject_Z_pos; lia|].
  pose proof (inject_Z_pos _ Hq0) as H1. pose proof (inject_Z_pos _ Hq) as H2.
  pose proof (Qmult_lt_0_compat _ _ H1 Havg).
  pose proof (Qmult_lt_0_compat _ _ H2 Hp) as H0.
  rewrite Qmult_0_l.
  set (a := inject_Z (Position.quantity position) * Position.avg_price position) in *.
  set (b := inject_Z q * price) in *. lra.
Qed.

Lemma reduce_quantity_entry_ok ticker position q price :
  entry_ok (ticker, position) -> (1 <= q < Position.quantity position)%Z ->
  0 < price ->
  entry_ok (ticker, Position.reduce_quantity position q price).
Proof.
  intros [Ht [Hq0 [Havg [Hcp Hpnl]]]] Hq Hp. simpl in *.
  unfold Position.reduce_quantity.
  destruct (Z.leb_spec (Position.quantity position) q) as [Hle|_]; [lia|].
  repeat split; simpl; try assumption; lia.
Qed.

Lemma update_prices_fold_book (updates : dict (option Q)) :
  forall d,
    NoDup (dict_keys d) -> Forall entry_ok d ->
    NoDup (dict_keys (fold_left PortfolioSimulator.update_one_price updates d))
    /\ Forall entry_ok (fold_left PortfolioSimulator.update_one_price updates d).
Proof.
  induction updates as [|[ticker new_price] updates IH]; intros d Hnd Hd; simpl;
    [now split|].
  apply IH; unfold PortfolioSimulator.update_one_price; simpl;
    destruct new_price as [new_price|]; try assumption;
    destruct (Qle_bool new_price 0) eqn:E; try assumption;
    apply Qle_bool_false in E;
    destruct (dict_get d ticker) as [position|] eqn:Eget; try assumption.
  - now apply dict_keys_set.
  - apply Forall_items_set; [exact Hd|].
    destruct (dict_get_item _ _ _ _ Hd Eget) as [Ht [Hq [Havg [_ _]]]].
    simpl in *. repeat split; simpl; assumption.
Qed.

(** Any call at a positive price returns and keeps the map well formed,
    whatever the configuration. *)
Lemma do_call_book s c :
  book_ok s -> priced c ->
  exists r s', do_call s c = Some (r, s') /\ book_ok s'.
Proof.
  intros [Hnd Hd] Hc.
  destruct c as [ticker action price conf reas eo date | updates date];
    cbn [priced] in Hc; cbn [do_call].
  - pose proof (calculate_position_size_pos s ticker price conf Hc) as Hq.
    destruct action; unfold PortfolioSimulator.execute_trade; cbv beta iota zeta.
    + unfold PortfolioSimulator._execute_buy.
      destruct (PortfolioSimulator.buy_order s _ price)
        as [[[[q' cost] msg]|] m] eqn:Ebuy.
      * destruct (buy_order_quantity_pos _ _ _ _ _ _ _ Hq Ebuy) as [Hq' _].
        fold (live_positions s).
        destruct (dict_get (live_positions s) ticker) as [position|] eqn:Eget.
        -- pose proof (dict_get_item _ _ _ _ Hd Eget) as Hitem.
           destruct (add_quantity_entry_ok ticker position q' price Hitem Hq' Hc)
             as [position' [Hadd Hok']].
           rewrite Hadd. eexists. eexists. split; [reflexivity|].
           apply book_ok_after_write; [now apply dict_keys_set|].
           now apply Forall_items_set.
        -- eexists. eexists. split; [reflexivity|].
           apply book_ok_after_write; [now apply dict_keys_set|].
           apply Forall_items_set; [exact Hd|].
           repeat split; simpl; try assumption; lia.
      * eexists. eexists. split; [reflexivity|]. now split.
    + unfold PortfolioSimulator._execute_sell. fold (live_positions s).
      destruct (dict_get (live_positions s) ticker) as [position|] eqn:Eget.
      * pose proof (dict_get_item _ _ _ _ Hd Eget) as Hitem.
        assert (Hheld : (1 <= Position.quantity position)%Z) by apply Hitem.
        destruct (Z.ltb_spec (Position.quantity position)
                             (PortfolioSimulator.calculate_position_size
                                s ticker price conf)) as [Hlt|Hge].
        -- (* everything held is sold *)
           eexists. eexists. split; [reflexivity|].
           apply book_ok_after_write.
           ++ unfold Position.reduce_quantity. rewrite Z.leb_refl. simpl.
              apply dict_keys_del. now apply dict_keys_set.
           ++ unfold Position.reduce_quantity. rewrite Z.leb_refl. simpl.
              now apply Forall_items_del_set.
        -- set (q := PortfolioSimulator.calculate_position_size s ticker price conf) in *.
           destruct (Z.eq_dec (Position.quantity position) q) as [Heq|Hne].
           ++ eexists. eexists. split; [reflexivity|].
              apply book_ok_after_write;
                unfold Position.reduce_quantity;
                rewrite <- Heq, Z.leb_refl; simpl.
              ** apply dict_keys_del. now apply dict_keys_set.
              ** now apply Forall_items_del_set.
           ++ assert (Hok' : entry_ok (ticker, Position.reduce_quantity position q price)).
              { apply reduce_quantity_entry_ok; [exact Hitem | lia | exact Hc]. }
              assert (Hq' : (Position.quantity (Position.reduce_quantity position q price)
                             =? 0)%Z = false).
              { apply Z.eqb_neq. unfold Position.reduce_quantity.
                destruct (Z.leb_spec (Position.quantity position) q); simpl; lia. }
              eexists. eexists. split; [reflexivity|].
              rewrite Hq'.
              apply book_ok_after_write; [now apply dict_keys_set|].
              now apply Forall_items_set.
      * eexists. eexists. split; [reflexivity|]. now split.
    + eexists. eexists. split; [reflexivity|]. now split.
  - eexists. eexists. split; [reflexivity|].
    unfold PortfolioSimulator.update_prices.
    destruct (update_prices_fold_book updates (live_positions s) Hnd Hd) as [H1 H2].
    unfold book_ok.
    change (live_positions
              (PortfolioSimulator._update_portfolio_state
                 (PortfolioSimulator.write_ledger s (PortfolioSimulator.cash s)
                    (fold_left PortfolioSimulator.update_one_price updates
                       (PortfolioSimulator.heap s (PortfolioSimulator.positions s))))
                 date))
      with (live_positions
              (PortfolioSimulator.write_ledger s (PortfolioSimulator.cash s)
                 (fold_left PortfolioSimulator.update_one_price updates
                            (live_positions s)))).
    rewrite live_positions_write. now split.
Qed.

Lemma run_book (calls : list Call) :
  forall s,
    book_ok s -> Forall priced calls ->
    exists steps,
      run s calls = Some steps
      /\ map call steps = calls
      /\ Forall (fun st => book_ok (after st)) steps.
Proof.
  induction calls as [|c calls IH]; intros s Hok Hpriced; simpl.
  - exists []. repeat split. constructor.
  - inversion Hpriced as [|? ? Hc Hcs]; subst.
    destruct (do_call_book s c Hok Hc) as [r [s' [Hdo Hok']]].
    rewrite Hdo.
    destruct (IH s' Hok' Hcs) as [steps [Hrun [Hmap Hall]]].
    rewrite Hrun. eexists. split; [reflexivity|]. split.
    + simpl. now rewrite Hmap.
    + now constructor.
Qed.

(** X1: from a fresh simulator, for every sequence of calls whose trades are
    made at a positive price and in which no call raises, after every call
    the position map is well formed: no ticker twice, every position filed
    under its own ticker with at least one share (a position that reaches
    zero is deleted), a positive cost basis and mark price, and an unrealized
    P&L equal to [(mark - basis) * quantity]. *)
Theorem positions_stay_well_formed
        (cfg : PortfolioSimulatorConfig.t) (now : Z) (calls : list Call)
        (steps : list Step) :
  Forall priced calls ->
  run (PortfolioSimulator.init cfg now) calls = Some steps ->
  map call steps = calls
  /\ Forall (fun st => book_ok (after st)) steps.
Proof.
  intros Hpriced Hrun.
  assert (Hfresh : book_ok (PortfolioSimulator.init cfg now))
    by (split; constructor).
  destruct (run_book calls _ Hfresh Hpriced) as [steps' [Hrun' Hsteps]].
  rewrite Hrun in Hrun'. injection Hrun' as <-. exact Hsteps.
Qed.

Lemma positions_stay_well_formed_witness :
  exists steps,
    run (PortfolioSimulator.init PortfolioSimulatorConfig.default 0) Samples.calls = Some steps
    /\ map call steps = Samples.calls
    /\ Forall (fun st => book_ok (after st)) steps.
Proof.
  destruct (run (PortfolioSimulator.init PortfolioSimulatorConfig.default 0) Samples.calls)
    as [steps|] eqn:Hrun.
  - exists steps. split; [reflexivity|].
    apply (positions_stay_well_formed PortfolioSimulatorConfig.default 0 Samples.calls steps);
      [ | exact Hrun].
    repeat constructor; qdecide.
  - vm_compute in Hrun. discriminate.
Defined.

(* ------------------------------------------------------------------------- *)
(** ** What a call does to the simulator *)

(** A call either leaves the simulator as it is (HOLD, refused order), or
    executes a trade (ledger written, state recomputed, record logged), or
    is a price update (ledger written, state recomputed). *)
Lemma do_call_shape s c r s' :
  do_call s c = Some (r, s') ->
  (s' = s /\ logged (mkStep s c r s') = [] /\ r <> None)
  \/ (exists cash' d date record,
         r = Some record
         /\ logged (mkStep s c r s') = [record]
         /\ s' = PortfolioSimulator.append_trade
                   (PortfolioSimulator._update_portfolio_state
                      (PortfolioSimulator.write_ledger s cash' d) date) record)
  \/ (exists d date,
         r = None
         /\ s' = PortfolioSimulator._update_portfolio_state
                   (PortfolioSimulator.write_ledger s (PortfolioSimulator.cash s) d)
                   date).
Proof.
  intros Hdo.
  destruct c as [ticker action price conf reas eo date | updates date];
    cbn [do_call] in Hdo.
  - destruct action; unfold PortfolioSimulator.execute_trade in Hdo;
      cbv beta iota zeta in Hdo.
    + unfold PortfolioSimulator._execute_buy in Hdo.
      destruct (PortfolioSimulator.buy_order s _ price) as [[[[q' cost] msg]|] m].
      * destruct (dict_get _ ticker) as [position|].
        -- destruct (Position.add_quantity position q' price); [|discriminate].
           inversion Hdo; subst. right. left.
           do 4 eexists. split; [reflexivity|]. split; [|reflexivity].
           destruct msg; reflexivity.
        -- inversion Hdo; subst. right. left.
           do 4 eexists. split; [reflexivity|]. split; [|reflexivity].
           destruct msg; reflexivity.
      * inversion Hdo; subst. left. repeat split. discriminate.
    + unfold PortfolioSimulator._execute_sell in Hdo.
      destruct (dict_get _ ticker) as [position|].
      * destruct (Position.quantity position <? _)%Z;
          inversion Hdo; subst; right; left;
          do 4 eexists; (split; [reflexivity|]); (split; reflexivity).
      * inversion Hdo; subst. left. repeat split. discriminate.
    + inversion Hdo; subst. left. repeat split. discriminate.
  - inversion Hdo; subst. right. right. do 2 eexists. split; reflexivity.
Qed.

(** An invariant of the simulator that the recomputation of the state
    establishes holds after every call of a run. *)
Lemma run_invariant (I : PortfolioSimulator.t -> Prop) :
  (forall s cash' d date,
      I s ->
      I (PortfolioSimulator._update_portfolio_state
           (PortfolioSimulator.write_ledger s cash' d) date)) ->
  (forall s r, I s -> I (PortfolioSimulator.append_trade s r)) ->
  forall calls s steps,
    I s -> run s calls = Some steps -> Forall (fun st => I (after st)) steps.
Proof.
  intros Hupd Happ. induction calls as [|c calls IH]; intros s steps Hs Hrun;
    simpl in Hrun.
  - inversion Hrun. constructor.
  - destruct (do_call s c) as [[r s']|] eqn:Hdo; [|discriminate].
    destruct (run s' calls) as [steps'|] eqn:Hrun'; [|discriminate].
    inversion Hrun; subst. clear Hrun.
    assert (Hs' : I s').
    { destruct (do_call_shape _ _ _ _ Hdo)
        as [[-> _]|[[cash' [d [date [record [_ [_ ->]]]]]]|[d [date [_ ->]]]]].
      - exact Hs.
      - apply Happ, Hupd, Hs.
      - apply Hupd, Hs. }
    constructor; [exact Hs'|]. eapply IH; eassumption.
Qed.

(* ------------------------------------------------------------------------- *)
(** ** The recorded total value, the daily return, the logs *)

Lemma py_sum_nil_zero : py_sum [] = 0.
Proof. reflexivity. Qed.

(** X2: after every call of a run that starts from a fresh simulator, the
    total value recorded in the current state is
    [cash + sum(quantity * mark price)] over the live positions, and the cash
    recorded in it is the cash balance. *)
Theorem total_value_is_cash_plus_positions
        (cfg : PortfolioSimulatorConfig.t) (now : Z) (calls : list Call)
        (steps : list Step) :
  run (PortfolioSimulator.init cfg now) calls = Some steps ->
  Forall (fun st => value_recorded (after st)) steps.
Proof.
  apply (run_invariant value_recorded).
  - intros s cash' d date _. unfold value_recorded, ledger_value.
    change (live_positions
              (PortfolioSimulator._update_portfolio_state
                 (PortfolioSimulator.write_ledger s cash' d) date))
      with (live_positions (PortfolioSimulator.write_ledger s cash' d)).
    pose proof (update_portfolio_state_frame
                  (PortfolioSimulator.write_ledger s cash' d) date) as F.
    cbv zeta in F. destruct F as [_ [Hc [_ [_ [_ [Htv [Hsc _]]]]]]].
    rewrite Htv, Hsc, Hc, live_positions_write. split; reflexivity.
  - intros s r H. exact H.
  - unfold value_recorded, ledger_value, live_positions. simpl.
    split; [|reflexivity]. unfold positions_value. simpl.
    rewrite py_sum_nil_zero. ring.
Qed.

Lemma total_value_is_cash_plus_positions_witness :
  exists steps,
    run (PortfolioSimulator.init PortfolioSimulatorConfig.default 0) Samples.calls
    = Some steps
    /\ Forall (fun st => value_recorded (after st)) steps.
Proof.
  destruct (run (PortfolioSimulator.init PortfolioSimulatorConfig.default 0)
                Samples.calls) as [steps|] eqn:Hrun.
  - exists steps. split; [reflexivity|].
    exact (total_value_is_cash_plus_positions _ _ _ _ Hrun).
  - vm_compute in Hrun. discriminate.
Defined.

(** X3: every snapshot in the simulator's history has a daily return of
    zero.  [_update_portfolio_state] compares the total value of the current
    state with that of the last snapshot of the history, and after the first
    update these are one and the same object. *)
Theorem daily_return_is_always_zero
        (cfg : PortfolioSimulatorConfig.t) (now : Z) (calls : list Call)
        (steps : list Step) :
  run (PortfolioSimulator.init cfg now) calls = Some steps ->
  Forall (fun st =>
            Forall (fun snapshot => PortfolioState.daily_return snapshot == 0)
                   (PortfolioSimulator.portfolio_history (after st)))
         steps.
Proof.
  intros Hrun.
  assert (H : Forall (fun st => returns_zero (after st)) steps).
  { revert Hrun. apply (run_invariant returns_zero).
    - intros s cash' d date [Hall Hlast]. unfold returns_zero.
      cbn [PortfolioSimulator._update_portfolio_state
           PortfolioSimulator.portfolio_history
           PortfolioSimulator.current_state].
      split.
      + apply Forall_app. split; [exact Hall|].
        constructor; [|constructor].
        cbn [PortfolioSimulator.write_ledger PortfolioSimulator.portfolio_history
             PortfolioSimulator.current_state]. simpl.
        destruct (rev (PortfolioSimulator.portfolio_history s)) as [|prev hs];
          [reflexivity|].
        rewrite Hlast.
        destruct (Qltb 0 _) eqn:E; [|reflexivity].
        apply Qltb_true in E. field. lra.
      + cbn [PortfolioSimulator.write_ledger PortfolioSimulator.portfolio_history].
        rewrite rev_app_distr. reflexivity.
    - intros s r H. exact H.
    - split; [constructor | exact I]. }
  eapply Forall_impl; [|exact H]. intros st [Hall _]. exact Hall.
Qed.

Lemma daily_return_is_always_zero_witness :
  exists steps,
    run (PortfolioSimulator.init PortfolioSimulatorConfig.default 0) Samples.calls
    = Some steps
    /\ Forall (fun st =>
                 Forall (fun snapshot => PortfolioState.daily_return snapshot == 0)
                        (PortfolioSimulator.portfolio_history (after st)))
              steps.
Proof.
  destruct (run (PortfolioSimulator.init PortfolioSimulatorConfig.default 0)
                Samples.calls) as [steps|] eqn:Hrun.
  - exists steps. split; [reflexivity|].
    exact (daily_return_is_always_zero _ _ _ _ Hrun).
  - vm_compute in Hrun. discriminate.
Defined.

Lemma last_cons {A} (l : list A) :
  forall a d, last (a :: l) d = last l a.
Proof.
  induction l as [|b l IH]; intros a d; [reflexivity|].
  change (last (a :: b :: l) d) with (last (b :: l) d).
  rewrite (IH b d), (IH b a). reflexivity.
Qed.

Lemma run_logs (calls : list Call) :
  forall s steps,
    run s calls = Some steps ->
    PortfolioSimulator.trade_history (final s steps)
    = PortfolioSimulator.trade_history s ++ flat_map logged steps
    /\ PortfolioSimulator.portfolio_history (final s steps)
       = PortfolioSimulator.portfolio_history s ++ flat_map snapshots_appended steps.
Proof.
  induction calls as [|c calls IH]; intros s steps Hrun; simpl in Hrun.
  - inversion Hrun. unfold final. simpl. now rewrite !app_nil_r.
  - destruct (do_call s c) as [[r s']|] eqn:Hdo; [|discriminate].
    destruct (run s' calls) as [steps'|] eqn:Hrun'; [|discriminate].
    inversion Hrun; subst. clear Hrun.
    destruct (IH s' steps' Hrun') as [IHt IHp].
    assert (Hfinal : final s (mkStep s c r s' :: steps') = final s' steps').
    { unfold final. cbn [map after]. apply last_cons. }
    rewrite Hfinal, IHt, IHp.
    cbn [flat_map].
    destruct (do_call_shape _ _ _ _ Hdo)
      as [[-> [Hlog Hr]]|[[cash' [d [date [record [-> [Hlog ->]]]]]]|[d [date [-> ->]]]]].
    + destruct r as [record|]; [|congruence].
      assert (Hsnap : snapshots_appended (mkStep s c (Some record) s) = []).
      { unfold snapshots_appended. cbn [returned]. now rewrite Hlog. }
      rewrite Hlog, Hsnap. split; reflexivity.
    + match goal with
      | |- context [snapshots_appended ?st] =>
          assert (Hsnap : snapshots_appended st
                          = [PortfolioSimulator.current_state (after st)])
            by (unfold snapshots_appended; cbn [returned]; now rewrite Hlog);
          rewrite Hsnap
      end.
      rewrite Hlog. cbn [after]. simpl. rewrite <- !app_assoc. split; reflexivity.
    + match goal with
      | |- context [snapshots_appended ?st] =>
          change (snapshots_appended st)
            with [PortfolioSimulator.current_state (after st)];
          change (logged st) with (@nil TradeRecord.t)
      end.
      cbn [after]. simpl. rewrite <- !app_assoc. split; reflexivity.
Qed.

(** X4: at the end of a run that starts from a fresh simulator, the trade
    history holds, in order, exactly the records of the BUY and SELL calls
    that succeeded (a HOLD and a refused order return a record that is not
    logged), and the portfolio history holds exactly one snapshot per
    executed trade and per price update. *)
Theorem histories_of_a_run
        (cfg : PortfolioSimulatorConfig.t) (now : Z) (calls : list Call)
        (steps : list Step) :
  run (PortfolioSimulator.init cfg now) calls = Some steps ->
  let s := final (PortfolioSimulator.init cfg now) steps in
  PortfolioSimulator.trade_history s = flat_map logged steps
  /\ PortfolioSimulator.portfolio_history s = flat_map snapshots_appended steps
  /\ Forall (fun record =>
               TradeRecord.success record = true
               /\ TradeRecord.action record <> TradeAction.HOLD)
            (PortfolioSimulator.trade_history s).
Proof.
  intros Hrun. cbv zeta.
  destruct (run_logs _ _ _ Hrun) as [Ht Hp]. simpl in Ht, Hp.
  split; [exact Ht|]. split; [exact Hp|].
  rewrite Ht. apply Forall_forall. intros record Hin.
  apply in_flat_map in Hin. destruct Hin as [st [_ Hin]].
  unfold logged in Hin. destruct (returned st) as [r|]; [|contradiction].
  destruct (TradeRecord.action r) eqn:Ea;
    try contradiction;
    (destruct (TradeRecord.success r) eqn:Es; [|contradiction];
     destruct Hin as [<-|[]]; split; [exact Es | congruence]).
Qed.

Lemma histories_of_a_run_witness :
  exists steps,
    run (PortfolioSimulator.init PortfolioSimulatorConfig.default 0) Samples.calls
    = Some steps
    /\ PortfolioSimulator.trade_history
         (final (PortfolioSimulator.init PortfolioSimulatorConfig.default 0) steps)
       = flat_map logged steps.
Proof.
  destruct (run (PortfolioSimulator.init PortfolioSimulatorConfig.default 0)
                Samples.calls) as [steps|] eqn:Hrun.
  - exists steps. split; [reflexivity|].
    exact (proj1 (histories_of_a_run _ _ _ _ Hrun)).
  - vm_compute in Hrun. discriminate.
Defined.

(* ------------------------------------------------------------------------- *)
(** ** The value of the position map *)

Lemma positions_value_cons k p (d : dict Position.t) :
  positions_value ((k, p) :: d) == market_value p + positions_value d.
Proof. unfold positions_value. simpl. now rewrite py_sum_cons. Qed.

Lemma positions_value_set_fresh (d : dict Position.t) k v :
  dict_get d k = None ->
  positions_value (dict_set d k v) == positions_value d + market_value v.
Proof.
  induction d as [|[k0 v0] d IH]; simpl; intros Hget.
  - rewrite positions_value_cons. unfold positions_value. simpl.
    rewrite py_sum_nil_zero. ring.
  - destruct (String.eqb k0 k); [discriminate|].
    rewrite !positions_value_cons, IH by exact Hget. ring.
Qed.

Lemma positions_value_set_held (d : dict Position.t) k old v :
  dict_get d k = Some old ->
  positions_value (dict_set d k v)
  == positions_value d - market_value old + market_value v.
Proof.
  induction d as [|[k0 v0] d IH]; simpl; intros Hget; [discriminate|].
  destruct (String.eqb k0 k).
  - inversion Hget; subst. rewrite !positions_value_cons. ring.
  - rewrite !positions_value_cons, IH by exact Hget. ring.
Qed.

Lemma positions_value_del (d : dict Position.t) k old :
  dict_get d k = Some old ->
  positions_value (dict_del d k) == positions_value d - market_value old.
Proof.
  induction d as [|[k0 v0] d IH]; simpl; intros Hget; [discriminate|].
  destruct (String.eqb k0 k).
  - inversion Hget; subst. rewrite !positions_value_cons. ring.
  - rewrite !positions_value_cons, IH by exact Hget. ring.
Qed.

(* ------------------------------------------------------------------------- *)
(** ** What a SELL does *)

Lemma dict_get_set_same {V} (d : dict V) (k : string) (v : V) :
  dict_get (dict_set d k v) k = Some v.
Proof. rewrite dict_get_set. now rewrite String.eqb_refl. Qed.

Lemma dict_get_set_other {V} (d : dict V) (k k' : string) (v : V) :
  k <> k' -> dict_get (dict_set d k v) k' = dict_get d k'.
Proof.
  intros Hne. rewrite dict_get_set.
  destruct (String.eqb_spec k k'); [congruence | reflexivity].
Qed.

Lemma live_positions_executed s cash' d date r :
  live_positions
    (PortfolioSimulator.append_trade
       (PortfolioSimulator._update_portfolio_state
          (PortfolioSimulator.write_ledger s cash' d) date) r) = d.
Proof.
  change (live_positions
            (PortfolioSimulator.append_trade
               (PortfolioSimulator._update_portfolio_state
                  (PortfolioSimulator.write_ledger s cash' d) date) r))
    with (live_positions (PortfolioSimulator.write_ledger s cash' d)).
  apply live_positions_write.
Qed.

(** X5: a SELL at a positive price on a well-formed position map, when the
    call returns.  Without a position in the ticker the order is refused and
    the simulator is unchanged.  With one, the call succeeds and sells at
    least one share and at most the shares held, all of them when the record
    carries the partial-sale message; the cash is credited with the proceeds
    net of transaction cost and slippage; the position is deleted when
    everything held was sold, and otherwise keeps its cost basis, has the
    remaining quantity, the sale price as mark price, the status PARTIAL and
    the realized P&L increased by [(price - basis) * sold]; no other ticker
    is touched.  The whole held position is marked at the sale price, so the
    value of the ledger changes by [held * (price - old mark)] less the
    transaction cost and slippage. *)
Theorem sell_semantics s ticker price confidence reasoning expert_outputs date
        record s' :
  book_ok s -> 0 < price ->
  PortfolioSimulator.execute_trade s ticker TradeAction.SELL price confidence
                                   reasoning expert_outputs date
  = Some (record, s') ->
  (forall other, other <> ticker ->
      dict_get (live_positions s') other = dict_get (live_positions s) other)
  /\ match dict_get (live_positions s) ticker with
     | None =>
         TradeRecord.success record = false
         /\ TradeRecord.quantity record = 0%Z
         /\ TradeRecord.error_message record = Some (NoPositionToSell ticker)
         /\ s' = s
     | Some position =>
         let held := Position.quantity position in
         let sold := TradeRecord.quantity record in
         let value := inject_Z sold * price in
         TradeRecord.success record = true
         /\ (1 <= sold <= held)%Z
         /\ PortfolioSimulator.cash s'
            = PortfolioSimulator.cash s
              + (value - value * PortfolioSimulator.transaction_cost s
                 - value * PortfolioSimulator.slippage s)
         /\ (TradeRecord.error_message record = None
             \/ TradeRecord.error_message record = Some (PartialSell held)
                /\ sold = held)
         /\ match dict_get (live_positions s') ticker with
            | None => sold = held
            | Some position' =>
                (sold < held)%Z
                /\ Position.quantity position' = (held - sold)%Z
                /\ Position.avg_price position' = Position.avg_price position
                /\ Position.current_price position' = price
                /\ Position.status position' = PositionStatus.PARTIAL
                /\ Position.realized_pnl position'
                   = Position.realized_pnl position
                     + (price - Position.avg_price position) * inject_Z sold
            end
         /\ ledger_value s'
            == ledger_value s
               - (value * PortfolioSimulator.transaction_cost s
                  + value * PortfolioSimulator.slippage s)
               + inject_Z held * (price - Position.current_price position)
     end.
Proof.
  cbv zeta. intros [Hnd Hd] Hp Hexec.
  pose proof (calculate_position_size_pos s ticker price confidence Hp) as Hq.
  unfold PortfolioSimulator.execute_trade in Hexec. cbv beta iota zeta in Hexec.
  set (q := PortfolioSimulator.calculate_position_size s ticker price confidence) in *.
  unfold PortfolioSimulator._execute_sell in Hexec. fold (live_positions s) in Hexec.
  destruct (dict_get (live_positions s) ticker) as [position|] eqn:Eget.
  - pose proof (dict_get_item _ _ _ _ Hd Eget) as Hitem.
    assert (Hheld : (1 <= Position.quantity position)%Z) by apply Hitem.
    destruct (Z.ltb_spec (Position.quantity position) q) as [Hlt|Hge].
    + (* more asked than held *)
      cbv beta iota zeta in Hexec. injection Hexec as <- <-.
      rewrite live_positions_executed.
      unfold Position.reduce_quantity. rewrite Z.leb_refl.
      cbn [Position.update_price Position.quantity]. cbn [Z.eqb].
      split.
      * intros other Hne. rewrite dict_get_del_other by congruence.
        now apply dict_get_set_other.
      * rewrite dict_get_del by (now apply dict_keys_set).
        cbn.
        repeat split; try lia.
        -- right. split; reflexivity.
        -- unfold ledger_value. rewrite live_positions_executed.
           rewrite (positions_value_del _ _ _ (dict_get_set_same _ _ _)),
                   (positions_value_set_held _ _ _ _ Eget).
           unfold market_value.
           cbn [Position.quantity Position.current_price].
           simpl PortfolioSimulator.cash. ring.
    + cbv beta iota zeta in Hexec. injection Hexec as <- <-.
      rewrite live_positions_executed.
      destruct (Z.eq_dec (Position.quantity position) q) as [Heq|Hne].
      * unfold Position.reduce_quantity. rewrite <- Heq, Z.leb_refl.
        cbn [Position.update_price Position.quantity]. cbn [Z.eqb].
        split.
        -- intros other Hne. rewrite dict_get_del_other by congruence.
           now apply dict_get_set_other.
        -- rewrite dict_get_del by (now apply dict_keys_set).
           cbn.
           repeat split; try lia.
           ++ left. reflexivity.
           ++ unfold ledger_value. rewrite live_positions_executed.
              rewrite (positions_value_del _ _ _ (dict_get_set_same _ _ _)),
                      (positions_value_set_held _ _ _ _ Eget).
              unfold market_value.
              cbn [Position.quantity Position.current_price].
              simpl PortfolioSimulator.cash. ring.
      * unfold Position.reduce_quantity.
        destruct (Z.leb_spec (Position.quantity position) q) as [Hle|_]; [lia|].
        cbn [Position.update_price Position.quantity].
        destruct (Z.eqb_spec (Position.quantity position - q) 0) as [H0|_]; [lia|].
        split.
        -- intros other Hne'. now apply dict_get_set_other.
        -- rewrite dict_get_set_same.
           cbn.
           repeat split; try lia.
           ++ left. reflexivity.
           ++ unfold ledger_value. rewrite live_positions_executed.
              rewrite (positions_value_set_held _ _ _ _ Eget).
              unfold market_value.
              cbn [Position.update_price Position.quantity Position.current_price].
              simpl PortfolioSimulator.cash.
              unfold Z.sub. rewrite inject_Z_plus, inject_Z_opp. ring.
  - injection Hexec as <- <-.
    split; [reflexivity|]. now repeat split.
Qed.

Lemma sell_semantics_witness :
  exists bought s record s' position',
    PortfolioSimulator.execute_trade
      (PortfolioSimulator.init PortfolioSimulatorConfig.default 0)
      "A" TradeAction.BUY 50 (Some 0.8) "" [] 1
    = Some (bought, s)
    /\ dict_get (live_positions s) "A" = Some (Position.new "A" 144 50 50)
    /\ PortfolioSimulator.execute_trade s "A" TradeAction.SELL 55 (Some 0.8) "" [] 2
       = Some (record, s')
    /\ TradeRecord.success record = true
    /\ TradeRecord.quantity record = 130%Z
    /\ dict_get (live_positions s') "A" = Some position'
    /\ Position.quantity position' = 14%Z
    /\ Position.status position' = PositionStatus.PARTIAL
    /\ Position.realized_pnl position' = 0 + (55 - 50) * inject_Z 130.
Proof.
  destruct (PortfolioSimulator.execute_trade
              (PortfolioSimulator.init PortfolioSimulatorConfig.default 0)
              "A" TradeAction.BUY 50 (Some 0.8) "" [] 1)
    as [[bought s]|] eqn:Hbuy; [ | vm_compute in Hbuy; discriminate].
  assert (Hheld : dict_get (live_positions s) "A"
                  = Some (Position.new "A" 144 50 50)).
  { vm_compute in Hbuy. injection Hbuy as _ <-. reflexivity. }
  assert (Hbook : book_ok s).
  { destruct (do_call_book
                (PortfolioSimulator.init PortfolioSimulatorConfig.default 0)
                (ExecuteTrade "A" TradeAction.BUY 50 (Some 0.8) "" [] 1))
      as [r [s1 [Hdo Hok]]].
    - split; constructor.
    - reflexivity.
    - cbn [do_call] in Hdo. rewrite Hbuy in Hdo. injection Hdo as _ <-. exact Hok. }
  destruct (PortfolioSimulator.execute_trade s "A" TradeAction.SELL 55 (Some 0.8)
                                             "" [] 2)
    as [[record s']|] eqn:Hsell.
  - assert (Hquantity : TradeRecord.quantity record = 130%Z).
    { vm_compute in Hbuy. injection Hbuy as _ <-.
      vm_compute in Hsell. injection Hsell as <- _. reflexivity. }
    assert (Hp : 0 < 55) by reflexivity.
    pose proof (sell_semantics s "A" 55 (Some 0.8) "" [] 2 record s' Hbook Hp Hsell)
      as [_ H].
    rewrite Hheld in H. cbv zeta in H.
    destruct H as [Hsucc [_ [_ [_ [Hpos _]]]]].
    rewrite Hquantity in Hpos.
    destruct (dict_get (live_positions s') "A") as [position'|] eqn:Hget.
    + exists bought, s, record, s', position'.
      destruct Hpos as [_ [Hq [_ [_ [Hst Hpnl]]]]].
      repeat split; try assumption; try reflexivity.
    + discriminate Hpos.
  - vm_compute in Hbuy. injection Hbuy as _ <-.
    vm_compute in Hsell. discriminate.
Defined.

(* ------------------------------------------------------------------------- *)
(** ** What a BUY does *)

(** X6: an executed BUY of [q] shares at a positive price on a well-formed
    position map debits the cash by [q * price] plus transaction cost and
    slippage and touches no other ticker.  A ticker not held before gets a
    new OPEN position of [q] shares with basis and mark price equal to the
    trade price, and the value of the ledger drops by exactly the transaction
    cost and slippage.  A ticker already held gets the quantities added and
    the quantity-weighted average of the two prices as basis, while its mark
    price, status and realized P&L are left as they were, so that the new
    shares are valued at the old mark price. *)
Theorem buy_semantics s ticker price confidence reasoning expert_outputs date
        record s' :
  book_ok s -> 0 < price ->
  PortfolioSimulator.execute_trade s ticker TradeAction.BUY price confidence
                                   reasoning expert_outputs date
  = Some (record, s') ->
  TradeRecord.success record = true ->
  let q := TradeRecord.quantity record in
  (1 <= q)%Z
  /\ PortfolioSimulator.cash s' = PortfolioSimulator.cash s - order_cost s q price
  /\ (forall other, other <> ticker ->
         dict_get (live_positions s') other = dict_get (live_positions s) other)
  /\ match dict_get (live_positions s) ticker with
     | None =>
         dict_get (live_positions s') ticker
         = Some (Position.new ticker q price price)
         /\ ledger_value s'
            == ledger_value s
               - (inject_Z q * price * PortfolioSimulator.transaction_cost s
                  + inject_Z q * price * PortfolioSimulator.slippage s)
     | Some position =>
         exists position',
           dict_get (live_positions s') ticker = Some position'
           /\ Position.quantity position' = (Position.quantity position + q)%Z
           /\ Position.avg_price position' * inject_Z (Position.quantity position + q)
              == inject_Z (Position.quantity position) * Position.avg_price position
                 + inject_Z q * price
           /\ Position.current_price position' = Position.current_price position
           /\ Position.status position' = Position.status position
           /\ Position.realized_pnl position' = Position.realized_pnl position
           /\ ledger_value s'
              == ledger_value s - order_cost s q price
                 + inject_Z q * Position.current_price position
     end.
Proof.
  cbv zeta. intros [Hnd Hd] Hp Hexec Hsucc.
  pose proof (calculate_position_size_pos s ticker price confidence Hp) as Hq.
  unfold PortfolioSimulator.execute_trade in Hexec. cbv beta iota zeta in Hexec.
  unfold PortfolioSimulator._execute_buy in Hexec.
  destruct (PortfolioSimulator.buy_order s _ price)
    as [[[[q' cost] msg]|] m] eqn:Ebuy.
  2: { inversion Hexec; subst. discriminate. }
  destruct (buy_order_quantity_pos _ _ _ _ _ _ _ Hq Ebuy) as [Hq' ->].
  fold (live_positions s) in Hexec.
  destruct (dict_get (live_positions s) ticker) as [position|] eqn:Eget.
  - pose proof (dict_get_item _ _ _ _ Hd Eget) as Hitem.
    assert (Hheld : (1 <= Position.quantity position)%Z) by apply Hitem.
    unfold Position.add_quantity in Hexec.
    destruct (Z.eqb_spec (Position.quantity position + q') 0) as [H0|_]; [lia|].
    injection Hexec as Hrec Hs'. subst s'.
    assert (Hrq : TradeRecord.quantity record = q')
      by (rewrite <- Hrec; destruct msg; reflexivity).
    rewrite Hrq. rewrite live_positions_executed.
    split; [exact Hq'|]. split; [reflexivity|]. split.
    + intros other Hne. apply dict_get_set_other. congruence.
    + eexists. split; [apply dict_get_set_same|].
      cbn [Position.update_price Position.quantity Position.avg_price
           Position.current_price Position.status Position.realized_pnl].
      split; [reflexivity|]. split.
      * field. intros H0. pose proof (inject_Z_pos (Position.quantity position + q')).
        assert (0 < inject_Z (Position.quantity position + q')) by (apply H; lia).
        lra.
      * split; [reflexivity|]. split; [reflexivity|]. split; [reflexivity|].
        unfold ledger_value. rewrite live_positions_executed.
        rewrite (positions_value_set_held _ _ _ _ Eget).
        unfold market_value. cbn [Position.update_price Position.quantity
                                  Position.current_price].
        simpl PortfolioSimulator.cash. rewrite inject_Z_plus. ring.
  - injection Hexec as Hrec Hs'. subst s'.
    assert (Hrq : TradeRecord.quantity record = q')
      by (rewrite <- Hrec; destruct msg; reflexivity).
    rewrite Hrq. rewrite live_positions_executed.
    split; [exact Hq'|]. split; [reflexivity|]. split.
    + intros other Hne. apply dict_get_set_other. congruence.
    + split; [apply dict_get_set_same|].
      unfold ledger_value. rewrite live_positions_executed.
      rewrite (positions_value_set_fresh _ _ _ Eget).
      unfold market_value, Position.new, order_cost.
      cbn [Position.quantity Position.current_price].
      simpl PortfolioSimulator.cash. ring.
Qed.

Lemma buy_semantics_witness :
  exists record s',
    PortfolioSimulator.execute_trade
      (PortfolioSimulator.init PortfolioSimulatorConfig.default 0)
      "A" TradeAction.BUY 50 (Some 0.8) "" [] 1
    = Some (record, s')
    /\ dict_get (live_positions s') "A" = Some (Position.new "A" 144 50 50).
Proof.
  destruct (PortfolioSimulator.execute_trade
              (PortfolioSimulator.init PortfolioSimulatorConfig.default 0)
              "A" TradeAction.BUY 50 (Some 0.8) "" [] 1)
    as [[record s']|] eqn:Hexec.
  - exists record, s'. split; [reflexivity|].
    assert (Hs : TradeRecord.success record = true
                 /\ TradeRecord.quantity record = 144%Z).
    { vm_compute in Hexec. inversion Hexec. split; reflexivity. }
    destruct Hs as [Hs Hq].
    assert (Hb : book_ok (PortfolioSimulator.init PortfolioSimulatorConfig.default 0))
      by (split; constructor).
    assert (Hp : 0 < 50) by reflexivity.
    pose proof (buy_semantics _ _ _ _ _ _ _ _ _ Hb Hp Hexec Hs) as H.
    cbv zeta in H. destruct H as [_ [_ [_ H]]].
    change (dict_get (live_positions
                        (PortfolioSimulator.init PortfolioSimulatorConfig.default 0))
                     "A") with (@None Position.t) in H.
    cbv iota in H. rewrite Hq in H. exact (proj1 H).
  - vm_compute in Hexec. discriminate.
Defined.

(* ------------------------------------------------------------------------- *)
(** ** What a price update does *)

Lemma dict_keys_set_held {V} (d : dict V) (k : string) (old v : V) :
  dict_get d k = Some old -> dict_keys (dict_set d k v) = dict_keys d.
Proof.
  induction d as [|[k0 v0] d IH]; simpl; [discriminate|].
  destruct (String.eqb_spec k0 k) as [->|Hne]; simpl.
  - reflexivity.
  - intros H. f_equal. now apply IH.
Qed.

Lemma update_one_price_spec (d : dict Position.t) (k : string) (np : option Q) :
  dict_keys (PortfolioSimulator.update_one_price d (k, np)) = dict_keys d
  /\ forall ticker position,
      dict_get d ticker = Some position ->
      dict_get (PortfolioSimulator.update_one_price d (k, np)) ticker
      = Some (if String.eqb k ticker then repriced position (Some np)
              else position).
Proof.
  unfold PortfolioSimulator.update_one_price, repriced. simpl.
  destruct np as [new_price|].
  - destruct (Qle_bool new_price 0).
    + split; [reflexivity|]. intros ticker position H.
      rewrite H. now destruct (String.eqb k ticker).
    + destruct (dict_get d k) as [held|] eqn:Ek.
      * split; [now apply (dict_keys_set_held d k held)|].
        intros ticker position H. rewrite dict_get_set.
        destruct (String.eqb_spec k ticker) as [->|Hne].
        -- congruence.
        -- exact H.
      * split; [reflexivity|]. intros ticker position H.
        destruct (String.eqb_spec k ticker) as [->|Hne]; [congruence | exact H].
  - split; [reflexivity|]. intros ticker position H.
    rewrite H. now destruct (String.eqb k ticker).
Qed.

Lemma update_prices_fold_spec (updates : dict (option Q)) :
  NoDup (dict_keys updates) ->
  forall d,
    dict_keys (fold_left PortfolioSimulator.update_one_price updates d)
    = dict_keys d
    /\ forall ticker position,
        dict_get d ticker = Some position ->
        dict_get (fold_left PortfolioSimulator.update_one_price updates d) ticker
        = Some (repriced position (dict_get updates ticker)).
Proof.
  induction updates as [|[k np] updates IH]; intros Hnd d; simpl.
  - split; [reflexivity|]. intros ticker position H. exact H.
  - inversion Hnd as [|? ? Hk Hnd']; subst.
    destruct (update_one_price_spec d k np) as [Hkeys Hget].
    destruct (IH Hnd' (PortfolioSimulator.update_one_price d (k, np)))
      as [Hkeys' Hget'].
    split; [now rewrite Hkeys', Hkeys|].
    intros ticker position H.
    rewrite (Hget' _ _ (Hget _ _ H)).
    destruct (String.eqb_spec k ticker) as [->|Hne].
    + now rewrite (dict_get_not_in updates ticker Hk).
    + reflexivity.
Qed.

(** X7: a price update never changes the cash, the trade history or the set
    of held tickers (it opens no position for a ticker that is not held);
    every held position keeps its quantity, cost basis and realized P&L; its
    mark price becomes the new price when the update has a positive, non-NaN
    price for its ticker and is left as it was otherwise; and exactly one
    snapshot is appended to the history. *)
Theorem update_prices_semantics s (price_updates : dict (option Q)) date :
  NoDup (dict_keys price_updates) ->
  let s' := PortfolioSimulator.update_prices s price_updates date in
  PortfolioSimulator.cash s' = PortfolioSimulator.cash s
  /\ PortfolioSimulator.trade_history s' = PortfolioSimulator.trade_history s
  /\ PortfolioSimulator.portfolio_history s'
     = PortfolioSimulator.portfolio_history s
       ++ [PortfolioSimulator.current_state s']
  /\ dict_keys (live_positions s') = dict_keys (live_positions s)
  /\ forall ticker position,
      dict_get (live_positions s) ticker = Some position ->
      exists position',
        dict_get (live_positions s') ticker = Some position'
        /\ position' = repriced position (dict_get price_updates ticker)
        /\ Position.quantity position' = Position.quantity position
        /\ Position.avg_price position' = Position.avg_price position
        /\ Position.realized_pnl position' = Position.realized_pnl position.
Proof.
  intros Hnd. cbv zeta.
  split; [reflexivity|]. split; [reflexivity|]. split; [reflexivity|].
  assert (Hlive : live_positions (PortfolioSimulator.update_prices s price_updates date)
                  = fold_left PortfolioSimulator.update_one_price price_updates
                              (live_positions s)).
  { unfold PortfolioSimulator.update_prices.
    change (live_positions
              (PortfolioSimulator._update_portfolio_state
                 (PortfolioSimulator.write_ledger s (PortfolioSimulator.cash s)
                    (fold_left PortfolioSimulator.update_one_price price_updates
                       (PortfolioSimulator.heap s (PortfolioSimulator.positions s))))
                 date))
      with (live_positions
              (PortfolioSimulator.write_ledger s (PortfolioSimulator.cash s)
                 (fold_left PortfolioSimulator.update_one_price price_updates
                            (live_positions s)))).
    apply live_positions_write. }
  rewrite Hlive.
  destruct (update_prices_fold_spec price_updates Hnd (live_positions s))
    as [Hkeys Hget].
  split; [exact Hkeys|].
  intros ticker position H. eexists. split; [exact (Hget _ _ H)|].
  split; [reflexivity|].
  unfold repriced. destruct (dict_get price_updates ticker) as [[np|]|];
    try (repeat split; reflexivity).
  destruct (Qle_bool np 0); repeat split; reflexivity.
Qed.

Lemma update_prices_semantics_witness :
  dict_keys (live_positions
               (PortfolioSimulator.update_prices
                  (PortfolioSimulator.init PortfolioSimulatorConfig.default 0)
                  [("A"%string, Some 55)] 2))
  = dict_keys (live_positions
                 (PortfolioSimulator.init PortfolioSimulatorConfig.default 0)).
Proof.
  apply (update_prices_semantics
           (PortfolioSimulator.init PortfolioSimulatorConfig.default 0)
           [("A"%string, Some 55)] 2).
  repeat constructor. intros [].
Defined.

(* ------------------------------------------------------------------------- *)
(** ** The aggregator with at least one expert *)

Lemma collect_outputs_keys (runs : list (string * ExpertRun)) :
  forall acc,
    NoDup (dict_keys acc) ->
    NoDup (dict_keys (ExpertAggregator.collect_outputs runs acc)).
Proof.
  induction runs as [|[name run] runs IH]; intros acc Hacc; simpl; [exact Hacc|].
  destruct run as [[result|]|]; try (now apply IH).
  - apply IH. now apply dict_keys_set.
  - exact Hacc.
Qed.

Lemma run_all_experts_keys sentiment technical fundamental chart :
  NoDup (dict_keys (ExpertAggregator._run_all_experts
                      sentiment technical fundamental chart)).
Proof.
  unfold ExpertAggregator._run_all_experts. apply collect_outputs_keys. constructor.
Qed.

(** The three running sums of [_aggregate_probabilities]. *)
Lemma aggregate_fold (weights : dict Q) (outs : dict ExpertOutput.t) :
  forall b h s,
    fold_left (ExpertAggregator.aggregate_step weights) outs (b, h, s)
    = (fold_left Qplus
         (map (fun item =>
                 DecisionProbabilities.buy_probability
                   (ExpertOutput.probabilities (snd item))
                 * ExpertAggregator.weights_get weights (fst item)) outs) b,
       fold_left Qplus
         (map (fun item =>
                 DecisionProbabilities.hold_probability
                   (ExpertOutput.probabilities (snd item))
                 * ExpertAggregator.weights_get weights (fst item)) outs) h,
       fold_left Qplus
         (map (fun item =>
                 DecisionProbabilities.sell_probability
                   (ExpertOutput.probabilities (snd item))
                 * ExpertAggregator.weights_get weights (fst item)) outs) s).
Proof.
  induction outs as [|item outs IH]; intros b h s; simpl; [reflexivity|].
  now rewrite IH.
Qed.

Lemma py_sum_map_add3 {A} (f g h : A -> Q) (l : list A) :
  py_sum (map f l) + py_sum (map g l) + py_sum (map h l)
  == py_sum (map (fun a => f a + g a + h a) l).
Proof.
  induction l as [|a l IH]; simpl.
  - rewrite !py_sum_nil_zero. ring.
  - rewrite !py_sum_cons, <- IH. ring.
Qed.

Lemma py_sum_map_le {A} (f g : A -> Q) (l : list A) :
  (forall a, In a l -> f a <= g a) ->
  py_sum (map f l) <= py_sum (map g l).
Proof.
  induction l as [|a l IH]; intros H; simpl.
  - apply Qle_refl.
  - rewrite !py_sum_cons.
    assert (f a <= g a) by (apply H; now left).
    assert (py_sum (map f l) <= py_sum (map g l))
      by (apply IH; intros x Hx; apply H; now right).
    lra.
Qed.

Lemma py_sum_map_scale {A} (f : A -> Q) (c : Q) (l : list A) :
  py_sum (map (fun a => c * f a) l) == c * py_sum (map f l).
Proof.
  induction l as [|a l IH]; simpl.
  - rewrite !py_sum_nil_zero. ring.
  - rewrite !py_sum_cons, IH. ring.
Qed.

Lemma py_sum_map_ext {A} (f g : A -> Q) (l : list A) :
  (forall a, In a l -> f a == g a) ->
  py_sum (map f l) == py_sum (map g l).
Proof.
  intros H. apply Qle_antisym; apply py_sum_map_le; intros a Ha;
    rewrite (H a Ha); apply Qle_refl.
Qed.

Section Aggregation.
Variable np_log : Q -> Q.
Variable outs : dict ExpertOutput.t.
Hypothesis outs_nonempty : outs <> [].
Hypothesis outs_dict : NoDup (dict_keys outs).

Let raw := ExpertAggregator.raw_weight np_log.
Let total := py_sum (map raw (dict_values outs)).
Let weights := ExpertAggregator._calculate_gating_weights np_log outs.

Lemma total_pos : 0 < total.
Proof. apply raw_total_pos. exact outs_nonempty. Qed.

(** The weight the aggregation uses for a present expert. *)
Lemma weights_get_present item :
  In item outs ->
  ExpertAggregator.weights_get weights (fst item) = raw (snd item) / total.
Proof.
  intros Hin. unfold ExpertAggregator.weights_get, weights.
  rewrite (calculate_gating_weights_eq np_log outs outs_nonempty outs_dict).
  destruct item as [name output].
  erewrite dict_get_in; [reflexivity | |].
  - unfold dict_keys. rewrite map_map. exact outs_dict.
  - apply in_map_iff. exists (name, output). split; [reflexivity | exact Hin].
Qed.

Lemma weight_nonneg item :
  In item outs -> 0 < ExpertAggregator.weights_get weights (fst item).
Proof.
  intros Hin. rewrite (weights_get_present item Hin).
  apply Qlt_shift_div_l; [exact total_pos|].
  pose proof (raw_weight_floor np_log (snd item)). unfold raw. lra.
Qed.

Lemma weights_sum_one :
  py_sum (map (fun item => ExpertAggregator.weights_get weights (fst item)) outs)
  == 1.
Proof.
  rewrite (py_sum_map_ext _ (fun item => raw (snd item) / total)).
  - rewrite py_sum_map_div. unfold total, dict_values. rewrite map_map.
    field. fold (dict_values outs).
    pose proof total_pos as H. unfold total, dict_values in H.
    rewrite map_map in H. lra.
  - intros item Hin. now rewrite (weights_get_present item Hin).
Qed.

(** A weighted sum over the present experts lies between the bounds of what
    is summed. *)
Lemma weighted_sum_bounds (f : ExpertOutput.t -> Q) (lo hi : Q) :
  Forall (fun output => lo <= f output <= hi) (dict_values outs) ->
  lo <= py_sum (map (fun item =>
                       f (snd item)
                       * ExpertAggregator.weights_get weights (fst item)) outs)
     <= hi.
Proof.
  intros Hall. rewrite Forall_forall in Hall.
  assert (Hitem : forall item, In item outs -> lo <= f (snd item) <= hi).
  { intros item Hin. apply Hall. unfold dict_values. now apply in_map. }
  split.
  - rewrite <- (Qmult_1_r lo), <- weights_sum_one, <- py_sum_map_scale.
    apply py_sum_map_le. intros item Hin.
    pose proof (weight_nonneg item Hin). pose proof (Hitem item Hin).
    apply Qmult_le_compat_r; [tauto | lra].
  - rewrite <- (Qmult_1_r hi), <- weights_sum_one, <- py_sum_map_scale.
    apply py_sum_map_le. intros item Hin.
    pose proof (weight_nonneg item Hin). pose proof (Hitem item Hin).
    apply Qmult_le_compat_r; [tauto | lra].
Qed.

End Aggregation.

Lemma valid_output_mass (output : ExpertOutput.t) :
  valid_output output ->
  1 - 1.1e-5 <= probability_mass (ExpertOutput.probabilities output) <= 1 + 1.1e-5.
Proof.
  unfold valid_output, probability_mass.
  destruct (ExpertOutput.probabilities output) as [b h s].
  rewrite post_init_spec. cbn [DecisionProbabilities.buy_probability
                                DecisionProbabilities.hold_probability
                                DecisionProbabilities.sell_probability].
  intros H. apply Qabs_Qle_condition in H. lra.
Qed.

(** With at least one valid expert the weighted probabilities have a positive
    total, so they are divided by it and the constructor accepts them. *)
Lemma aggregate_probabilities_some np_log (outs : dict ExpertOutput.t) :
  outs <> [] -> NoDup (dict_keys outs) ->
  Forall valid_output (dict_values outs) ->
  exists p,
    ExpertAggregator._aggregate_probabilities
      outs (ExpertAggregator._calculate_gating_weights np_log outs) = Some p
    /\ probability_mass p == 1
    /\ ((forall output, In output (dict_values outs) ->
            0 <= DecisionProbabilities.buy_probability (ExpertOutput.probabilities output)
            /\ 0 <= DecisionProbabilities.hold_probability (ExpertOutput.probabilities output)
            /\ 0 <= DecisionProbabilities.sell_probability (ExpertOutput.probabilities output)) ->
        0 <= DecisionProbabilities.buy_probability p
        /\ 0 <= DecisionProbabilities.hold_probability p
        /\ 0 <= DecisionProbabilities.sell_probability p).
Proof.
  intros Hne Hnd Hvalid.
  unfold ExpertAggregator._aggregate_probabilities.
  rewrite aggregate_fold.
  set (weights := ExpertAggregator._calculate_gating_weights np_log outs).
  match goal with
  | |- context [Qltb 0 (?b + ?h + ?s)] => set (B := b); set (H := h); set (S := s)
  end.
  assert (Hmass : 1 - 1.1e-5 <= B + H + S <= 1 + 1.1e-5).
  { assert (HB : B = py_sum (map (fun item : string * ExpertOutput.t =>
                                   DecisionProbabilities.buy_probability
                                     (ExpertOutput.probabilities (snd item))
                                   * ExpertAggregator.weights_get weights (fst item))
                                outs)) by reflexivity.
    assert (HH : H = py_sum (map (fun item : string * ExpertOutput.t =>
                                   DecisionProbabilities.hold_probability
                                     (ExpertOutput.probabilities (snd item))
                                   * ExpertAggregator.weights_get weights (fst item))
                                outs)) by reflexivity.
    assert (HS : S = py_sum (map (fun item : string * ExpertOutput.t =>
                                   DecisionProbabilities.sell_probability
                                     (ExpertOutput.probabilities (snd item))
                                   * ExpertAggregator.weights_get weights (fst item))
                                outs)) by reflexivity.
    rewrite HB, HH, HS. rewrite py_sum_map_add3.
    rewrite (py_sum_map_ext _
               (fun item => probability_mass (ExpertOutput.probabilities (snd item))
                            * ExpertAggregator.weights_get weights (fst item))).
    - apply (weighted_sum_bounds np_log outs Hne Hnd
               (fun output => probability_mass (ExpertOutput.probabilities output))).
      eapply Forall_impl; [|exact Hvalid]. intros o Ho.
      now apply valid_output_mass.
    - intros item _. unfold probability_mass. ring. }
  assert (Hpos : 0 < B + H + S).
  { destruct Hmass as [H1 _]. eapply Qlt_le_trans; [|exact H1]. reflexivity. }
  rewrite (Qltb_lt _ _ Hpos).
  unfold DecisionProbabilities.new.
  assert (Hsum : B / (B + H + S) + H / (B + H + S) + S / (B + H + S) - 1 == 0)
    by (clearbody B H S; field; lra).
  assert (Hpost : DecisionProbabilities.post_init
                    (DecisionProbabilities.mk (B / (B + H + S)) (H / (B + H + S))
                                              (S / (B + H + S))) = true).
  { apply post_init_spec. apply Qabs_Qle_condition. rewrite Hsum.
    split; discriminate. }
  rewrite Hpost. eexists. split; [reflexivity|]. split.
  - unfold probability_mass. simpl. clearbody B H S. lra.
  - intros Hnn. simpl.
    assert (Hw : forall item, In item outs ->
                              0 <= ExpertAggregator.weights_get weights (fst item)).
    { intros item Hin. apply Qlt_le_weak.
      now apply (weight_nonneg np_log outs Hne Hnd). }
    assert (Hin_values : forall item, In item outs -> In (snd item) (dict_values outs)).
    { intros item Hin. unfold dict_values. now apply in_map. }
    assert (HB : 0 <= B).
    { apply py_sum_nonneg. apply Forall_forall. intros x Hx.
      apply in_map_iff in Hx. destruct Hx as [item [<- Hin]].
      apply Qmult_le_0_compat; [apply (Hnn _ (Hin_values _ Hin)) | now apply Hw]. }
    assert (HH : 0 <= H).
    { apply py_sum_nonneg. apply Forall_forall. intros x Hx.
      apply in_map_iff in Hx. destruct Hx as [item [<- Hin]].
      apply Qmult_le_0_compat; [apply (Hnn _ (Hin_values _ Hin)) | now apply Hw]. }
    assert (HS : 0 <= S).
    { apply py_sum_nonneg. apply Forall_forall. intros x Hx.
      apply in_map_iff in Hx. destruct Hx as [item [<- Hin]].
      apply Qmult_le_0_compat; [apply (Hnn _ (Hin_values _ Hin)) | now apply Hw]. }
    clearbody B H S. repeat split; apply Qdiv_nonneg; assumption.
Qed.

(** The loop of [_create_expert_contributions] over a dictionary. *)
Lemma contributions_fold (weights : dict Q) (outs : dict ExpertOutput.t) :
  forall acc,
    NoDup (dict_keys acc ++ dict_keys outs) ->
    fold_left
      (fun contributions item =>
         let output := snd item in
         dict_set contributions (fst item)
           (ExpertContribution.mk (fst item) output
              (ExpertAggregator.weights_get weights (fst item))
              (ExpertOutput.probabilities output)
              (ExpertConfidence.confidence_score (ExpertOutput.confidence output))
              (ExpertMetadata.processing_time (ExpertOutput.metadata output))))
      outs acc
    = acc ++ map (fun item =>
                    (fst item,
                     ExpertContribution.mk (fst item) (snd item)
                       (ExpertAggregator.weights_get weights (fst item))
                       (ExpertOutput.probabilities (snd item))
                       (expert_confidence (snd item))
                       (ExpertMetadata.processing_time
                          (ExpertOutput.metadata (snd item)))))
                 outs.
Proof.
  induction outs as [|[name output] outs IH]; intros acc Hnd; simpl.
  - now rewrite app_nil_r.
  - rewrite dict_set_fresh.
    + rewrite IH.
      * now rewrite <- app_assoc.
      * unfold dict_keys in *. rewrite map_app. simpl.
        rewrite <- app_assoc. exact Hnd.
    + intros Hin. apply NoDup_remove_2 in Hnd. apply Hnd.
      apply in_or_app. now left.
Qed.

Lemma confidence_fold (cs : list ExpertContribution.t) :
  forall a b,
    fold_left
      (fun acc contribution =>
         (fst acc + ExpertContribution.confidence contribution
                    * ExpertContribution.weight contribution,
          snd acc + ExpertContribution.weight contribution))
      cs (a, b)
    = (fold_left Qplus
         (map (fun c => ExpertContribution.confidence c * ExpertContribution.weight c)
              cs) a,
       fold_left Qplus (map ExpertContribution.weight cs) b).
Proof.
  induction cs as [|c cs IH]; intros a b; simpl; [reflexivity|]. now rewrite IH.
Qed.

(** The overall confidence is the weighted sum of the experts' confidences,
    with the gating weights, which sum to one. *)
Lemma overall_confidence_weighted np_log (outs : dict ExpertOutput.t) :
  outs <> [] -> NoDup (dict_keys outs) ->
  let weights := ExpertAggregator._calculate_gating_weights np_log outs in
  ExpertAggregator._calculate_overall_confidence
    (ExpertAggregator._create_expert_contributions outs weights)
  == py_sum (map (fun item =>
                    expert_confidence (snd item)
                    * ExpertAggregator.weights_get weights (fst item)) outs).
Proof.
  intros Hne Hnd. cbv zeta.
  unfold ExpertAggregator._create_expert_contributions.
  rewrite contributions_fold by exact Hnd. simpl app.
  destruct outs as [|item outs'] eqn:Eouts; [congruence|].
  rewrite <- Eouts in *. clear Eouts.
  unfold ExpertAggregator._calculate_overall_confidence.
  match goal with
  | |- context [match ?l with [] => 0 | _ :: _ => ?x end] =>
      assert (Hl : l <> []) by (destruct outs; [congruence | discriminate]);
      destruct l eqn:El; [congruence|]; rewrite <- El; clear El Hl
  end.
  rewrite confidence_fold. unfold dict_values. rewrite !map_map.
  cbn [snd ExpertContribution.confidence ExpertContribution.weight].
  change (fold_left Qplus ?l 0) with (py_sum l).
  pose proof (weights_sum_one np_log outs Hne Hnd) as Hone.
  change (fold_left Qplus
            (map (fun x => ExpertAggregator.weights_get
                             (ExpertAggregator._calculate_gating_weights np_log outs)
                             (fst x)) outs) 0)
    with (py_sum (map (fun x => ExpertAggregator.weights_get
                                  (ExpertAggregator._calculate_gating_weights np_log outs)
                                  (fst x)) outs)).
  rewrite (Qltb_lt 0 _) by (rewrite Hone; reflexivity).
  rewrite Hone. unfold Qdiv. change (/ 1) with 1. ring.
Qed.

(** The result of [aggregate_experts] when the aggregation of the collected
    outputs goes through. *)
Lemma aggregate_body_some np_log gen (outs : dict ExpertOutput.t) p :
  outs <> [] ->
  ExpertAggregator._aggregate_probabilities
    outs (ExpertAggregator._calculate_gating_weights np_log outs) = Some p ->
  ExpertAggregator.aggregate_body np_log gen outs
  = Some (AggregationResult.mk
            p
            (ExpertAggregator._create_expert_contributions
               outs (ExpertAggregator._calculate_gating_weights np_log outs))
            "dynamic_gating"
            (ExpertAggregator._calculate_gating_weights np_log outs)
            (ExpertAggregator._calculate_overall_confidence
               (ExpertAggregator._create_expert_contributions
                  outs (ExpertAggregator._calculate_gating_weights np_log outs)))
            (ExpertAggregator._determine_decision p)
            (gen (ExpertAggregator._create_expert_contributions
                    outs (ExpertAggregator._calculate_gating_weights np_log outs))
                 (ExpertAggregator._determine_decision p))).
Proof.
  intros Hne Hp. unfold ExpertAggregator.aggregate_body.
  destruct outs as [|item outs']; [congruence|]. now rewrite Hp.
Qed.

(** A result that is not the fallback was computed from a non-empty
    dictionary of outputs. *)
Lemma aggregate_experts_dynamic np_log gen sentiment technical fundamental chart r :
  ExpertAggregator.aggregate_experts np_log gen sentiment technical fundamental chart
  = Some r ->
  AggregationResult.aggregation_method r = "dynamic_gating"%string ->
  let outs := ExpertAggregator._run_all_experts sentiment technical fundamental chart in
  outs <> []
  /\ exists p,
      ExpertAggregator._aggregate_probabilities
        outs (ExpertAggregator._calculate_gating_weights np_log outs) = Some p
      /\ ExpertAggregator.aggregate_body np_log gen outs = Some r.
Proof.
  intros Hagg Hmethod. cbv zeta.
  unfold ExpertAggregator.aggregate_experts in Hagg.
  revert Hagg.
  generalize (ExpertAggregator._run_all_experts sentiment technical fundamental chart).
  intros outs Hagg.
  destruct (ExpertAggregator.aggregate_body np_log gen outs) as [r'|] eqn:Ebody.
  - inversion Hagg; subst r'.
    unfold ExpertAggregator.aggregate_body in Ebody.
    destruct outs as [|item outs'].
    + rewrite create_fallback_result_value in Ebody. inversion Ebody; subst r.
      discriminate.
    + split; [discriminate|].
      destruct (ExpertAggregator._aggregate_probabilities _ _) as [p|] eqn:Ep;
        [|discriminate].
      exists p. split; reflexivity.
  - rewrite create_fallback_result_value in Hagg. inversion Hagg; subst r.
    discriminate.
Qed.

Lemma dict_keys_map_values {V W} (f : string * V -> W) (d : dict V) :
  dict_keys (map (fun item => (fst item, f item)) d) = dict_keys d.
Proof. unfold dict_keys. rewrite map_map. reflexivity. Qed.

(** X8: when at least one expert returns an output, and the probabilities of
    the outputs passed the constructor's check, [aggregate_experts] does not
    fall back: the method is "dynamic_gating", the final probabilities sum
    to 1 (and are non-negative when those of the experts are), the gating
    weights and the contributions are keyed by exactly the experts that
    returned an output, and the gating weights sum to 1. *)
Theorem aggregate_experts_with_output
        (np_log : Q -> Q)
        (_generate_reasoning : dict ExpertContribution.t -> DecisionType.t -> string)
        (sentiment technical fundamental chart : ExpertRun) :
  let outs := ExpertAggregator._run_all_experts sentiment technical fundamental chart in
  outs <> [] ->
  Forall valid_output (dict_values outs) ->
  exists r,
    ExpertAggregator.aggregate_experts np_log _generate_reasoning
      sentiment technical fundamental chart = Some r
    /\ AggregationResult.aggregation_method r = "dynamic_gating"%string
    /\ probability_mass (AggregationResult.final_probabilities r) == 1
    /\ dict_keys (AggregationResult.gating_weights r) = dict_keys outs
    /\ dict_keys (AggregationResult.expert_contributions r) = dict_keys outs
    /\ py_sum (dict_values (AggregationResult.gating_weights r)) == 1
    /\ ((forall output, In output (dict_values outs) ->
            0 <= DecisionProbabilities.buy_probability (ExpertOutput.probabilities output)
            /\ 0 <= DecisionProbabilities.hold_probability (ExpertOutput.probabilities output)
            /\ 0 <= DecisionProbabilities.sell_probability (ExpertOutput.probabilities output)) ->
        0 <= DecisionProbabilities.buy_probability (AggregationResult.final_probabilities r)
        /\ 0 <= DecisionProbabilities.hold_probability (AggregationResult.final_probabilities r)
        /\ 0 <= DecisionProbabilities.sell_probability (AggregationResult.final_probabilities r)).
Proof.
  cbv zeta. intros Hne Hvalid.
  pose proof (run_all_experts_keys sentiment technical fundamental chart) as Hnd.
  set (outs := ExpertAggregator._run_all_experts sentiment technical fundamental chart)
    in *.
  destruct (aggregate_probabilities_some np_log outs Hne Hnd Hvalid)
    as [p [Hp [Hmass Hnn]]].
  unfold ExpertAggregator.aggregate_experts. fold outs.
  rewrite (aggregate_body_some np_log _generate_reasoning outs p Hne Hp).
  eexists. split; [reflexivity|].
  cbn [AggregationResult.aggregation_method AggregationResult.final_probabilities
       AggregationResult.gating_weights AggregationResult.expert_contributions].
  split; [reflexivity|]. split; [exact Hmass|].
  rewrite (calculate_gating_weights_eq np_log outs Hne Hnd).
  split; [apply dict_keys_map_values|]. split.
  - unfold ExpertAggregator._create_expert_contributions.
    rewrite contributions_fold by exact Hnd. simpl app.
    apply dict_keys_map_values.
  - split; [|exact Hnn].
    unfold dict_values. rewrite map_map. simpl.
    rewrite (py_sum_map_div (fun item => ExpertAggregator.raw_weight np_log (snd item))).
    pose proof (raw_total_pos np_log outs Hne) as Htot.
    unfold dict_values in Htot. rewrite map_map in Htot.
    rewrite (map_map snd (ExpertAggregator.raw_weight np_log)).
    unfold Qdiv. apply Qmult_inv_r. intros H0. rewrite H0 in Htot.
    now apply Qlt_irrefl in Htot.
Qed.

Lemma aggregate_experts_with_output_witness :
  exists r,
    ExpertAggregator.aggregate_experts Samples.log_stub (fun _ _ => EmptyString)
      (Returned (Some Samples.sentiment_output)) (Returned None) Raised
      (Returned (Some Samples.technical_output)) = Some r
    /\ AggregationResult.aggregation_method r = "dynamic_gating"%string
    /\ probability_mass (AggregationResult.final_probabilities r) == 1.
Proof.
  destruct (aggregate_experts_with_output Samples.log_stub (fun _ _ => EmptyString)
              (Returned (Some Samples.sentiment_output)) (Returned None) Raised
              (Returned (Some Samples.technical_output)))
    as [r [Hr [Hm [Hmass _]]]].
  - discriminate.
  - repeat constructor.
  - exists r. now repeat split.
Defined.

(** X9: the overall confidence of a result that is not the fallback is the
    gating-weighted average of the confidences of the experts that returned
    an output; it lies between the smallest and the largest of them. *)
Theorem overall_confidence_is_an_average
        (np_log : Q -> Q)
        (_generate_reasoning : dict ExpertContribution.t -> DecisionType.t -> string)
        (sentiment technical fundamental chart : ExpertRun)
        (r : AggregationResult.t) (lo hi : Q) :
  ExpertAggregator.aggregate_experts np_log _generate_reasoning
    sentiment technical fundamental chart = Some r ->
  AggregationResult.aggregation_method r = "dynamic_gating"%string ->
  let outs := ExpertAggregator._run_all_experts sentiment technical fundamental chart in
  Forall (fun output => lo <= expert_confidence output <= hi) (dict_values outs) ->
  AggregationResult.overall_confidence r
  == py_sum (map (fun item =>
                    expert_confidence (snd item)
                    * ExpertAggregator.weights_get
                        (AggregationResult.gating_weights r) (fst item)) outs)
  /\ lo <= AggregationResult.overall_confidence r <= hi.
Proof.
  intros Hagg Hmethod. cbv zeta. intros Hbounds.
  destruct (aggregate_experts_dynamic _ _ _ _ _ _ _ Hagg Hmethod)
    as [Hne [p [Hp Hbody]]].
  pose proof (run_all_experts_keys sentiment technical fundamental chart) as Hnd.
  set (outs := ExpertAggregator._run_all_experts sentiment technical fundamental chart)
    in *.
  rewrite (aggregate_body_some np_log _generate_reasoning outs p Hne Hp) in Hbody.
  inversion Hbody; subst r. clear Hbody.
  cbn [AggregationResult.overall_confidence AggregationResult.gating_weights].
  pose proof (overall_confidence_weighted np_log outs Hne Hnd) as Hov.
  cbv zeta in Hov. split; [exact Hov|]. rewrite Hov.
  apply (weighted_sum_bounds np_log outs Hne Hnd expert_confidence lo hi Hbounds).
Qed.

Lemma overall_confidence_is_an_average_witness :
  exists r,
    ExpertAggregator.aggregate_experts Samples.log_stub (fun _ _ => EmptyString)
      (Returned (Some Samples.sentiment_output)) (Returned None) Raised
      (Returned (Some Samples.technical_output)) = Some r
    /\ 0.8 <= AggregationResult.overall_confidence r <= 0.8.
Proof.
  destruct (ExpertAggregator.aggregate_experts Samples.log_stub
              (fun _ _ => EmptyString)
              (Returned (Some Samples.sentiment_output)) (Returned None) Raised
              (Returned (Some Samples.technical_output))) as [r|] eqn:Hagg.
  - exists r. split; [reflexivity|].
    apply (overall_confidence_is_an_average _ _ _ _ _ _ r 0.8 0.8 Hagg).
    + vm_compute in Hagg. inversion Hagg. reflexivity.
    + repeat constructor; qdecide.
  - vm_compute in Hagg. discriminate.
Defined.




(* ------------------------------------------------------------------------- *)
(** ** Returns and drawdowns of a portfolio history *)

Lemma last_map {A B : Type} (f : A -> B) (l : list A) (d : A) :
  last (map f l) (f d) = f (last l d).
Proof.
  induction l as [|a l IH]; [reflexivity|].
  destruct l as [|b l]; [reflexivity|].
  change (last (map f (a :: b :: l)) (f d)) with (last (map f (b :: l)) (f d)).
  exact IH.
Qed.

Lemma Qle_bool_gt (x y : Q) : y < x -> Qle_bool x y = false.
Proof.
  intros H. destruct (Qle_bool x y) eqn:E; [|reflexivity].
  apply Qle_bool_iff in E. lra.
Qed.

Lemma daily_returns_loop_spec (rest : list PortfolioState.t) :
  forall prev_value,
    0 < prev_value -> positive_values rest ->
    let returns := ReturnMetrics.daily_returns_loop prev_value rest in
    List.length returns = List.length rest
    /\ Forall (fun r => - (1) < r) returns
    /\ compound returns * prev_value
       == PortfolioState.total_value
            (last rest (MetricSamples.snapshot prev_value 0 0)).
Proof.
  induction rest as [|state rest IH]; intros prev Hprev Hpos; cbv zeta.
  - cbn. repeat split; [constructor | ring].
  - inversion Hpos as [|? ? Hs Hrest]; subst.
    destruct (IH _ Hs Hrest) as [Hlen [Hall Hprod]].
    cbn [ReturnMetrics.daily_returns_loop].
    rewrite (Qle_bool_gt prev 0) by exact Hprev.
    set (curr := PortfolioState.total_value state) in *.
    assert (Hne : ~ prev == 0) by (intros H0; rewrite H0 in Hprev; now apply Qlt_irrefl in Hprev).
    split; [cbn [List.length]; now rewrite Hlen|]. split.
    + constructor; [|exact Hall].
      apply Qlt_minus_iff.
      setoid_replace ((curr - prev) / prev + - - (1)) with (curr / prev)
        by (field; exact Hne).
      apply Qlt_shift_div_l; [exact Hprev | lra].
    + cbn [compound fold_right]. fold (compound (ReturnMetrics.daily_returns_loop curr rest)).
      assert (Hlast : PortfolioState.total_value
                        (last (state :: rest) (MetricSamples.snapshot prev 0 0))
                      = PortfolioState.total_value
                          (last rest (MetricSamples.snapshot curr 0 0))).
      { destruct rest as [|b rest']; [reflexivity|].
        rewrite last_cons. clear. revert b.
        induction rest' as [|c rest' IH']; intros b; [reflexivity|].
        rewrite !(last_cons (c :: rest')). destruct rest'; reflexivity. }
      rewrite Hlast, <- Hprod.
      set (C := compound (ReturnMetrics.daily_returns_loop curr rest)).
      clearbody C. field. exact Hne.
Qed.

(** X11: on a history whose total values are all positive,
    [_calculate_daily_returns] yields one return per day after the first, each
    return is above -1, and the returns compound to the total return: the
    product of the factors [1 + r] equals
    [1 + _calculate_total_return(history)]. *)
Theorem daily_returns_compound_to_total_return
        (portfolio_history : list PortfolioState.t) :
  positive_values portfolio_history ->
  let returns := ReturnMetrics._calculate_daily_returns portfolio_history in
  List.length returns = Nat.pred (List.length portfolio_history)
  /\ Forall (fun r => - (1) < r) returns
  /\ compound returns
     == 1 + ReturnMetrics._calculate_total_return portfolio_history.
Proof.
  intros Hpos. cbv zeta.
  unfold ReturnMetrics._calculate_daily_returns,
    ReturnMetrics._calculate_total_return, ReturnMetrics.len.
  destruct portfolio_history as [|first rest].
  { cbn. split; [reflexivity|]. split; [constructor | reflexivity]. }
  destruct rest as [|second rest].
  { cbn. split; [reflexivity|]. split; [constructor | reflexivity]. }
  destruct (Z.ltb_spec (Z.of_nat (List.length (first :: second :: rest))) 2)
    as [Hlt|_]; [cbn [List.length] in Hlt; lia|].
  inversion Hpos as [|? ? Hfirst Hrest]; subst.
  destruct (daily_returns_loop_spec (second :: rest) _ Hfirst Hrest)
    as [Hlen [Hall Hprod]].
  split; [exact Hlen|]. split; [exact Hall|].
  rewrite (Qltb_lt 0 (PortfolioState.total_value first)) by exact Hfirst.
  rewrite (last_cons (second :: rest)).
  assert (Hlast : PortfolioState.total_value
                    (last (second :: rest)
                          (MetricSamples.snapshot
                             (PortfolioState.total_value first) 0 0))
                  = PortfolioState.total_value (last (second :: rest) first)).
  { clear. generalize (MetricSamples.snapshot (PortfolioState.total_value first) 0 0).
    intros d. revert second.
    induction rest as [|c rest IH]; intros b; [reflexivity|].
    rewrite !(last_cons (c :: rest)). destruct rest; reflexivity. }
  rewrite Hlast in Hprod.
  set (C := compound _) in *. set (F := PortfolioState.total_value (last _ _)) in *.
  set (I := PortfolioState.total_value first) in *.
  assert (Hne : ~ I == 0) by (intros H0; rewrite H0 in Hfirst; now apply Qlt_irrefl in Hfirst).
  clearbody C F I.
  setoid_replace (1 + (F - I) / I) with (F / I) by (field; exact Hne).
  rewrite <- Hprod. field. exact Hne.
Qed.

Lemma daily_returns_compound_to_total_return_witness :
  compound (ReturnMetrics._calculate_daily_returns MetricSamples.history)
  == 1 + ReturnMetrics._calculate_total_return MetricSamples.history.
Proof.
  apply (daily_returns_compound_to_total_return MetricSamples.history).
  repeat constructor.
Defined.

(** X12: the cumulative returns of a history have one entry per snapshot,
    start at 0 and end at the total return of the history. *)
Theorem cumulative_returns_end_at_total_return
        (portfolio_history : list PortfolioState.t) :
  let cumulative := ReturnMetrics._calculate_cumulative_returns portfolio_history in
  List.length cumulative = List.length portfolio_history
  /\ nth 0 cumulative 0 == 0
  /\ last cumulative 0
     == ReturnMetrics._calculate_total_return portfolio_history.
Proof.
  cbv zeta.
  unfold ReturnMetrics._calculate_cumulative_returns,
    ReturnMetrics._calculate_total_return, ReturnMetrics.len.
  destruct portfolio_history as [|first rest].
  { cbn. split; [reflexivity|]. split; reflexivity. }
  set (initial := PortfolioState.total_value first).
  set (f := fun state : PortfolioState.t =>
              if Qltb 0 initial
              then (PortfolioState.total_value state - initial) / initial
              else 0).
  assert (Hf : f first == 0).
  { unfold f. destruct (Qltb 0 initial) eqn:E; [|reflexivity].
    apply Qltb_true in E. fold initial. field.
    intros H0. rewrite H0 in E. now apply Qlt_irrefl in E. }
  split; [apply length_map|]. split; [exact Hf|].
  destruct rest as [|second rest].
  { cbn [map last List.length]. exact Hf. }
  destruct (Z.ltb_spec (Z.of_nat (List.length (first :: second :: rest))) 2)
    as [Hlt|_]; [cbn [List.length] in Hlt; lia|].
  assert (Hd : last (map f (first :: second :: rest)) 0
               = last (map f (first :: second :: rest)) (f first)).
  { cbn [map]. rewrite (last_cons _ (f first) 0), (last_cons _ (f first) (f first)).
    reflexivity. }
  rewrite Hd, last_map. reflexivity.
Qed.

Lemma drawdown_bounds (peak value : Q) :
  0 < peak -> 0 < value -> value <= peak ->
  0 <= (peak - value) / peak /\ (peak - value) / peak < 1.
Proof.
  intros Hp Hv Hle. split.
  - apply Qle_shift_div_l; [exact Hp | lra].
  - apply Qlt_shift_div_r; [exact Hp | lra].
Qed.

Lemma Qeq_bool_pos (x : Q) : 0 < x -> Qeq_bool x 0 = false.
Proof.
  intros H. destruct (Qeq_bool x 0) eqn:E; [|reflexivity].
  apply Qeq_bool_iff in E. rewrite E in H. now apply Qlt_irrefl in H.
Qed.

Lemma rolling_drawdowns_loop_spec (states : list PortfolioState.t) :
  forall peak,
    0 < peak -> positive_values states ->
    exists drawdowns,
      ReturnMetrics.rolling_drawdowns_loop states peak = Some drawdowns
      /\ List.length drawdowns = List.length states
      /\ Forall (fun d => 0 <= d /\ d < 1) drawdowns.
Proof.
  induction states as [|state rest IH]; intros peak Hp Hpos.
  - exists []. repeat split; constructor.
  - inversion Hpos as [|? ? Hs Hrest]; subst.
    cbn [ReturnMetrics.rolling_drawdowns_loop].
    destruct (Qltb peak (PortfolioState.total_value state)) eqn:E.
    + destruct (IH _ Hs Hrest) as [ds [-> [Hlen Hall]]].
      exists (0 :: ds). split; [reflexivity|].
      split; [cbn [List.length]; now rewrite Hlen|].
      constructor; [split; [apply Qle_refl | reflexivity] | exact Hall].
    + rewrite (Qeq_bool_pos peak Hp).
      destruct (IH _ Hp Hrest) as [ds [-> [Hlen Hall]]].
      eexists. split; [reflexivity|].
      split; [cbn [List.length]; now rewrite Hlen|].
      constructor; [|exact Hall].
      apply drawdown_bounds; [exact Hp | exact Hs | now apply Qltb_false].
Qed.

Lemma max_drawdown_loop_spec (states : list PortfolioState.t) :
  forall i peak max_drawdown start duration drawdowns,
    0 < peak -> positive_values states -> 0 <= max_drawdown ->
    (0 <= start <= i)%Z -> (0 <= duration)%Z ->
    ReturnMetrics.rolling_drawdowns_loop states peak = Some drawdowns ->
    exists worst duration',
      ReturnMetrics.max_drawdown_loop states i peak max_drawdown start duration
      = Some (worst, duration')
      /\ (worst = max_drawdown \/ In worst drawdowns)
      /\ max_drawdown <= worst
      /\ Forall (fun d => d <= worst) drawdowns
      /\ (0 <= duration'
          <= Z.max duration (i + Z.of_nat (List.length states) - 1))%Z.
Proof.
  induction states as [|state rest IH];
    intros i peak md start dur ds Hp Hpos Hmd Hstart Hdur Hroll.
  - injection Hroll as <-. exists md, dur. cbn.
    split; [reflexivity|]. split; [now left|]. split; [apply Qle_refl|].
    split; [constructor | lia].
  - inversion Hpos as [|? ? Hs Hrest]; subst.
    cbn [ReturnMetrics.rolling_drawdowns_loop] in Hroll.
    cbn [ReturnMetrics.max_drawdown_loop].
    assert (Hlen : (i + 1 + Z.of_nat (List.length rest) - 1
                    = i + Z.of_nat (List.length (state :: rest)) - 1)%Z)
      by (cbn [List.length]; lia).
    destruct (Qltb peak (PortfolioState.total_value state)) eqn:E.
    + destruct (ReturnMetrics.rolling_drawdowns_loop rest _) as [ds'|] eqn:Er;
        [|discriminate].
      injection Hroll as <-.
      destruct (IH (i + 1)%Z _ md i dur ds' Hs Hrest Hmd ltac:(lia) Hdur Er)
        as [worst [dur' [-> [Hin [Hle [Hall Hd]]]]]].
      exists worst, dur'. split; [reflexivity|].
      split; [destruct Hin; [now left | right; now right]|].
      split; [exact Hle|]. split; [|lia].
      constructor; [lra | exact Hall].
    + rewrite (Qeq_bool_pos peak Hp) in *.
      destruct (ReturnMetrics.rolling_drawdowns_loop rest _) as [ds'|] eqn:Er;
        [|discriminate].
      injection Hroll as <-.
      set (d := (peak - PortfolioState.total_value state) / peak) in *.
      destruct (Qltb md d) eqn:Ed.
      * apply Qltb_true in Ed.
        destruct (IH (i + 1)%Z _ d start (i - start)%Z ds' Hp Hrest
                     ltac:(lra) ltac:(lia) ltac:(lia) Er)
          as [worst [dur' [-> [Hin [Hle [Hall Hd]]]]]].
        exists worst, dur'. split; [reflexivity|].
        split; [destruct Hin as [->|Hin]; right; [now left | now right]|].
        split; [lra|]. split; [constructor; assumption | lia].
      * destruct (IH (i + 1)%Z _ md start dur ds' Hp Hrest Hmd
                     ltac:(lia) Hdur Er)
          as [worst [dur' [-> [Hin [Hle [Hall Hd]]]]]].
        apply Qltb_false in Ed.
        exists worst, dur'. split; [reflexivity|].
        split; [destruct Hin; [now left | right; now right]|].
        split; [exact Hle|]. split; [constructor; [lra | assumption] | lia].
Qed.

(** X13: on a history whose total values are all positive both drawdown
    functions return.  [_calculate_rolling_drawdowns] gives one drawdown per
    snapshot, each in [0, 1); the maximum drawdown of
    [_calculate_max_drawdown] is the largest of them (or the initial 0.0), so
    it is in [0, 1) too, and its duration is between 0 and the number of
    snapshots less one. *)
Theorem max_drawdown_is_worst_rolling_drawdown
        (portfolio_history : list PortfolioState.t) :
  positive_values portfolio_history ->
  exists drawdowns worst duration,
    ReturnMetrics._calculate_rolling_drawdowns portfolio_history = Some drawdowns
    /\ ReturnMetrics._calculate_max_drawdown portfolio_history
       = Some (worst, duration)
    /\ List.length drawdowns = List.length portfolio_history
    /\ Forall (fun d => 0 <= d /\ d < 1) drawdowns
    /\ Forall (fun d => d <= worst) drawdowns
    /\ (worst = 0 \/ In worst drawdowns)
    /\ (0 <= worst /\ worst < 1)
    /\ (0 <= duration <= Z.max 0 (ReturnMetrics.len portfolio_history - 1))%Z.
Proof.
  intros Hpos.
  unfold ReturnMetrics._calculate_rolling_drawdowns,
    ReturnMetrics._calculate_max_drawdown, ReturnMetrics.len.
  destruct portfolio_history as [|first rest].
  { exists [], 0, 0%Z.
    split; [reflexivity|]. split; [reflexivity|]. split; [reflexivity|].
    split; [constructor|]. split; [constructor|]. split; [now left|].
    split; [split; [apply Qle_refl | reflexivity]|].
    cbn [List.length]. lia. }
  inversion Hpos as [|? ? Hfirst Hrest]; subst.
  destruct (rolling_drawdowns_loop_spec (first :: rest) _ Hfirst Hpos)
    as [ds [Hroll [Hlen Hb]]].
  rewrite Hroll. exists ds.
  destruct (Z.ltb_spec (Z.of_nat (List.length (first :: rest))) 2) as [Hlt|Hge].
  - destruct rest as [|second rest]; [|cbn [List.length] in Hlt; lia].
    exists 0, 0%Z.
    cbn [ReturnMetrics.rolling_drawdowns_loop] in Hroll.
    rewrite (Qltb_ge _ _ (Qle_refl _)), (Qeq_bool_pos _ Hfirst) in Hroll.
    injection Hroll as <-.
    split; [reflexivity|]. split; [reflexivity|]. split; [reflexivity|].
    split; [exact Hb|].
    split.
    { constructor; [|constructor].
      set (v := PortfolioState.total_value first) in *.
      assert (H0 : (v - v) / v == 0)
        by (field; intros H0; rewrite H0 in Hfirst; now apply Qlt_irrefl in Hfirst).
      rewrite H0. apply Qle_refl. }
    split; [now left|]. split; [split; [apply Qle_refl | reflexivity]|].
    cbn [List.length]. lia.
  - destruct (max_drawdown_loop_spec (first :: rest) 0 _ 0 0 0 ds Hfirst Hpos
                (Qle_refl 0) ltac:(lia) ltac:(lia) Hroll)
      as [worst [dur [Hmax [Hin [Hle [Hall Hd]]]]]].
    exists worst, dur.
    split; [reflexivity|]. split; [exact Hmax|]. split; [exact Hlen|].
    split; [exact Hb|]. split; [exact Hall|]. split; [exact Hin|].
    split; [|lia].
    destruct Hin as [->|Hin]; [split; [apply Qle_refl | reflexivity]|].
    rewrite Forall_forall in Hb. exact (Hb _ Hin).
Qed.

Lemma max_drawdown_is_worst_rolling_drawdown_witness :
  exists drawdowns worst duration,
    ReturnMetrics._calculate_rolling_drawdowns MetricSamples.history
    = Some drawdowns
    /\ ReturnMetrics._calculate_max_drawdown MetricSamples.history
       = Some (worst, duration)
    /\ List.length drawdowns = 3%nat
    /\ Forall (fun d => 0 <= d /\ d < 1) drawdowns
    /\ Forall (fun d => d <= worst) drawdowns
    /\ (worst = 0 \/ In worst drawdowns)
    /\ (0 <= worst /\ worst < 1)
    /\ (0 <= duration <= 2)%Z.
Proof.
  apply (max_drawdown_is_worst_rolling_drawdown MetricSamples.history).
  repeat constructor.
Defined.

Lemma never_falls_Qeq (values : list Q) :
  forall v w, v == w -> never_falls v values <-> never_falls w values.
Proof.
  destruct values as [|x values]; intros v w Heq; [tauto|].
  cbn [never_falls]. rewrite Heq. tauto.
Qed.

Lemma max_drawdown_loop_flat (states : list PortfolioState.t) :
  forall i peak start,
    0 < peak -> positive_values states -> (0 <= start <= i)%Z ->
    ReturnMetrics.max_drawdown_loop states i peak 0 start 0 = Some (0, 0%Z)
    <-> never_falls peak (map PortfolioState.total_value states).
Proof.
  induction states as [|state rest IH]; intros i peak start Hp Hpos Hstart.
  - cbn. tauto.
  - inversion Hpos as [|? ? Hs Hrest]; subst.
    cbn [ReturnMetrics.max_drawdown_loop map never_falls].
    set (v := PortfolioState.total_value state) in *.
    destruct (Qltb peak v) eqn:E.
    + apply Qltb_true in E.
      rewrite (IH (i + 1)%Z v i Hs Hrest ltac:(lia)).
      split; [intros H; split; [lra | exact H] | tauto].
    + apply Qltb_false in E. rewrite (Qeq_bool_pos peak Hp).
      destruct (drawdown_bounds peak v Hp Hs E) as [Hd0 Hd1].
      destruct (Qltb 0 ((peak - v) / peak)) eqn:Ed.
      * apply Qltb_true in Ed.
        assert (Hlt : v < peak).
        { apply Qnot_le_lt. intros Hle.
          assert (Heq : peak == v) by lra.
          assert (H0 : (peak - v) / peak == 0).
          { rewrite Heq. field. intros H0. rewrite H0 in Hs.
            now apply Qlt_irrefl in Hs. }
          rewrite H0 in Ed. now apply Qlt_irrefl in Ed. }
        split; [|intros [Hle _]; lra].
        intros Hloop. exfalso.
        destruct (rolling_drawdowns_loop_spec rest peak Hp Hrest)
          as [ds [Hroll _]].
        destruct (max_drawdown_loop_spec rest (i + 1)%Z peak _ start
                    (i - start)%Z ds Hp Hrest Hd0 ltac:(lia) ltac:(lia) Hroll)
          as [worst [dur [Hmax [_ [Hle _]]]]].
        rewrite Hmax in Hloop. injection Hloop as Hw _. subst worst.
        lra.
      * apply Qltb_false in Ed.
        assert (Heq : peak == v).
        { apply Qle_antisym; [|exact E].
          apply Qnot_lt_le. intros Hlt.
          assert (0 < (peak - v) / peak)
            by (apply Qlt_shift_div_l; [exact Hp | lra]).
          lra. }
        rewrite (IH (i + 1)%Z peak start Hp Hrest ltac:(lia)).
        rewrite (never_falls_Qeq _ peak v Heq).
        split; [intros H; split; [lra | exact H] | tauto].
Qed.

(** X14: on a history whose total values are all positive the maximum
    drawdown is 0.0 with duration 0 exactly when the value never falls from
    one snapshot to the next; the Calmar ratio is then 0 whatever the
    annualized return. *)
Theorem no_drawdown_iff_value_never_falls
        (portfolio_history : list PortfolioState.t) (annualized_return : Q) :
  positive_values portfolio_history ->
  (ReturnMetrics._calculate_max_drawdown portfolio_history = Some (0, 0%Z)
   <-> nondecreasing portfolio_history)
  /\ (nondecreasing portfolio_history ->
      option_map (fun result =>
                    ReturnMetrics._calculate_calmar_ratio annualized_return
                                                          (fst result))
                 (ReturnMetrics._calculate_max_drawdown portfolio_history)
      = Some 0).
Proof.
  intros Hpos.
  assert (Hiff : ReturnMetrics._calculate_max_drawdown portfolio_history
                 = Some (0, 0%Z) <-> nondecreasing portfolio_history).
  { unfold ReturnMetrics._calculate_max_drawdown, nondecreasing,
      ReturnMetrics.len.
    destruct portfolio_history as [|first rest]; [cbn; tauto|].
    inversion Hpos as [|? ? Hfirst Hrest]; subst.
    destruct (Z.ltb_spec (Z.of_nat (List.length (first :: rest))) 2) as [Hlt|Hge].
    - destruct rest as [|second rest]; [cbn; tauto|].
      cbn [List.length] in Hlt. lia.
    - rewrite (max_drawdown_loop_flat (first :: rest) 0 _ 0 Hfirst Hpos
                                      ltac:(lia)).
      cbn [map never_falls]. split; [tauto|].
      intros H. split; [apply Qle_refl | exact H]. }
  split; [exact Hiff|].
  intros Hnd. apply Hiff in Hnd. rewrite Hnd. reflexivity.
Qed.

Lemma no_drawdown_iff_value_never_falls_witness :
  positive_values MetricSamples.rising
  /\ ReturnMetrics._calculate_max_drawdown MetricSamples.rising
     = Some (0, 0%Z).
Proof.
  assert (Hpos : positive_values MetricSamples.rising) by repeat constructor.
  split; [exact Hpos|].
  apply (proj1 (no_drawdown_iff_value_never_falls MetricSamples.rising 0 Hpos)).
  cbn. split; [discriminate | split; [discriminate | exact I]].
Defined.

(* ------------------------------------------------------------------------- *)
(** ** Trading metrics of a trade log *)

Lemma trade_returns_of_defined (trades : list TradeRecord.t) :
  Forall (fun t =>
            ~ PortfolioState.total_value (TradeRecord.portfolio_state_before t)
              == 0) trades ->
  exists returns,
    MetricsCalculator.trade_returns_of trades = Some returns
    /\ List.length returns = List.length trades.
Proof.
  induction 1 as [|t trades Ht _ [rs [IH Hlen]]].
  - exists []. split; reflexivity.
  - cbn [MetricsCalculator.trade_returns_of].
    unfold MetricsCalculator.trade_return.
    destruct (Qeq_bool _ 0) eqn:E; [apply Qeq_bool_iff in E; contradiction|].
    rewrite IH. eexists. split; [reflexivity|].
    cbn [List.length]. now rewrite Hlen.
Qed.

Lemma py_max_list_spec (xs : list Q) :
  forall x,
    let best := MetricsCalculator.py_max_list x xs in
    In best (x :: xs) /\ x <= best /\ Forall (fun y => y <= best) xs.
Proof.
  induction xs as [|y xs IH]; intros x; cbv zeta.
  - cbn. split; [now left|]. split; [apply Qle_refl | constructor].
  - cbn [MetricsCalculator.py_max_list].
    destruct (IH (py_max x y)) as [Hin [Hle Hall]].
    assert (Hx : x <= py_max x y) by apply py_max_lower.
    assert (Hy : y <= py_max x y) by (unfold py_max; qcases; lra).
    split; [|split; [lra | constructor; [lra | exact Hall]]].
    destruct Hin as [Hin|Hin]; [|right; now right].
    rewrite <- Hin. unfold py_max.
    destruct (Qltb x y); [right; now left | now left].
Qed.

Lemma py_min_list_spec (xs : list Q) :
  forall x,
    let worst := MetricsCalculator.py_min_list x xs in
    In worst (x :: xs) /\ worst <= x /\ Forall (fun y => worst <= y) xs.
Proof.
  induction xs as [|y xs IH]; intros x; cbv zeta.
  - cbn. split; [now left|]. split; [apply Qle_refl | constructor].
  - cbn [MetricsCalculator.py_min_list].
    destruct (IH (MetricsCalculator.py_min x y)) as [Hin [Hle Hall]].
    assert (Hx : MetricsCalculator.py_min x y <= x)
      by (unfold MetricsCalculator.py_min; qcases; lra).
    assert (Hy : MetricsCalculator.py_min x y <= y)
      by (unfold MetricsCalculator.py_min; qcases; lra).
    split; [|split; [lra | constructor; [lra | exact Hall]]].
    destruct Hin as [Hin|Hin]; [|right; now right].
    rewrite <- Hin. unfold MetricsCalculator.py_min.
    destruct (Qltb y x); [right; now left | now left].
Qed.

Lemma py_sum_between (lo hi : Q) (xs : list Q) :
  Forall (fun x => lo <= x /\ x <= hi) xs ->
  MetricsCalculator.len xs * lo <= py_sum xs
  /\ py_sum xs <= MetricsCalculator.len xs * hi.
Proof.
  unfold MetricsCalculator.len.
  induction 1 as [|x xs [Hlo Hhi] _ [IHlo IHhi]].
  - cbn [List.length Z.of_nat]. change (inject_Z 0) with 0.
    rewrite py_sum_nil_zero. split; lra.
  - rewrite py_sum_cons. cbn [List.length].
    rewrite Nat2Z.inj_succ, <- Z.add_1_r, inject_Z_plus.
    change (inject_Z 1) with 1.
    set (n := inject_Z (Z.of_nat (List.length xs))) in *. clearbody n.
    split; lra.
Qed.

Lemma np_mean_between (lo hi : Q) (xs : list Q) :
  xs <> [] ->
  Forall (fun x => lo <= x /\ x <= hi) xs ->
  lo <= np_mean xs /\ np_mean xs <= hi.
Proof.
  intros Hne Hall. destruct (py_sum_between lo hi xs Hall) as [Hlo Hhi].
  unfold np_mean. fold (MetricsCalculator.len xs).
  assert (Hn : 0 < MetricsCalculator.len xs).
  { unfold MetricsCalculator.len. destruct xs as [|x xs]; [contradiction|].
    apply inject_Z_pos. cbn [List.length]. lia. }
  split.
  - apply Qle_shift_div_l; [exact Hn | lra].
  - apply Qle_shift_div_r; [exact Hn | lra].
Qed.

Lemma len_filter_le (f : Q -> bool) (xs : list Q) :
  0 <= MetricsCalculator.len (filter f xs)
  /\ MetricsCalculator.len (filter f xs) <= MetricsCalculator.len xs.
Proof.
  unfold MetricsCalculator.len. split.
  - change 0 with (inject_Z 0). rewrite <- Zle_Qle. lia.
  - rewrite <- Zle_Qle. apply inj_le, filter_length_le.
Qed.

Lemma py_sum_negative (xs : list Q) :
  xs <> [] -> Forall (fun x => x < 0) xs -> py_sum xs < 0.
Proof.
  intros Hne Hall. induction Hall as [|x xs Hx Hall IH]; [contradiction|].
  rewrite py_sum_cons. destruct xs as [|y xs].
  - rewrite py_sum_nil_zero. lra.
  - assert (py_sum (y :: xs) < 0) by (apply IH; discriminate). lra.
Qed.

Lemma losing_nil_iff (returns : list Q) :
  MetricsCalculator.losing returns = [] <-> Forall (fun r => 0 <= r) returns.
Proof.
  unfold MetricsCalculator.losing.
  induction returns as [|r rs IH]; [cbn; split; [constructor | reflexivity]|].
  cbn [filter]. destruct (Qltb r 0) eqn:E.
  - apply Qltb_true in E. split; [discriminate|].
    intros H. inversion H; subst. lra.
  - apply Qltb_false in E. rewrite IH. split.
    + intros H. now constructor.
    + intros H. now inversion H.
Qed.

(** X15: when the log has at least one BUY or SELL record and each of them
    was made at a non-zero portfolio value, [_calculate_trading_metrics]
    returns; its figures are computed from the returns of the BUY and SELL
    records only (HOLD records are ignored): the win rate is in [0, 1], the
    best and the worst trade are returns of the list, the average trade
    return lies between them, and the profit factor is the infinity sentinel
    exactly when no trade has a negative return. *)
Theorem trading_metrics_bounds (trade_log : list TradeRecord.t) :
  returns_defined trade_log ->
  filter MetricsCalculator.is_trade trade_log <> [] ->
  exists returns win_rate profit_factor avg_trade_return best_trade worst_trade,
    MetricsCalculator.trade_returns_of
      (filter MetricsCalculator.is_trade trade_log) = Some returns
    /\ MetricsCalculator._calculate_trading_metrics trade_log
       = Some (win_rate, profit_factor, avg_trade_return, best_trade,
               worst_trade)
    /\ (0 <= win_rate /\ win_rate <= 1)
    /\ In best_trade returns
    /\ In worst_trade returns
    /\ (worst_trade <= avg_trade_return /\ avg_trade_return <= best_trade)
    /\ Forall (fun r => worst_trade <= r /\ r <= best_trade) returns
    /\ (profit_factor = Inf <-> Forall (fun r => 0 <= r) returns).
Proof.
  intros Hdef Hne.
  assert (Hall : Forall (fun t =>
            ~ PortfolioState.total_value (TradeRecord.portfolio_state_before t)
              == 0) (filter MetricsCalculator.is_trade trade_log)).
  { apply Forall_forall. intros t Ht. apply filter_In in Ht.
    destruct Ht as [Hin Htrade].
    unfold returns_defined in Hdef. rewrite Forall_forall in Hdef.
    now apply Hdef. }
  destruct (trade_returns_of_defined _ Hall) as [returns [Hret Hlen]].
  unfold MetricsCalculator._calculate_trading_metrics.
  destruct (filter MetricsCalculator.is_trade trade_log) as [|t trades] eqn:Ef;
    [contradiction|].
  rewrite Hret.
  destruct returns as [|r rs]; [discriminate|].
  exists (r :: rs). do 5 eexists.
  split; [reflexivity|]. split; [reflexivity|].
  destruct (py_max_list_spec rs r) as [Hbin [Hb Hball]].
  destruct (py_min_list_spec rs r) as [Hwin [Hw Hwall]].
  assert (Hbetween : Forall (fun x => MetricsCalculator.py_min_list r rs <= x
                                      /\ x <= MetricsCalculator.py_max_list r rs)
                            (r :: rs)).
  { constructor; [split; assumption|].
    rewrite Forall_forall in *. intros x Hx. split; [apply Hwall | apply Hball];
      exact Hx. }
  split.
  { destruct (len_filter_le (fun r0 => Qltb 0 r0) (r :: rs)) as [H0 H1].
    fold (MetricsCalculator.winning (r :: rs)) in H0, H1.
    assert (Hn : 0 < MetricsCalculator.len (r :: rs)).
    { unfold MetricsCalculator.len. apply inject_Z_pos. cbn [List.length]. lia. }
    split.
    - apply Qle_shift_div_l; [exact Hn | lra].
    - apply Qle_shift_div_r; [exact Hn | lra]. }
  split; [exact Hbin|]. split; [exact Hwin|].
  split; [apply np_mean_between; [discriminate | exact Hbetween]|].
  split; [exact Hbetween|].
  rewrite <- losing_nil_iff.
  rewrite abs_sum_or_zero_eq.
  destruct (MetricsCalculator.losing (r :: rs)) as [|l ls] eqn:El.
  - cbn. split; reflexivity.
  - assert (Hneg : py_sum (l :: ls) < 0).
    { apply py_sum_negative; [discriminate|].
      rewrite <- El. unfold MetricsCalculator.losing.
      apply Forall_forall. intros x Hx. apply filter_In in Hx.
      now apply Qltb_true. }
    assert (Hpos : 0 < Qabs (py_sum (l :: ls))).
    { rewrite Qabs_neg by lra. lra. }
    rewrite (Qltb_lt _ _ Hpos). split; discriminate.
Qed.

Lemma trading_metrics_bounds_witness :
  exists returns win_rate profit_factor avg_trade_return best_trade worst_trade,
    MetricsCalculator.trade_returns_of
      (filter MetricsCalculator.is_trade Samples.profitable_round_trip)
    = Some returns
    /\ MetricsCalculator._calculate_trading_metrics Samples.profitable_round_trip
       = Some (win_rate, profit_factor, avg_trade_return, best_trade,
               worst_trade)
    /\ (0 <= win_rate /\ win_rate <= 1)
    /\ In best_trade returns
    /\ In worst_trade returns
    /\ (worst_trade <= avg_trade_return /\ avg_trade_return <= best_trade)
    /\ Forall (fun r => worst_trade <= r /\ r <= best_trade) returns
    /\ (profit_factor = Inf <-> Forall (fun r => 0 <= r) returns).
Proof.
  apply (trading_metrics_bounds Samples.profitable_round_trip).
  - repeat constructor; intros _; qdecide.
  - discriminate.
Defined.

(* ------------------------------------------------------------------------- *)
(** ** Confidence scores *)

Lemma unit_clamp_range (x : Q) :
  0 <= ConfidenceCalculator.unit_clamp x
  /\ ConfidenceCalculator.unit_clamp x <= 1.
Proof.
  unfold ConfidenceCalculator.unit_clamp, MetricsCalculator.py_min, py_max.
  qcases; lra.
Qed.

Lemma unit_clamp_id (x : Q) :
  0 <= x -> x <= 1 -> ConfidenceCalculator.unit_clamp x == x.
Proof.
  intros H0 H1.
  unfold ConfidenceCalculator.unit_clamp, MetricsCalculator.py_min, py_max.
  destruct (Qltb 0 x) eqn:E0;
    [apply Qltb_true in E0 | apply Qltb_false in E0]; qcases; lra.
Qed.

(** X16: for a data quality in [0, 1] the fallback confidence is
    [0.1 + 0.1 * data_quality] plus a boost of 0.05 for the reason
    ["llm_failed"], of 0.02 for ["insufficient_data"] and of nothing for
    every other reason, known or not; it lies in [0.1, 0.25], so the final
    clamp to [0, 1] never acts. *)
Theorem fallback_confidence_is_low (reason : string) (data_quality : Q) :
  0 <= data_quality -> data_quality <= 1 ->
  let confidence :=
    ConfidenceCalculator.calculate_fallback_confidence reason data_quality in
  let boost :=
    if String.eqb reason "llm_failed" then 0.05
    else if String.eqb reason "insufficient_data" then 0.02
         else 0 in
  confidence == 0.1 + data_quality * 0.1 + boost
  /\ 0.1 <= confidence /\ confidence <= 0.25.
Proof.
  intros H0 H1. cbv zeta.
  unfold ConfidenceCalculator.calculate_fallback_confidence.
  assert (Hboost : ConfidenceCalculator.get
                     (dict_get ConfidenceCalculator.reason_penalty reason) 0
                   == if String.eqb reason "llm_failed" then 0.05
                      else if String.eqb reason "insufficient_data" then 0.02
                           else 0).
  { unfold ConfidenceCalculator.reason_penalty. cbn [dict_get].
    rewrite !(String.eqb_sym _ reason).
    repeat match goal with
           | |- context [String.eqb reason ?k] =>
               destruct (String.eqb_spec reason k) as [->|?]
           end;
      try reflexivity; try congruence. }
  set (boost := ConfidenceCalculator.get _ 0) in *.
  assert (Hb : 0 <= boost /\ boost <= 0.05).
  { rewrite Hboost.
    destruct (String.eqb reason "llm_failed");
      [|destruct (String.eqb reason "insufficient_data")]; split; lra. }
  rewrite <- Hboost. clearbody boost.
  rewrite unit_clamp_id by lra. split; [reflexivity|]. split; lra.
Qed.

Lemma fallback_confidence_is_low_witness :
  ConfidenceCalculator.calculate_fallback_confidence "llm_failed" 0 <= 0.25.
Proof.
  apply (fallback_confidence_is_low "llm_failed" 0); discriminate.
Defined.

Lemma count_factor_grows (amount : option Q) (cap scale : Q) (acc : Z * Q) :
  0 <= cap -> 0 < scale ->
  snd acc <= snd (ConfidenceCalculator.count_factor amount cap scale acc)
  /\ snd (ConfidenceCalculator.count_factor amount cap scale acc)
     <= snd acc + cap.
Proof.
  intros Hcap Hscale. unfold ConfidenceCalculator.count_factor.
  destruct amount as [n|]; [|split; lra].
  destruct (Qltb 0 n) eqn:E; [|split; lra].
  apply Qltb_true in E. cbn [snd].
  assert (Hdiv : 0 <= n / scale) by (apply Qle_shift_div_l; lra).
  unfold MetricsCalculator.py_min. qcases; split; lra.
Qed.

Lemma analysis_depth_range (analysis_factors : AnalysisFactors.t) :
  0.3 <= ConfidenceCalculator._calculate_analysis_depth analysis_factors
  /\ ConfidenceCalculator._calculate_analysis_depth analysis_factors <= 1.
Proof.
  unfold ConfidenceCalculator._calculate_analysis_depth. cbv zeta.
  split; [|apply unit_clamp_range].
  set (a0 := (0%Z, 0.3)).
  set (a1 := ConfidenceCalculator.count_factor _ 0.2 20 a0).
  set (a2 := ConfidenceCalculator.count_factor _ 0.2 10 a1).
  set (a3 := ConfidenceCalculator.count_factor _ 0.2 20 a2).
  set (a4 := ConfidenceCalculator.count_factor _ 0.1 5 a3).
  assert (H1 : snd a0 <= snd a1)
    by (apply count_factor_grows; [discriminate | reflexivity]).
  assert (H2 : snd a1 <= snd a2)
    by (apply count_factor_grows; [discriminate | reflexivity]).
  assert (H3 : snd a2 <= snd a3)
    by (apply count_factor_grows; [discriminate | reflexivity]).
  assert (H4 : snd a3 <= snd a4)
    by (apply count_factor_grows; [discriminate | reflexivity]).
  change (snd a0) with 0.3 in H1.
  set (score := if (2 <=? fst a4)%Z then snd a4 + 0.1 else snd a4).
  assert (Hs : 0.3 <= score) by (unfold score; destruct (2 <=? fst a4)%Z; lra).
  clearbody score.
  unfold ConfidenceCalculator.unit_clamp, MetricsCalculator.py_min, py_max.
  destruct (Qltb 0 score) eqn:E0;
    [apply Qltb_true in E0 | apply Qltb_false in E0]; qcases; lra.
Qed.

Lemma decision_certainty_some (math_log2 : Q -> Q) (probabilities : list Q) :
  ~ math_log2 3 == 0 ->
  exists certainty,
    ConfidenceCalculator._calculate_decision_certainty math_log2 probabilities
    = Some certainty
    /\ 0 <= certainty /\ certainty <= 1.
Proof.
  intros Hlog. unfold ConfidenceCalculator._calculate_decision_certainty.
  destruct (negb (Nat.eqb (List.length probabilities) 3)).
  - exists 0.5. split; [reflexivity|]. split; discriminate.
  - destruct (Qeq_bool (math_log2 3) 0) eqn:E;
      [apply Qeq_bool_iff in E; contradiction|].
    eexists. split; [reflexivity|]. apply unit_clamp_range.
Qed.

(** X17: with a logarithm whose value at 3 is not zero and a data quality in
    [0, 1], the rule-based confidence is defined and is the weighted sum
    [0.075 * data_quality + 0.25 * certainty + 0.2 * depth + 0.09
     + 0.15 * strength] of its clamped components; the analysis depth is at
    least 0.3, so the confidence lies in [0.15, 0.765] and the final clamp to
    [0, 1] never acts. *)
Theorem rule_based_confidence_range
        (math_log2 : Q -> Q) (data_quality : Q)
        (analysis_factors : AnalysisFactors.t) :
  ~ math_log2 3 == 0 ->
  0 <= data_quality -> data_quality <= 1 ->
  exists confidence certainty,
    ConfidenceCalculator._calculate_decision_certainty
      math_log2
      (ConfidenceCalculator.get
         (AnalysisFactors.probabilities analysis_factors) [0.33; 0.34; 0.33])
    = Some certainty
    /\ ConfidenceCalculator.calculate_rule_based_confidence
         math_log2 data_quality analysis_factors = Some confidence
    /\ confidence
       == 0.075 * data_quality + 0.25 * certainty
          + 0.2 * ConfidenceCalculator._calculate_analysis_depth analysis_factors
          + 0.09
          + 0.15 * ConfidenceCalculator._calculate_signal_strength
                     analysis_factors
    /\ 0.3 <= ConfidenceCalculator._calculate_analysis_depth analysis_factors
    /\ 0.15 <= confidence /\ confidence <= 0.765.
Proof.
  intros Hlog H0 H1.
  destruct (decision_certainty_some
              math_log2
              (ConfidenceCalculator.get
                 (AnalysisFactors.probabilities analysis_factors)
                 [0.33; 0.34; 0.33]) Hlog) as [certainty [Hc [Hc0 Hc1]]].
  unfold ConfidenceCalculator.calculate_rule_based_confidence.
  rewrite Hc. cbv zeta.
  destruct (analysis_depth_range analysis_factors) as [Hd0 Hd1].
  destruct (unit_clamp_range
              (let strength_score := 0.3 in
               let buy_signals :=
                 ConfidenceCalculator.get
                   (AnalysisFactors.buy_signals analysis_factors) 0 in
               let sell_signals :=
                 ConfidenceCalculator.get
                   (AnalysisFactors.sell_signals analysis_factors) 0 in
               let total_signals :=
                 ConfidenceCalculator.get
                   (AnalysisFactors.total_signals analysis_factors) 0 in
               if Qltb 0 total_signals
               then
                 if Qle_bool 3 total_signals
                 then strength_score
                      + py_max buy_signals sell_signals / total_signals * 0.4
                      + 0.2
                 else strength_score
                      + py_max buy_signals sell_signals / total_signals * 0.4
               else strength_score)) as [Hs0 Hs1].
  change (ConfidenceCalculator.unit_clamp _)
    with (ConfidenceCalculator._calculate_signal_strength analysis_factors)
    in Hs0, Hs1.
  set (depth := ConfidenceCalculator._calculate_analysis_depth analysis_factors) in *.
  set (strength := ConfidenceCalculator._calculate_signal_strength analysis_factors) in *.
  clearbody depth strength.
  eexists. exists certainty. split; [reflexivity|]. split; [reflexivity|].
  rewrite unit_clamp_id by lra.
  split; [ring|]. split; [exact Hd0|]. split; lra.
Qed.

Lemma rule_based_confidence_range_witness :
  exists confidence certainty,
    ConfidenceCalculator._calculate_decision_certainty
      Samples.log_stub
      (ConfidenceCalculator.get
         (AnalysisFactors.probabilities FactorSamples.fundamental)
         [0.33; 0.34; 0.33])
    = Some certainty
    /\ ConfidenceCalculator.calculate_rule_based_confidence
         Samples.log_stub 0.9 FactorSamples.fundamental = Some confidence
    /\ confidence
       == 0.075 * 0.9 + 0.25 * certainty
          + 0.2 * ConfidenceCalculator._calculate_analysis_depth
                    FactorSamples.fundamental
          + 0.09
          + 0.15 * ConfidenceCalculator._calculate_signal_strength
                     FactorSamples.fundamental
    /\ 0.3 <= ConfidenceCalculator._calculate_analysis_depth
                FactorSamples.fundamental
    /\ 0.15 <= confidence /\ confidence <= 0.765.
Proof.
  apply (rule_based_confidence_range Samples.log_stub 0.9
                                     FactorSamples.fundamental);
    discriminate.
Defined.

(* ------------------------------------------------------------------------- *)
(** ** What a trade record reports *)



(* ------------------------------------------------------------------------- *)
(** ** The day loop of the backtester *)

Lemma returns_zero_after_update s cash' d date :
  returns_zero s ->
  returns_zero (PortfolioSimulator._update_portfolio_state
                  (PortfolioSimulator.write_ledger s cash' d) date).
Proof.
  intros [Hall Hlast]. unfold returns_zero.
  cbn [PortfolioSimulator._update_portfolio_state
       PortfolioSimulator.portfolio_history
       PortfolioSimulator.current_state].
  split.
  - apply Forall_app. split; [exact Hall|].
    constructor; [|constructor].
    cbn [PortfolioSimulator.write_ledger PortfolioSimulator.portfolio_history
         PortfolioSimulator.current_state]. simpl.
    destruct (rev (PortfolioSimulator.portfolio_history s)) as [|prev hs];
      [reflexivity|].
    rewrite Hlast.
    destruct (Qltb 0 _) eqn:E; [|reflexivity].
    apply Qltb_true in E. field. lra.
  - cbn [PortfolioSimulator.write_ledger PortfolioSimulator.portfolio_history].
    rewrite rev_app_distr. reflexivity.
Qed.

Lemma returns_zero_current s :
  returns_zero s -> PortfolioSimulator.portfolio_history s <> [] ->
  PortfolioState.daily_return (PortfolioSimulator.current_state s) == 0.
Proof.
  intros [Hall Hlast] Hne.
  destruct (rev (PortfolioSimulator.portfolio_history s)) as [|x l] eqn:Er.
  - apply (f_equal (@rev _)) in Er. rewrite rev_involutive in Er.
    contradiction.
  - subst x. rewrite Forall_forall in Hall. apply Hall.
    apply in_rev. rewrite Er. now left.
Qed.

Lemma updated_keeps s s' :
  updated s s' ->
  returns_zero s -> PortfolioSimulator.portfolio_history s <> [] ->
  returns_zero s' /\ PortfolioSimulator.portfolio_history s' <> [].
Proof.
  intros [->|[[cash' [d [date ->]]]|[cash' [d [date [record ->]]]]]] Hz Hne.
  - now split.
  - split; [now apply returns_zero_after_update|].
    cbn. intros H. now apply app_eq_nil in H as [_ H].
  - split.
    + exact (returns_zero_after_update s cash' d date Hz).
    + cbn. intros H. now apply app_eq_nil in H as [_ H].
Qed.

Lemma execute_trade_action s ticker action price conf reas eo date record s' :
  PortfolioSimulator.execute_trade s ticker action price conf reas eo date
  = Some (record, s') ->
  TradeRecord.action record = action.
Proof.
  intros Hexec. unfold PortfolioSimulator.execute_trade in Hexec.
  cbv beta iota zeta in Hexec. destruct action.
  - unfold PortfolioSimulator._execute_buy in Hexec.
    destruct (PortfolioSimulator.buy_order s _ price)
      as [[[[q' cost] msg]|] m].
    + destruct (dict_get _ ticker) as [position|].
      * destruct (Position.add_quantity position q' price); [|discriminate].
        injection Hexec as <- _. now destruct msg.
      * injection Hexec as <- _. now destruct msg.
    + now injection Hexec as <- _.
  - unfold PortfolioSimulator._execute_sell in Hexec.
    destruct (dict_get _ ticker) as [position|].
    + destruct (Position.quantity position <? _)%Z;
        cbv beta iota zeta in Hexec; now injection Hexec as <- _.
    + now injection Hexec as <- _.
  - now injection Hexec as <- _.
Qed.

(** A BUY or SELL at a positive price on a well-formed position map. *)
Lemma execute_trade_logged s ticker action price conf reas eo date :
  book_ok s -> 0 < price -> action <> TradeAction.HOLD ->
  exists record s',
    PortfolioSimulator.execute_trade s ticker action price conf reas eo date
    = Some (record, s')
    /\ book_ok s'
    /\ TradeRecord.action record = action
    /\ PortfolioSimulator.trade_history s'
       = PortfolioSimulator.trade_history s
         ++ (if TradeRecord.success record then [record] else [])
    /\ updated s s'.
Proof.
  intros Hok Hp Ha.
  destruct (do_call_book s (ExecuteTrade ticker action price conf reas eo date)
                         Hok Hp) as [r [s' [Hdo Hok']]].
  pose proof (do_call_shape _ _ _ _ Hdo) as Hshape.
  cbn [do_call] in Hdo.
  destruct (PortfolioSimulator.execute_trade s ticker action price conf reas
                                             eo date)
    as [[record s0]|] eqn:Hexec; [|discriminate].
  injection Hdo as <- <-.
  pose proof (execute_trade_action _ _ _ _ _ _ _ _ _ _ Hexec) as Hact.
  exists record, s0. split; [reflexivity|]. split; [exact Hok'|].
  split; [exact Hact|].
  unfold logged in Hshape. cbn [returned] in Hshape. rewrite Hact in Hshape.
  destruct Hshape
    as [[-> [Hlog _]]
       |[[cash' [d [date' [record0 [Hr [Hlog ->]]]]]]|[d [date' [Hr _]]]]];
    [| |discriminate].
  - split; [|now left].
    destruct action; try contradiction;
      (destruct (TradeRecord.success record); [discriminate|];
       now rewrite app_nil_r).
  - injection Hr as <-. split.
    + destruct action; try contradiction;
        (destruct (TradeRecord.success record); [|discriminate]; reflexivity).
    + right. right. now exists cash', d, date', record.
Qed.

Lemma update_prices_kept s price_updates date :
  book_ok s ->
  book_ok (PortfolioSimulator.update_prices s price_updates date)
  /\ PortfolioSimulator.trade_history
       (PortfolioSimulator.update_prices s price_updates date)
     = PortfolioSimulator.trade_history s
  /\ updated s (PortfolioSimulator.update_prices s price_updates date).
Proof.
  intros Hok.
  destruct (do_call_book s (UpdatePrices price_updates date) Hok I)
    as [r [s' [Hdo Hok']]].
  cbn [do_call] in Hdo. injection Hdo as <- <-.
  split; [exact Hok'|]. split; [reflexivity|].
  right. left. unfold PortfolioSimulator.update_prices. eauto.
Qed.

Lemma start_ok portfolio_config now first_day :
  backtester_ok (BacktestLoop.start portfolio_config now first_day).
Proof.
  unfold backtester_ok, BacktestLoop.start. cbn.
  split; [split; constructor|].
  split; [split; [repeat constructor | reflexivity]|].
  split; [discriminate|]. split; [reflexivity|]. split; [constructor|].
  split; [repeat constructor|]. split; lia.
Qed.

Lemma process_ticker_ok b ticker current_date current_price environment :
  backtester_ok b -> 0 < current_price ->
  exists b',
    BacktestLoop._process_ticker_optimized b ticker current_date current_price
                                           environment = Some b'
    /\ backtester_ok b'
    /\ BacktestLoop.portfolio_history b' = BacktestLoop.portfolio_history b
    /\ (BacktestLoop.log_trade environment = true ->
        BacktestLoop.successful_decisions b
        = Z.of_nat (List.length (BacktestLoop.trade_log b)) ->
        BacktestLoop.successful_decisions b'
        = Z.of_nat (List.length (BacktestLoop.trade_log b'))).
Proof.
  intros Hb Hp.
  destruct Hb as [Hok [Hz [Hne [Hlog [Hexe [Hsnap [Hsucc Htot]]]]]]].
  assert (Hb : backtester_ok b) by (repeat split; assumption || apply Hok || apply Hz || apply Hsucc).
  unfold BacktestLoop._process_ticker_optimized.
  destruct (BacktestLoop.aggregation environment) as [|[result|]];
    [exists b; repeat split; assumption || apply Hok || apply Hz || apply Hsucc || tauto
    | | exists b; repeat split; assumption || apply Hok || apply Hz || apply Hsucc || tauto].
  cbv zeta.
  set (b1 := BacktestLoop.mk (BacktestLoop.portfolio_simulator b)
                             (BacktestLoop.portfolio_history b)
                             (BacktestLoop.trade_log b)
                             (BacktestLoop.total_decisions b + 1)
                             (BacktestLoop.successful_decisions b)).
  assert (Hb1 : backtester_ok b1).
  { unfold backtester_ok, b1. cbn.
    repeat split; try assumption; try apply Hok; try apply Hz; lia. }
  destruct (negb (BacktestLoop.log_daily_ticker environment)).
  { exists b1. split; [reflexivity|]. split; [exact Hb1|].
    split; [reflexivity|]. intros _ H. exact H. }
  assert (Htrade : forall action,
             action <> TradeAction.HOLD ->
             exists b',
               match
                 PortfolioSimulator.execute_trade
                   (BacktestLoop.portfolio_simulator b1) ticker action
                   current_price
                   (Some (AggregationResult.overall_confidence result))
                   (AggregationResult.reasoning result)
                   (BacktestLoop.expert_outputs_of result) current_date
               with
               | Some (trade_record, simulator) =>
                   let b := BacktestLoop.set_simulator b1 simulator in
                   if TradeRecord.success trade_record then
                     let b := BacktestLoop.mk
                                (BacktestLoop.portfolio_simulator b)
                                (BacktestLoop.portfolio_history b)
                                (BacktestLoop.trade_log b ++ [trade_record])
                                (BacktestLoop.total_decisions b)
                                (BacktestLoop.successful_decisions b) in
                     if BacktestLoop.log_trade environment then
                       Some (BacktestLoop.mk
                               (BacktestLoop.portfolio_simulator b)
                               (BacktestLoop.portfolio_history b)
                               (BacktestLoop.trade_log b)
                               (BacktestLoop.total_decisions b)
                               (BacktestLoop.successful_decisions b + 1))
                     else Some b
                   else Some b
               | None => None
               end = Some b'
               /\ backtester_ok b'
               /\ BacktestLoop.portfolio_history b'
                  = BacktestLoop.portfolio_history b
               /\ (BacktestLoop.log_trade environment = true ->
                   BacktestLoop.successful_decisions b
                   = Z.of_nat (List.length (BacktestLoop.trade_log b)) ->
                   BacktestLoop.successful_decisions b'
                   = Z.of_nat (List.length (BacktestLoop.trade_log b')))).
  { intros action Ha.
    destruct (execute_trade_logged
                (BacktestLoop.portfolio_simulator b) ticker action
                current_price
                (Some (AggregationResult.overall_confidence result))
                (AggregationResult.reasoning result)
                (BacktestLoop.expert_outputs_of result) current_date
                Hok Hp Ha)
      as [record [s' [Hexec [Hok' [Hact [Hhist Hupd]]]]]].
    change (BacktestLoop.portfolio_simulator b1)
      with (BacktestLoop.portfolio_simulator b).
    rewrite Hexec. cbv zeta.
    destruct (updated_keeps _ _ Hupd Hz Hne) as [Hz' Hne'].
    destruct (TradeRecord.success record) eqn:Es.
    - assert (Hexe' : Forall executed (BacktestLoop.trade_log b ++ [record])).
      { apply Forall_app. split; [exact Hexe|].
        constructor; [|constructor]. split; [exact Es | congruence]. }
      destruct (BacktestLoop.log_trade environment) eqn:El;
        eexists; (split; [reflexivity|]); cbn;
        (split; [|split; [reflexivity|]]).
      + unfold backtester_ok. cbn. rewrite Hhist, Hlog, length_app. cbn.
        rewrite Hlog in Hsucc, Htot, Hexe'.
        repeat split; try assumption; try apply Hok'; try apply Hz'; lia.
      + intros _ H. rewrite length_app. cbn. lia.
      + unfold backtester_ok. cbn. rewrite Hhist, Hlog, length_app. cbn.
        rewrite Hlog in Hsucc, Htot, Hexe'.
        repeat split; try assumption; try apply Hok'; try apply Hz'; lia.
      + intros H. discriminate H.
    - eexists. split; [reflexivity|]. cbn.
      split; [|split; [reflexivity | intros _ H; exact H]].
      unfold backtester_ok. cbn. rewrite Hhist, app_nil_r.
      repeat split; try assumption; try apply Hok'; try apply Hz'; lia. }
  destruct (AggregationResult.decision_type result).
  - apply Htrade. discriminate.
  - exists b1. split; [reflexivity|]. split; [exact Hb1|].
    split; [reflexivity|]. intros _ H. exact H.
  - apply Htrade. discriminate.
Qed.

Lemma daily_metrics_ok tickers price_data b current_date log_daily_portfolio :
  backtester_ok b ->
  let b' := BacktestLoop._calculate_daily_metrics_optimized
              tickers price_data b current_date log_daily_portfolio in
  backtester_ok b'
  /\ BacktestLoop.trade_log b' = BacktestLoop.trade_log b
  /\ BacktestLoop.successful_decisions b' = BacktestLoop.successful_decisions b
  /\ BacktestLoop.total_decisions b' = BacktestLoop.total_decisions b
  /\ BacktestLoop.portfolio_history b'
     = BacktestLoop.portfolio_history b
       ++ (if log_daily_portfolio
           then [PortfolioSimulator.current_state
                   (BacktestLoop.portfolio_simulator b')]
           else []).
Proof.
  intros [Hok [Hz [Hne [Hlog [Hexe [Hsnap [Hsucc Htot]]]]]]]. cbv zeta.
  unfold BacktestLoop._calculate_daily_metrics_optimized. cbv zeta.
  set (updates := BacktestLoop.price_updates_of _ _ _ _).
  set (simulator := match updates with
                    | [] => BacktestLoop.portfolio_simulator b
                    | _ :: _ =>
                        PortfolioSimulator.update_prices
                          (BacktestLoop.portfolio_simulator b) updates
                          current_date
                    end).
  assert (Hsim : book_ok simulator
                 /\ PortfolioSimulator.trade_history simulator
                    = PortfolioSimulator.trade_history
                        (BacktestLoop.portfolio_simulator b)
                 /\ updated (BacktestLoop.portfolio_simulator b) simulator).
  { unfold simulator. destruct updates as [|u updates'].
    - split; [exact Hok|]. split; [reflexivity | now left].
    - now apply update_prices_kept. }
  destruct Hsim as [Hok' [Hhist Hupd]].
  destruct (updated_keeps _ _ Hupd Hz Hne) as [Hz' Hne'].
  pose proof (returns_zero_current simulator Hz' Hne') as Hcur.
  destruct log_daily_portfolio; cbn.
  - split; [|repeat split].
    unfold backtester_ok. cbn. rewrite Hhist.
    repeat split; try assumption; try apply Hok'; try apply Hz'; try lia.
    apply Forall_app. split; [exact Hsnap|]. now constructor.
  - rewrite app_nil_r. split; [|repeat split].
    unfold backtester_ok. cbn. rewrite Hhist.
    repeat split; try assumption; try apply Hok'; try apply Hz'; lia.
Qed.

Lemma calls_of_day_priced tickers price_data current_date :
  Forall (fun c : Z * string * Q => 0 < snd c)
         (HighPerformanceBacktester.calls_of_day tickers price_data
                                                 current_date).
Proof.
  unfold HighPerformanceBacktester.calls_of_day.
  apply Forall_forall. intros c Hin. apply in_flat_map in Hin.
  destruct Hin as [ticker [_ Hin]].
  destruct (dict_get price_data ticker) as [data|]; [|contradiction].
  destruct (HighPerformanceBacktester.in_index data current_date);
    [|contradiction].
  destruct (HighPerformanceBacktester.loc_close data current_date)
    as [price|]; [|contradiction].
  destruct (Qltb 0 price) eqn:E; [|contradiction].
  destruct Hin as [<-|[]]. now apply Qltb_true.
Qed.

Lemma process_tickers_ok environment (calls : list (Z * string * Q)) :
  forall b,
    backtester_ok b -> Forall (fun c => 0 < snd c) calls ->
    exists b',
      BacktestLoop.process_tickers b calls environment = Some b'
      /\ backtester_ok b'
      /\ BacktestLoop.portfolio_history b' = BacktestLoop.portfolio_history b
      /\ (trades_logged environment -> all_counted b -> all_counted b').
Proof.
  induction calls as [|[[current_date ticker] price] calls IH];
    intros b Hb Hpriced.
  - exists b. split; [reflexivity|]. split; [exact Hb|].
    split; [reflexivity | tauto].
  - inversion Hpriced as [|? ? Hp Hrest]; subst. cbn [snd] in Hp.
    cbn [BacktestLoop.process_tickers].
    destruct (process_ticker_ok b ticker current_date price
                                (environment current_date ticker) Hb Hp)
      as [b1 [-> [Hb1 [Hh1 Hc1]]]].
    destruct (IH b1 Hb1 Hrest) as [b2 [-> [Hb2 [Hh2 Hc2]]]].
    exists b2. split; [reflexivity|]. split; [exact Hb2|].
    split; [congruence|].
    intros Hlogged Hall. apply Hc2; [exact Hlogged|].
    apply Hc1; [apply Hlogged | exact Hall].
Qed.

Lemma days_ok tickers price_data environment log_daily_portfolio
      (trading_dates : list Z) :
  forall b,
    backtester_ok b ->
    exists b',
      BacktestLoop.days tickers price_data environment log_daily_portfolio b
                        trading_dates = Some b'
      /\ backtester_ok b'
      /\ List.length (BacktestLoop.portfolio_history b')
         = (List.length (BacktestLoop.portfolio_history b)
            + List.length (filter log_daily_portfolio trading_dates))%nat
      /\ (trades_logged environment -> all_counted b -> all_counted b').
Proof.
  induction trading_dates as [|current_date trading_dates IH]; intros b Hb.
  - exists b. split; [reflexivity|]. split; [exact Hb|].
    split; [cbn; lia | tauto].
  - cbn [BacktestLoop.days]. unfold BacktestLoop.day.
    destruct (process_tickers_ok
                environment
                (HighPerformanceBacktester.calls_of_day tickers price_data
                                                        current_date)
                b Hb (calls_of_day_priced _ _ _))
      as [b1 [-> [Hb1 [Hh1 Hc1]]]].
    destruct (daily_metrics_ok tickers price_data b1 current_date
                               (log_daily_portfolio current_date) Hb1)
      as [Hb2 [Ht2 [Hs2 [_ Hh2]]]].
    set (b2 := BacktestLoop._calculate_daily_metrics_optimized
                 tickers price_data b1 current_date
                 (log_daily_portfolio current_date)) in *.
    destruct (IH b2 Hb2) as [b3 [-> [Hb3 [Hh3 Hc3]]]].
    exists b3. split; [reflexivity|]. split; [exact Hb3|]. split.
    + rewrite Hh3, Hh2, length_app, Hh1. cbn [filter].
      destruct (log_daily_portfolio current_date); cbn [List.length]; lia.
    + intros Hlogged Hall. apply Hc3; [exact Hlogged|].
      unfold all_counted. rewrite Hs2, Ht2. now apply Hc1.
Qed.

(** X19: the day loop of [run_backtest], started on the freshly reset
    simulator, runs through whatever the experts and the loggers do.  At its
    end the backtester's trade log is the simulator's trade history and
    holds only executed BUY and SELL records; [successful_decisions] is at
    most the length of the trade log, which is at most [total_decisions], so
    the success rate is in [0, 1]; and when the trade logger never raises,
    [successful_decisions] is exactly the number of logged trades. *)
Theorem backtest_trade_log_and_counters
        (tickers : list string)
        (price_data : dict HighPerformanceBacktester.frame)
        (environment : Z -> string -> BacktestLoop.Environment)
        (log_daily_portfolio : Z -> bool)
        (portfolio_config : PortfolioSimulatorConfig.t) (now first_day : Z)
        (trading_dates : list Z) :
  exists b,
    BacktestLoop.days tickers price_data environment log_daily_portfolio
                      (BacktestLoop.start portfolio_config now first_day)
                      trading_dates = Some b
    /\ BacktestLoop.trade_log b
       = PortfolioSimulator.trade_history (BacktestLoop.portfolio_simulator b)
    /\ Forall executed (BacktestLoop.trade_log b)
    /\ (0 <= BacktestLoop.successful_decisions b
        <= Z.of_nat (List.length (BacktestLoop.trade_log b)))%Z
    /\ (Z.of_nat (List.length (BacktestLoop.trade_log b))
        <= BacktestLoop.total_decisions b)%Z
    /\ (0 <= BacktestLoop.success_rate b /\ BacktestLoop.success_rate b <= 1)
    /\ (trades_logged environment ->
        BacktestLoop.successful_decisions b
        = Z.of_nat (List.length (BacktestLoop.trade_log b))).
Proof.
  destruct (days_ok tickers price_data environment log_daily_portfolio
                    trading_dates _
                    (start_ok portfolio_config now first_day))
    as [b [Hdays [Hb [_ Hcount]]]].
  exists b. split; [exact Hdays|].
  destruct Hb as [_ [_ [_ [Hlog [Hexe [_ [Hsucc Htot]]]]]]].
  split; [exact Hlog|]. split; [exact Hexe|]. split; [exact Hsucc|].
  split; [exact Htot|]. split.
  - unfold BacktestLoop.success_rate.
    assert (Hmax : 0 < inject_Z (Z.max (BacktestLoop.total_decisions b) 1))
      by (apply inject_Z_pos; lia).
    split.
    + apply Qle_shift_div_l; [exact Hmax|].
      rewrite Qmult_0_l. change 0 with (inject_Z 0). rewrite <- Zle_Qle. lia.
    + apply Qle_shift_div_r; [exact Hmax|].
      rewrite Qmult_1_l. rewrite <- Zle_Qle. lia.
  - intros Hlogged. apply Hcount; [exact Hlogged | reflexivity].
Qed.

Lemma backtest_trade_log_and_counters_witness :
  exists b,
    BacktestLoop.days ["A"%string] LoopSamples.price_data
                      LoopSamples.environment (fun _ => true)
                      (BacktestLoop.start PortfolioSimulatorConfig.default 0 1)
                      [1%Z; 2%Z] = Some b
    /\ BacktestLoop.successful_decisions b
       = Z.of_nat (List.length (BacktestLoop.trade_log b)).
Proof.
  destruct (backtest_trade_log_and_counters
              ["A"%string] LoopSamples.price_data LoopSamples.environment
              (fun _ => true) PortfolioSimulatorConfig.default 0 1
              [1%Z; 2%Z])
    as [b [Hdays [_ [_ [_ [_ [_ Hcount]]]]]]].
  exists b. split; [exact Hdays|].
  apply Hcount. intros current_date ticker. reflexivity.
Defined.

(** X20: at the end of the day loop the backtester's portfolio history
    holds the initial state and one snapshot for every trading day on which
    the portfolio logger returned, and every one of these snapshots reports
    a daily return of 0. *)
Theorem backtest_snapshots_report_no_return
        (tickers : list string)
        (price_data : dict HighPerformanceBacktester.frame)
        (environment : Z -> string -> BacktestLoop.Environment)
        (log_daily_portfolio : Z -> bool)
        (portfolio_config : PortfolioSimulatorConfig.t) (now first_day : Z)
        (trading_dates : list Z) :
  exists b,
    BacktestLoop.days tickers price_data environment log_daily_portfolio
                      (BacktestLoop.start portfolio_config now first_day)
                      trading_dates = Some b
    /\ List.length (BacktestLoop.portfolio_history b)
       = S (List.length (filter log_daily_portfolio trading_dates))
    /\ Forall (fun snapshot => PortfolioState.daily_return snapshot == 0)
              (BacktestLoop.portfolio_history b).
Proof.
  destruct (days_ok tickers price_data environment log_daily_portfolio
                    trading_dates _
                    (start_ok portfolio_config now first_day))
    as [b [Hdays [Hb [Hlen _]]]].
  exists b. split; [exact Hdays|]. split; [exact Hlen|]. apply Hb.
Qed.

(* ------------------------------------------------------------------------- *)
(** ** Binary64: what the rounding decides *)

Section Binary64Outcomes.
Import PrimFloat FloatOps SpecFloat FloatAxioms.
Local Open Scope float_scope.





(** The constructor on the sums that decide it: a negative component passes;
    the exact sum of (1e16, 1, -1e16) is 1 but the floats add up to 0 and the
    triple is refused; a sum of 1.00001 passes, one of 1.000012 does not. *)
Lemma DecisionProbabilities_construction_examples :
  Binary64.DecisionProbabilities.new (-0.5) 1 0.5
  = Some (Binary64.DecisionProbabilities.mk (-0.5) 1 0.5)
  /\ Binary64.DecisionProbabilities.new 1e16 1 (-1e16) = None
  /\ Binary64.DecisionProbabilities.new 0.5 0.3 0.20001
     = Some (Binary64.DecisionProbabilities.mk 0.5 0.3 0.20001)
  /\ Binary64.DecisionProbabilities.new 0.5 0.3 0.200012 = None.
Proof. repeat split; vm_compute; reflexivity. Qed.

(** C6 (amended): at a price that passes the validation (positive, not a
    NaN) the share count is built from three truncated binary64 quotients,
    each product and quotient rounded as the floats round and evaluated in
    the order written: [shares = int(((total_value * position_sizing) *
    (0.5 + confidence * 0.5)) / price)], capped by [max_shares =
    int((total_value * max_position_size) / price)] and then raised to
    [max(1, int((total_value * 0.01) / price))]; a NaN confidence counts as
    0.5.  This is the clamp of the specification with the lower bound raised
    to one share.  The order is therefore never below one share, and the call
    raises exactly when one of the quotients is infinite or a NaN. *)
Theorem calculate_position_size_formula
        (s : Binary64.PortfolioSimulator.t) (price confidence : float) :
  (price <=? 0) || is_nan price = false ->
  let total_value := Binary64.PortfolioSimulator.total_value s in
  let config := Binary64.PortfolioSimulator.config s in
  let effective := if is_nan confidence then 0.5 else confidence in
  let quotient :=
    total_value * Binary64.PortfolioSimulatorConfig.position_sizing config
    * (0.5 + effective * 0.5) / price in
  let max_quotient :=
    total_value * Binary64.PortfolioSimulatorConfig.max_position_size config
    / price in
  let floor_quotient := total_value * 0.01 / price in
  Binary64.PortfolioSimulator.calculate_position_size s price confidence
  = match Binary64.int quotient, Binary64.int max_quotient,
          Binary64.int floor_quotient with
    | Some shares, Some max_shares, Some floor_shares =>
        Some (clamp (Z.max 1 floor_shares) max_shares shares)
    | _, _, _ => None
    end
  /\ forall quantity,
      Binary64.PortfolioSimulator.calculate_position_size s price confidence
      = Some quantity ->
      (1 <= quantity)%Z.
Proof.
  intros Hvalid. cbv zeta.
  unfold Binary64.PortfolioSimulator.calculate_position_size.
  rewrite Hvalid. unfold clamp.
  destruct (Binary64.int _) as [shares|]; [|split; [reflexivity | discriminate]].
  destruct (Binary64.int _) as [max_shares|];
    [|split; [reflexivity | discriminate]].
  destruct (Binary64.int _) as [floor_shares|];
    [|split; [reflexivity | discriminate]].
  split; [f_equal; apply Z.max_comm|].
  intros quantity H. injection H as <-. lia.
Qed.

(** The scenario of the specification: capital $100,000, confidence 0.8,
    price $50, position sizing 0.08: 144 shares. *)
Lemma calculate_position_size_formula_witness :
  Binary64.PortfolioSimulator.calculate_position_size
    (Binary64.PortfolioSimulator.init Binary64.PortfolioSimulatorConfig.default)
    50 0.8
  = Some 144%Z.
Proof.
  rewrite (proj1 (calculate_position_size_formula
                    (Binary64.PortfolioSimulator.init
                       Binary64.PortfolioSimulatorConfig.default)
                    50 0.8 eq_refl)).
  vm_compute. reflexivity.
Defined.

(** The truncation is that of the rounded quotient, which can fall below the
    floor of the exact one: with capital $100,000, confidence 0.36 and a
    price of $10 the floats give 543.99999999999989 and the order is 543
    shares, where the exact quotient of the same numbers is 544. *)
Lemma position_size_rounds_below_the_exact_quotient :
  Binary64.PortfolioSimulator.calculate_position_size
    (Binary64.PortfolioSimulator.init Binary64.PortfolioSimulatorConfig.default)
    10 0.36
  = Some 543%Z
  /\ PortfolioSimulator.calculate_position_size
       (PortfolioSimulator.init PortfolioSimulatorConfig.default 0)
       "A" 10%Q (Some 0.36%Q)
     = 544%Z.
Proof. split; vm_compute; reflexivity. Qed.

(** The portfolio of $100 at a price of $50, where the clamp of the
    specification gives no share: the floats order one share as well. *)
Lemma position_size_small_portfolio_binary64 :
  Binary64.PortfolioSimulator.calculate_position_size
    (Binary64.PortfolioSimulator.init
       (Binary64.PortfolioSimulatorConfig.with_capital 100 0.1))
    50 0.8
  = Some 1%Z.
Proof. vm_compute. reflexivity. Qed.

(** C1 (the defect): [PortfolioSimulatorConfig(initial_capital=701.05,
    min_cash_reserve=0.0)], BUY at 700.0.  One share costs
    701.05000000000007 as [_execute_buy] adds it up, the available cash is
    701.04999999999995, and the order is found unaffordable.  The partial
    branch divides the available cash by [price * (1 + 0.001 + 0.0005)],
    which is 701.04999999999984; the quotient truncates to 1, so the branch
    buys the one share just found unaffordable, debits more than the
    available cash and leaves a negative cash balance. *)
Theorem buy_overdraws_cash :
  exists cost available_cash cash_after,
    Binary64.PortfolioSimulator.execute_buy
      (Binary64.PortfolioSimulator.init
         (Binary64.PortfolioSimulatorConfig.with_capital 701.05 0))
      700 0.8
    = Some (Binary64.PortfolioSimulator.Executed 1 cost available_cash
                                                 cash_after true)
    /\ (available_cash <? cost) = true
    /\ (cash_after <? 0) = true.
Proof.
  do 3 eexists. split; [vm_compute; reflexivity|].
  split; vm_compute; reflexivity.
Qed.

(** The same with the capital set to the cost of one share as the partial
    branch computes it, [50 * (1 + 0.001 + 0.0005)], no reserve and a price
    of 50: the share costs 50.074999999999996 as it is debited, against
    50.074999999999989 available, and is bought. *)
Lemma buy_overdraws_cash_at_the_unit_cost :
  Binary64.PortfolioSimulator.execute_buy
    (Binary64.PortfolioSimulator.init
       (Binary64.PortfolioSimulatorConfig.with_capital
          (50 * (1 + 0.001 + 0.0005)) 0))
    50 0.8
  = Some (Binary64.PortfolioSimulator.Executed
            1 50.074999999999996 50.074999999999989
            (-7.1054273576010019e-15) true).
Proof. vm_compute. reflexivity. Qed.

(** C5 (the defect): with the default reserve and rates and
    [initial_capital=540.81], BUY at 486.0.  The order of one share costs
    486.72899999999998 against 486.72899999999993 available; the partial
    branch neither shrinks nor refuses it but executes it as it is, so the
    share bought is not an affordable one.  And at the positive price 1e-320
    with the default configuration the quotient of the sizing overflows,
    [int] raises [OverflowError] and the call returns no record. *)
Theorem buy_exceeds_available_cash :
  (exists cost available_cash cash_after,
      Binary64.PortfolioSimulator.execute_buy
        (Binary64.PortfolioSimulator.init
           (Binary64.PortfolioSimulatorConfig.with_capital 540.81 0.1))
        486 0.8
      = Some (Binary64.PortfolioSimulator.Executed 1 cost available_cash
                                                   cash_after true)
      /\ (available_cash <? cost) = true)
  /\ (0 <? 1e-320) = true
  /\ Binary64.PortfolioSimulator.execute_buy
       (Binary64.PortfolioSimulator.init
          Binary64.PortfolioSimulatorConfig.default)
       1e-320 0.8
     = None.
Proof.
  split; [do 3 eexists; split; vm_compute; reflexivity|].
  split; vm_compute; reflexivity.
Qed.

End Binary64Outcomes.
